(** * dex-trader-mcp: the tool handlers of [src/index.ts] and their two helpers

    The development follows the three source files:
    - [JS]      the JavaScript built-ins the handlers rely on (IEEE-754
                numbers, [Math.round], [Number(string)], thrown values);
    - [Solana]  [src/solana.ts]  (wallet, balances, the decimals cache);
    - [Jupiter] [src/jupiter.ts] (quote and swap execution);
    - [Index]   [src/index.ts]   (the five tool handlers);
    - [Summary] the [get_token_summary] tool of the earlier [index.ts];
    - [Scenario] a few concrete worlds on which the handlers are run,
                and [Faults] worlds in which one service misbehaves.

    JavaScript numbers are binary64 floats; they are modelled by the
    standard library's executable specification of IEEE-754 arithmetic
    ([SpecFloat], round to nearest, ties to even), instantiated at
    precision 53.  Asynchronous code is sequential here: every [await]
    is a call that runs to completion, in a state-and-exception monad
    whose state holds the process-wide decimals cache and the log of the
    network requests issued so far. *)

From Stdlib Require Import ZArith QArith Qround Qpower Qabs Zpower Lia Ascii String.
From Stdlib Require Import Floats.SpecFloat.
From Stdlib Require Lqa.
From stdpp Require Import base option list gmap strings pretty.

Set Warnings "-register-all".

Local Open Scope string_scope.
Local Open Scope list_scope.
Local Open Scope Z_scope.

(* ================================================================== *)
(** * JavaScript built-ins *)
(* ================================================================== *)

Module JS.

(** ** Numbers *)

Definition prec : Z := 53.
Definition emax : Z := 1024.

(** A JavaScript Number: a binary64 value. *)
Definition number : Type := spec_float.

Definition NaN : number := S754_nan.
Definition Infinity : number := S754_infinity false.

(** The Number nearest to an integer (integer literals, JSON integers). *)
Definition number_of_Z (z : Z) : number := binary_normalize prec emax z 0 false.

(** [x * y], [x / y], [x - y] on Numbers. *)
Definition mul (x y : number) : number := SFmul prec emax x y.
Definition div (x y : number) : number := SFdiv prec emax x y.
Definition sub (x y : number) : number := SFsub prec emax x y.

(** The Number denoted by the decimal literal [m]e-[k], that is
    [m / 10^k] rounded once (both operands of the division are exact). *)
Definition number_of_decimal (m : Z) (k : nat) : number :=
  match m with
  | Z0 => S754_zero false
  | Zpos p =>
      SFdiv prec emax (S754_finite false p 0)
            (S754_finite false (Z.to_pos (10 ^ Z.of_nat k)) 0)
  | Zneg p =>
      SFdiv prec emax (S754_finite true p 0)
            (S754_finite false (Z.to_pos (10 ^ Z.of_nat k)) 0)
  end.

(** [10 ** d] for an integer exponent [d]: the Number nearest to
    [10^d].  For [d] from 0 through 22 that is [10^d] itself, the
    value of the code's power (the range of the schemas is 0 to 18).
    Outside that range this definition is not the code's: beyond 22 the
    language leaves the last bit of the result to the implementation,
    and for a negative [d] the integer power is 0 where the code has a
    fraction.  The properties that depend on the value of the power
    keep [d] within 0 to 22. *)
Definition pow10 (d : Z) : number := number_of_Z (10 ^ d).

(** [10 ** d] where [d] is a number or [undefined] ([None]):
    [undefined] converts to [NaN], and the power is then [NaN]. *)
Definition pow10_of (d : option Z) : number :=
  match d with
  | Some d => pow10 d
  | None => NaN
  end.

(** The real number a finite Number stands for (0 for the zeros and,
    by convention, for the infinities and [NaN]). *)
Definition SF2Q (x : number) : Q :=
  match x with
  | S754_finite s m e => inject_Z (cond_Zopp s (Z.pos m)) * (2 # 1) ^ e
  | _ => 0
  end.

Definition is_finite (x : number) : bool :=
  match x with
  | S754_finite _ _ _ | S754_zero _ => true
  | _ => false
  end.

(** [x > 0], as zod's [.positive()] tests it. *)
Definition positive (x : number) : bool := SFltb (S754_zero false) x.

(** [Math.round(n)] (ECMAScript 21.3.2.28): a value that is not finite
    or is a zero is returned as it is; otherwise the result is the
    integral Number closest to [n], the one closer to +Infinity in case
    of a tie, i.e. [floor (n + 1/2)]; a result of zero keeps the sign of
    [n] (steps 3 and 4). *)
Definition Math_round (n : number) : number :=
  match n with
  | S754_finite s _ _ =>
      let k := Qfloor (SF2Q n + (1 # 2)) in
      if k =? 0 then S754_zero s else number_of_Z k
  | _ => n
  end.

(** ** Strings to numbers *)

(** [Number(s)] for a string [s] is [StringToNumber] (ECMAScript
    7.1.4.1.1): white space around the literal is dropped; the empty
    string is [+0]; the literal is a radix-prefixed integer ([0x], [0o],
    [0b]), or an optionally signed [Infinity] or decimal literal with
    optional fraction and exponent; anything else is [NaN].  The value is
    the Number nearest to the mathematical value of the literal.  (Of
    the white space only the ASCII characters are recognised here.) *)

Definition code (c : ascii) : Z := Z.of_N (Ascii.N_of_ascii c).

Definition is_space (c : ascii) : bool :=
  ((9 <=? code c) && (code c <=? 13)) || (code c =? 32).

Fixpoint drop_space (l : list ascii) : list ascii :=
  match l with
  | c :: l' => if is_space c then drop_space l' else l
  | [] => []
  end.

Definition trim (l : list ascii) : list ascii :=
  rev (drop_space (rev (drop_space l))).

(** The value of a digit in a base up to 16, if it is one. *)
Definition digit_in (base : Z) (c : ascii) : option Z :=
  let n := code c in
  let v :=
    if (48 <=? n) && (n <=? 57) then Some (n - 48)
    else if (97 <=? n) && (n <=? 102) then Some (n - 87)
    else if (65 <=? n) && (n <=? 70) then Some (n - 55)
    else None in
  match v with
  | Some d => if d <? base then Some d else None
  | None => None
  end.

(** Reads the longest run of digits: the value accumulated, the number
    of digits read, and the rest of the text. *)
Fixpoint read_digits (base acc : Z) (n : nat) (l : list ascii)
  : Z * nat * list ascii :=
  match l with
  | c :: l' =>
      match digit_in base c with
      | Some d => read_digits base (base * acc + d) (S n) l'
      | None => (acc, n, l)
      end
  | [] => (acc, n, [])
  end.

(** An integer made of digits of the base only. *)
Definition read_integer (base : Z) (l : list ascii) : option Z :=
  match read_digits base 0 0 l with
  | (v, S _, []) => Some v
  | _ => None
  end.

(** An unsigned decimal literal, as its digits [D] and the power of ten
    [E] that scales them: the literal denotes [D * 10^E]. *)
Definition read_decimal (l : list ascii) : option (Z * Z) :=
  let '(ip, ni, r1) := read_digits 10 0 0 l in
  let '(D, nf, r2) :=
    match r1 with
    | "."%char :: r => read_digits 10 ip 0 r
    | _ => (ip, 0%nat, r1)
    end in
  match (ni + nf)%nat with
  | O => None
  | S _ =>
      match r2 with
      | [] => Some (D, - Z.of_nat nf)
      | c :: r3 =>
          if (code c =? 101) || (code c =? 69) then
            let '(sign, r4) :=
              match r3 with
              | "+"%char :: r => (1, r)
              | "-"%char :: r => (-1, r)
              | _ => (1, r3)
              end in
            match read_digits 10 0 0 r4 with
            | (E, S _, []) => Some (D, sign * E - Z.of_nat nf)
            | _ => None
            end
          else None
      end
  end.

(** The Number nearest to [D * 10^E], with the sign [neg]. *)
Definition decimal_value (neg : bool) (D E : Z) : number :=
  match D with
  | Zpos p =>
      if 0 <=? E then
        binary_normalize prec emax (cond_Zopp neg (Z.pos p * 10 ^ E)) 0 false
      else
        SFdiv prec emax (S754_finite neg p 0)
              (S754_finite false (Z.to_pos (10 ^ (- E))) 0)
  | _ => S754_zero neg
  end.

Definition read_signed (neg : bool) (l : list ascii) : number :=
  if String.eqb (string_of_list_ascii l) "Infinity" then S754_infinity neg
  else
    match read_decimal l with
    | Some (D, E) => decimal_value neg D E
    | None => NaN
    end.

Definition read_radix (base : Z) (l : list ascii) : number :=
  match read_integer base l with
  | Some v => number_of_Z v
  | None => NaN
  end.

Definition StringToNumber (l : list ascii) : number :=
  match trim l with
  | [] => S754_zero false
  | "0"%char :: c :: r =>
      if (code c =? 120) || (code c =? 88) then read_radix 16 r
      else if (code c =? 111) || (code c =? 79) then read_radix 8 r
      else if (code c =? 98) || (code c =? 66) then read_radix 2 r
      else read_signed false ("0"%char :: c :: r)
  | "+"%char :: r => read_signed false r
  | "-"%char :: r => read_signed true r
  | r => read_signed false r
  end.

Definition Number (s : string) : number :=
  StringToNumber (list_ascii_of_string s).

(** ** Thrown values *)

(** What a [catch] clause receives: an [Error] object with its
    [message], or some other thrown value. *)
Inductive exn : Type :=
| Error (message : string)
| NonError.

(** [error instanceof Error ? error.message : "Unknown error"] *)
Definition msg_of (error : exn) : string :=
  match error with
  | Error message => message
  | NonError => "Unknown error"
  end.

(** ** JSON values handed to [JSON.stringify] *)

Inductive json : Type :=
| JString (s : string)
| JNumber (n : number)
| JNull
| JObject (fields : list (string * json)).

(** Property lookup in an object literal. *)
Fixpoint assoc (k : string) (fields : list (string * json)) : option json :=
  match fields with
  | [] => None
  | (k', v) :: rest => if String.eqb k k' then Some v else assoc k rest
  end.

Definition get (k : string) (v : json) : option json :=
  match v with
  | JObject fields => assoc k fields
  | _ => None
  end.

End JS.

(* ================================================================== *)
(** * The outside world: services, state, and the monad of handlers *)
(* ================================================================== *)

Module Net.
Import JS.

(** The result of evaluating an expression that may throw. *)
Inductive outcome (A : Type) : Type :=
| Return (a : A)
| Throw (e : exn).
Arguments Return {A} a.
Arguments Throw {A} e.

(** ** Data exchanged with the services *)

(** One hop of a route ([routePlan[i]] of [JupiterQuote]). *)
Record SwapInfo := {
  ammKey : string;
  label : string;
  hop_inputMint : string;
  hop_outputMint : string;
  hop_inAmount : string;
  hop_outAmount : string;
  feeAmount : string;
  feeMint : string;
}.

Record RouteStep := {
  swapInfo : SwapInfo;
  percent : number;
}.

(** [interface JupiterQuote] of [jupiter.ts]. *)
Record JupiterQuote := {
  inputMint : string;
  inAmount : string;
  outputMint : string;
  outAmount : string;
  otherAmountThreshold : string;
  swapMode : string;
  slippageBps : number;
  priceImpactPct : string;
  routePlan : list RouteStep;
  contextSlot : option number;
  timeTaken : option number;
}.

(** A [fetch] response: its status code, and what reading the body as
    text or as JSON of the expected shape gives. *)
Record Response (A : Type) := {
  status : N;
  text : outcome string;
  json : outcome A;
}.
Arguments status {A} r.
Arguments text {A} r.
Arguments json {A} r.

(** [response.ok]: the status is in the range 200-299. *)
Definition ok {A} (r : Response A) : bool :=
  ((200 <=? status r) && (status r <=? 299))%N.

(** A public key, in its base58 form ([toBase58] is the identity). *)
Definition PublicKey : Type := string.

Record Keypair := {
  publicKey : PublicKey;
  secretKey : string;
}.

Record Connection := {
  rpcEndpoint : string;
}.

(** [info?.value?.data] of [getParsedAccountInfo]: absent, a raw
    buffer, or parsed data; of the parsed data the code reads
    [parsed.info.decimals], which is a number for a mint account and
    [undefined] ([None]) for a parsed account of another kind, whose
    [info] has no such field. *)
Inductive AccountData : Type :=
| Buffer
| ParsedAccountData (decimals : option Z).

(** [account.data.parsed.info.tokenAmount] of one token account. *)
Record TokenAmount := {
  amount : string;
  decimals : Z;
  uiAmount : option number;
}.

Record Blockhash := {
  blockhash : string;
  lastValidBlockHeight : Z;
}.

(** ** Requests and state *)

(** The network requests the code issues. *)
Inductive event : Type :=
| FetchQuote (inputMint outputMint : string) (amount slippageBps : number)
| FetchSwap (quoteResponse : JupiterQuote) (userPublicKey : string)
| SendRawTransaction (tx : string)
| GetLatestBlockhash
| ConfirmTransaction (signature : string) (b : Blockhash)
| GetBalance (owner : PublicKey)
| GetParsedAccountInfo (mint : PublicKey)
| GetParsedTokenAccountsByOwner (owner mint : PublicKey).

(** What persists in the process between two statements: the
    module-level [decimalsCache] of [solana.ts], a [Map] whose values
    are what was stored, a number or [undefined] ([None]); and the
    requests sent so far, oldest first. *)
Record state := {
  decimalsCache : gmap string (option Z);
  calls : list event;
}.

(** Everything the code reads from outside: the process environment,
    the library functions it calls, and the answer of each service to
    each request given the requests that came before. *)
Record world := {
  SOLANA_PRIVATE_KEY : option string;
  SOLANA_RPC_URL : option string;
  (** [Keypair.fromSecretKey(bs58.decode(s))]; [None] when either throws *)
  keypair_of_secret : string -> option Keypair;
  (** [new Connection(url, "confirmed")] *)
  new_Connection : string -> outcome Connection;
  (** [new PublicKey(s)] *)
  new_PublicKey : string -> outcome PublicKey;
  (** [Buffer.from], [VersionedTransaction.deserialize], [sign], [serialize] *)
  sign_transaction : string -> Keypair -> outcome string;
  (** [Number.prototype.toString], used in template literals *)
  Number_toString : number -> string;
  fetch_quote :
    list event -> string -> string -> number -> number ->
    outcome (Response JupiterQuote);
  fetch_swap :
    list event -> JupiterQuote -> string -> outcome (Response string);
  rpc_sendRawTransaction : list event -> string -> outcome string;
  rpc_getLatestBlockhash : list event -> outcome Blockhash;
  rpc_confirmTransaction : list event -> string -> Blockhash -> outcome unit;
  rpc_getBalance : list event -> PublicKey -> outcome Z;
  rpc_getParsedAccountInfo :
    list event -> PublicKey -> outcome (option AccountData);
  rpc_getParsedTokenAccountsByOwner :
    list event -> PublicKey -> PublicKey -> outcome (list TokenAmount);
}.

(** [LAMPORTS_PER_SOL] of [@solana/web3.js]. *)
Definition LAMPORTS_PER_SOL : number := number_of_Z 1000000000.

(** ** The monad *)

Definition M (A : Type) : Type := state -> outcome A * state.

Definition ret {A} (a : A) : M A := fun s => (Return a, s).

Definition throw {A} (e : exn) : M A := fun s => (Throw e, s).

Definition lift {A} (o : outcome A) : M A := fun s => (o, s).

Definition bind {A B} (m : M A) (k : A -> M B) : M B :=
  fun s =>
    match m s with
    | (Return a, s') => k a s'
    | (Throw e, s') => (Throw e, s')
    end.

(** [try { body } catch (error) { handler }] *)
Definition try_catch {A} (body : M A) (handler : exn -> M A) : M A :=
  fun s =>
    match body s with
    | (Return a, s') => (Return a, s')
    | (Throw e, s') => handler e s'
    end.

(** One awaited network request: it is logged, and answered from the
    requests that preceded it. *)
Definition request {A} (ev : event) (reply : list event -> outcome A) : M A :=
  fun s =>
    (reply (calls s),
     {| decimalsCache := decimalsCache s; calls := calls s ++ [ev] |}).

Definition get_cache : M (gmap string (option Z)) :=
  fun s => (Return (decimalsCache s), s).

(** [decimalsCache.set(k, v)] *)
Definition set_cache (k : string) (v : option Z) : M unit :=
  fun s =>
    (Return tt,
     {| decimalsCache := <[k := v]> (decimalsCache s); calls := calls s |}).

End Net.

Notation "x <- m ;; k" := (Net.bind m (fun x => k))
  (at level 62, m at next level, right associativity).

(* ================================================================== *)
(** * src/solana.ts *)
(* ================================================================== *)

Module Solana.
Import JS Net.

Definition DEFAULT_RPC_URL : string := "https://api.mainnet-beta.solana.com".

Definition SOL_MINT : string := "So11111111111111111111111111111111111111112".
Definition SOL_DECIMALS : Z := 9.

Section WithWorld.
Variable W : world.

(** [process.env.SOLANA_RPC_URL || DEFAULT_RPC_URL] *)
Definition getConnection : outcome Connection :=
  let rpcUrl :=
    match SOLANA_RPC_URL W with
    | Some url => if String.eqb url "" then DEFAULT_RPC_URL else url
    | None => DEFAULT_RPC_URL
    end in
  new_Connection W rpcUrl.

Definition getKeypair : outcome Keypair :=
  match SOLANA_PRIVATE_KEY W with
  | Some privateKey =>
      if String.eqb privateKey "" then
        Throw (Error "SOLANA_PRIVATE_KEY environment variable is not set. Required for signing transactions.")
      else
        match keypair_of_secret W privateKey with
        | Some keypair => Return keypair
        | None =>
            Throw (Error "Invalid SOLANA_PRIVATE_KEY. Must be a base58-encoded private key.")
        end
  | None =>
      Throw (Error "SOLANA_PRIVATE_KEY environment variable is not set. Required for signing transactions.")
  end.

Definition getSolBalance (connection : Connection) (publicKey : PublicKey)
  : M number :=
  balance <- request (GetBalance publicKey) (fun h => rpc_getBalance W h publicKey) ;;
  ret (div (number_of_Z balance) LAMPORTS_PER_SOL).

(** [decimalsCache.get] gives [undefined] for a key that has no entry
    and for a key whose entry holds [undefined]: both are a miss.  What
    is stored and returned on a miss is [data.parsed.info.decimals] as
    it came, a number or [undefined]. *)
Definition getTokenDecimals (connection : Connection) (mintAddress : string)
  : M (option Z) :=
  cache <- get_cache ;;
  match mjoin (cache !! mintAddress) with
  | Some cached => ret (Some cached)
  | None =>
      mint <- lift (new_PublicKey W mintAddress) ;;
      info <- request (GetParsedAccountInfo mint)
                      (fun h => rpc_getParsedAccountInfo W h mint) ;;
      match info with
      | Some (ParsedAccountData decimals) =>
          _ <- set_cache mintAddress decimals ;;
          ret decimals
      | _ =>
          throw (Error ("Failed to fetch decimals for mint " +:+ mintAddress))
      end
  end.

Definition getTokenBalance (connection : Connection)
    (walletAddress : PublicKey) (mintAddress : string) : M TokenAmount :=
  mint <- lift (new_PublicKey W mintAddress) ;;
  tokenAccounts <-
    request (GetParsedTokenAccountsByOwner walletAddress mint)
            (fun h => rpc_getParsedTokenAccountsByOwner W h walletAddress mint) ;;
  match tokenAccounts with
  | [] =>
      ret {| amount := "0"; decimals := 0; uiAmount := Some (number_of_Z 0) |}
  | first :: _ =>
      ret {| amount := amount first;
             decimals := decimals first;
             uiAmount := uiAmount first |}
  end.

End WithWorld.
End Solana.

(* ================================================================== *)
(** * src/jupiter.ts *)
(* ================================================================== *)

Module Jupiter.
Import JS Net.

Section WithWorld.
Variable W : world.

Definition getQuote (inputMint outputMint : string)
    (amount slippageBps : number) : M JupiterQuote :=
  response <-
    request (FetchQuote inputMint outputMint amount slippageBps)
            (fun h => fetch_quote W h inputMint outputMint amount slippageBps) ;;
  if negb (ok response) then
    body <- lift (text response) ;;
    throw (Error ("Jupiter quote failed (" +:+ pretty (status response)
                  +:+ "): " +:+ body))
  else
    lift (json response).

Definition executeSwap (quote : JupiterQuote) (keypair : Keypair)
    (connection : Connection) : M string :=
  swapResponse <-
    request (FetchSwap quote (publicKey keypair))
            (fun h => fetch_swap W h quote (publicKey keypair)) ;;
  if negb (ok swapResponse) then
    body <- lift (text swapResponse) ;;
    throw (Error ("Jupiter swap failed (" +:+ pretty (status swapResponse)
                  +:+ "): " +:+ body))
  else
    swapTransaction <- lift (json swapResponse) ;;
    transaction <- lift (sign_transaction W swapTransaction keypair) ;;
    txid <- request (SendRawTransaction transaction)
                    (fun h => rpc_sendRawTransaction W h transaction) ;;
    (* Wait for confirmation *)
    latestBlockhash <- request GetLatestBlockhash (rpc_getLatestBlockhash W) ;;
    _ <- request (ConfirmTransaction txid latestBlockhash)
                 (fun h => rpc_confirmTransaction W h txid latestBlockhash) ;;
    ret txid.

End WithWorld.
End Jupiter.

(* ================================================================== *)
(** * src/index.ts *)
(* ================================================================== *)

Module Index.
Import JS Net Solana Jupiter.

(** The [text] property of a content item: a string the handler built,
    or the serialization [JSON.stringify(value, null, space)] of a
    value (kept as the value: the serializer is a built-in). *)
Inductive text_content : Type :=
| Text (s : string)
| JSON_stringify (value : JS.json) (space : option N).

(** [{ content: [{ type: "text", text }] }] *)
Record CallToolResult := {
  content : list text_content;
}.

Definition text_result (t : text_content) : CallToolResult :=
  {| content := [t] |}.

(** The [catch] clause shared by four handlers. *)
Definition error_text (error : exn) : CallToolResult :=
  text_result (Text ("Error: " +:+ msg_of error)).

(** The two shapes of [Math.round(amount * 10 ** decimals)]. *)
Definition rawAmount (amount : number) (decimals : Z) : number :=
  Math_round (mul amount (pow10 decimals)).

Definition rawSolAmount (sol_amount : number) : number :=
  Math_round (mul sol_amount LAMPORTS_PER_SOL).

(** [Number(buyOutAmount) / 10 ** tokenDecimals] and
    [Math.round(tokenAmount * 10 ** tokenDecimals)] of [buy_and_sell],
    where [tokenDecimals] is what [getTokenDecimals] gave. *)
Definition tokenAmount (buyOutAmount : string) (tokenDecimals : option Z)
  : number :=
  div (Number buyOutAmount) (pow10_of tokenDecimals).

Definition rawTokenAmount (buyOutAmount : string) (tokenDecimals : option Z)
  : number :=
  Math_round (mul (tokenAmount buyOutAmount tokenDecimals) (pow10_of tokenDecimals)).

Definition explorer (txid : string) : string := "https://solscan.io/tx/" +:+ txid.

(** The parameter schemas (zod), after defaults are filled in.
    Fields declared [.int()] are integers here. *)
Definition slippage_schema (slippage_bps : Z) : bool :=
  (1 <=? slippage_bps) && (slippage_bps <=? 5000).

Definition decimals_schema (decimals : Z) : bool :=
  (0 <=? decimals) && (decimals <=? 18).

Definition get_quote_schema (amount : number) (input_decimals slippage_bps : Z)
  : bool :=
  positive amount && decimals_schema input_decimals && slippage_schema slippage_bps.

Definition sell_token_schema (token_amount : number)
    (token_decimals slippage_bps : Z) : bool :=
  positive token_amount && decimals_schema token_decimals
  && slippage_schema slippage_bps.

Section WithWorld.
Variable W : world.

Definition get_quote (input_mint output_mint : string) (amount : number)
    (input_decimals slippage_bps : Z) : M CallToolResult :=
  try_catch
    (let resolvedInput := if String.eqb input_mint "SOL" then SOL_MINT else input_mint in
     let resolvedOutput := if String.eqb output_mint "SOL" then SOL_MINT else output_mint in
     let rawAmount := rawAmount amount input_decimals in
     quote <- getQuote W resolvedInput resolvedOutput rawAmount
                       (number_of_Z slippage_bps) ;;
     let routes :=
       map (fun r => label (swapInfo r) +:+ " (" +:+ Number_toString W (percent r) +:+ "%)")
           (routePlan quote) in
     let summary :=
       JObject [ ("inputMint", JString (inputMint quote));
                 ("outputMint", JString (outputMint quote));
                 ("inputAmount", JString (inAmount quote));
                 ("outputAmount", JString (outAmount quote));
                 ("priceImpact", JString (priceImpactPct quote +:+ "%"));
                 ("slippageBps", JNumber (slippageBps quote));
                 ("route", JString (String.concat " → " routes)) ] in
     ret (text_result (JSON_stringify summary (Some 2%N))))
    (fun error => ret (error_text error)).

Definition buy_token (token_address : string) (sol_amount : number)
    (slippage_bps : Z) : M CallToolResult :=
  try_catch
    (keypair <- lift (getKeypair W) ;;
     connection <- lift (getConnection W) ;;
     let rawAmount := rawSolAmount sol_amount in
     quote <- getQuote W SOL_MINT token_address rawAmount
                       (number_of_Z slippage_bps) ;;
     txid <- executeSwap W quote keypair connection ;;
     let result :=
       JObject [ ("status", JString "success");
                 ("transaction", JString txid);
                 ("solSpent", JNumber sol_amount);
                 ("tokenReceived", JString (outAmount quote));
                 ("tokenMint", JString token_address);
                 ("explorer", JString (explorer txid)) ] in
     ret (text_result (JSON_stringify result (Some 2%N))))
    (fun error => ret (error_text error)).

Definition sell_token (token_address : string) (token_amount : number)
    (token_decimals slippage_bps : Z) : M CallToolResult :=
  try_catch
    (keypair <- lift (getKeypair W) ;;
     connection <- lift (getConnection W) ;;
     let rawAmount := rawAmount token_amount token_decimals in
     quote <- getQuote W token_address SOL_MINT rawAmount
                       (number_of_Z slippage_bps) ;;
     txid <- executeSwap W quote keypair connection ;;
     let solReceived := div (Number (outAmount quote)) LAMPORTS_PER_SOL in
     let result :=
       JObject [ ("status", JString "success");
                 ("transaction", JString txid);
                 ("tokenSold", JNumber token_amount);
                 ("tokenMint", JString token_address);
                 ("solReceived", JNumber solReceived);
                 ("explorer", JString (explorer txid)) ] in
     ret (text_result (JSON_stringify result (Some 2%N))))
    (fun error => ret (error_text error)).

(** *** [buy_and_sell] *)

(** The body of the first [try] (step 1): it yields [buyTxid] and
    [buyOutAmount]. *)
Definition buy_leg (token_address : string) (sol_amount : number)
    (slippage_bps : Z) (keypair : Keypair) (connection : Connection)
  : M (string * string) :=
  let rawSolAmount := rawSolAmount sol_amount in
  buyQuote <- getQuote W SOL_MINT token_address rawSolAmount
                       (number_of_Z slippage_bps) ;;
  buyTxid <- executeSwap W buyQuote keypair connection ;;
  ret (buyTxid, outAmount buyQuote).

Definition buy_error (error : exn) : CallToolResult :=
  text_result
    (JSON_stringify
       (JObject [ ("status", JString "error");
                  ("phase", JString "buy");
                  ("error", JString (msg_of error)) ])
       None).

(** The body of the second [try] (step 2): it yields [sellTxid],
    [solReceived] and [tokenDecimals]. *)
Definition sell_leg (token_address : string) (slippage_bps : Z)
    (keypair : Keypair) (connection : Connection) (buyOutAmount : string)
  : M (string * number * option Z) :=
  tokenDecimals <- getTokenDecimals W connection token_address ;;
  let rawTokenAmount := rawTokenAmount buyOutAmount tokenDecimals in
  sellQuote <- getQuote W token_address SOL_MINT rawTokenAmount
                        (number_of_Z slippage_bps) ;;
  sellTxid <- executeSwap W sellQuote keypair connection ;;
  let solReceived := div (Number (outAmount sellQuote)) LAMPORTS_PER_SOL in
  ret (sellTxid, solReceived, tokenDecimals).

Definition sell_error (token_address : string) (sol_amount : number)
    (buyTxid buyOutAmount : string) (error : exn) : CallToolResult :=
  text_result
    (JSON_stringify
       (JObject [ ("status", JString "partial");
                  ("buy_transaction", JString buyTxid);
                  ("sol_spent", JNumber sol_amount);
                  ("token_received", JString buyOutAmount);
                  ("token_mint", JString token_address);
                  ("sell_error", JString (msg_of error));
                  ("explorer", JString (explorer buyTxid)) ])
       None).

Definition buy_and_sell_success (token_address : string) (sol_amount : number)
    (buyTxid buyOutAmount sellTxid : string) (solReceived : number)
    (tokenDecimals : option Z) : CallToolResult :=
  let tokenAmount := tokenAmount buyOutAmount tokenDecimals in
  let profitSol := sub solReceived sol_amount in
  let result :=
    JObject [ ("status", JString "success");
              ("buy_transaction", JString buyTxid);
              ("sell_transaction", JString sellTxid);
              ("sol_spent", JNumber sol_amount);
              ("token_received", JString buyOutAmount);
              ("token_sold", JNumber tokenAmount);
              ("sol_received", JNumber solReceived);
              ("token_mint", JString token_address);
              ("net_sol", JNumber profitSol);
              ("profit_sol", JNumber profitSol);
              ("explorer_buy", JString (explorer buyTxid));
              ("explorer_sell", JString (explorer sellTxid)) ] in
  text_result (JSON_stringify result (Some 2%N)).

(** The handler.  A [return] inside a [catch] clause leaves the
    handler: each [try] statement yields either the values it assigned
    ([inl]) or the result returned early ([inr]). *)
Definition buy_and_sell (token_address : string) (sol_amount : number)
    (slippage_bps : Z) : M CallToolResult :=
  keypair <- lift (getKeypair W) ;;
  connection <- lift (getConnection W) ;;
  (* --- Step 1: Buy token with SOL --- *)
  step1 <-
    try_catch
      (bought <- buy_leg token_address sol_amount slippage_bps keypair connection ;;
       ret (inl bought))
      (fun error => ret (inr (buy_error error))) ;;
  match step1 with
  | inr result => ret result
  | inl (buyTxid, buyOutAmount) =>
      (* --- Step 2: Get token decimals and sell all received tokens --- *)
      step2 <-
        try_catch
          (sold <- sell_leg token_address slippage_bps keypair connection buyOutAmount ;;
           ret (inl sold))
          (fun error =>
             (* Buy succeeded but sell failed: return partial result *)
             ret (inr (sell_error token_address sol_amount buyTxid buyOutAmount error))) ;;
      match step2 with
      | inr result => ret result
      | inl (sellTxid, solReceived, tokenDecimals) =>
          ret (buy_and_sell_success token_address sol_amount buyTxid
                 buyOutAmount sellTxid solReceived tokenDecimals)
      end
  end.

Definition get_balance (token_address : option string) : M CallToolResult :=
  try_catch
    (keypair <- lift (getKeypair W) ;;
     connection <- lift (getConnection W) ;;
     let publicKey := publicKey keypair in
     solBalance <- getSolBalance W connection publicKey ;;
     let result :=
       [ ("wallet", JString publicKey); ("solBalance", JNumber solBalance) ] in
     match token_address with
     | Some mint =>
         if String.eqb mint "" then
           ret (text_result (JSON_stringify (JObject result) (Some 2%N)))
         else
           tokenBal <- getTokenBalance W connection publicKey mint ;;
           let tokenBalance :=
             JObject [ ("mint", JString mint);
                       ("amount", JString (amount tokenBal));
                       ("decimals", JNumber (number_of_Z (decimals tokenBal)));
                       ("uiAmount", match uiAmount tokenBal with
                                    | Some n => JNumber n
                                    | None => JNull
                                    end) ] in
           ret (text_result
                  (JSON_stringify (JObject (result ++ [("tokenBalance", tokenBalance)]))
                                  (Some 2%N)))
     | None =>
         ret (text_result (JSON_stringify (JObject result) (Some 2%N)))
     end)
    (fun error => ret (error_text error)).

End WithWorld.

(** *** The registered tools *)

(** One invocation of a registered tool, with its parsed arguments. *)
Inductive tool_call : Type :=
| Call_get_quote (input_mint output_mint : string) (amount : number)
    (input_decimals slippage_bps : Z)
| Call_buy_token (token_address : string) (sol_amount : number) (slippage_bps : Z)
| Call_sell_token (token_address : string) (token_amount : number)
    (token_decimals slippage_bps : Z)
| Call_buy_and_sell (token_address : string) (sol_amount : number)
    (slippage_bps : Z)
| Call_get_balance (token_address : option string).

(** [server.tool(name, ..., handler)]: the handler registered under
    each name. *)
Definition handle (W : world) (c : tool_call) : M CallToolResult :=
  match c with
  | Call_get_quote i o a d sl => get_quote W i o a d sl
  | Call_buy_token t a sl => buy_token W t a sl
  | Call_sell_token t a d sl => sell_token W t a d sl
  | Call_buy_and_sell t a sl => buy_and_sell W t a sl
  | Call_get_balance t => get_balance W t
  end.


End Index.

(* ================================================================== *)
(** * The earlier index.ts: [get_token_summary] *)
(* ================================================================== *)

(** The revision of [index.ts] that precedes [buy_and_sell] registers
    one more tool, which asks the RugCheck service for a report.  Its
    [catch] clause reads the [name] of what was thrown, and its error
    text reads [response.statusText]: thrown values and responses carry
    these here. *)
Module Summary.
Import JS Index.

Definition RUGCHECK_API_BASE : string := "https://api.rugcheck.xyz/v1".

(** 15 second timeout for API requests *)
Definition FETCH_TIMEOUT_MS : Z := 15000.

(** What the [catch] clause receives: an [Error] object with its
    [name] and [message], or some other thrown value. *)
Inductive thrown : Type :=
| ErrorObject (name message : string)
| NotAnError.

Inductive result (A : Type) : Type :=
| Ok (a : A)
| Raise (t : thrown).
Arguments Ok {A} a.
Arguments Raise {A} t.

Record Response := {
  status : N;
  statusText : string;
  json : result JS.json;
}.

Definition ok (r : Response) : bool :=
  ((200 <=? status r) && (status r <=? 299))%N.

(** The arguments of [fetch]: the URL, the [accept] header and the
    delay of [AbortSignal.timeout]. *)
Record Request := {
  url : string;
  accept : string;
  timeout : Z;
}.

Definition try_catch {A} (body : result A) (handler : thrown -> result A)
  : result A :=
  match body with
  | Ok a => Ok a
  | Raise error => handler error
  end.

Section WithFetch.
Variable fetch : Request -> result Response.

Definition get_token_summary (token_address : string) : result CallToolResult :=
  try_catch
    (match fetch {| url := RUGCHECK_API_BASE +:+ "/tokens/" +:+ token_address
                           +:+ "/report/summary";
                    accept := "application/json";
                    timeout := FETCH_TIMEOUT_MS |} with
     | Raise error => Raise error
     | Ok response =>
         if negb (ok response) then
           Ok (text_result
                 (Text ("Error: Failed to fetch token summary. Status: "
                        +:+ pretty (status response) +:+ " "
                        +:+ statusText response)))
         else
           match json response with
           | Raise error => Raise error
           | Ok data => Ok (text_result (JSON_stringify data (Some 2%N)))
           end
     end)
    (fun error =>
       match error with
       | ErrorObject name message =>
           if String.eqb name "TimeoutError" then
             Ok (text_result
                   (Text ("Error: Request timed out after "
                          +:+ pretty (FETCH_TIMEOUT_MS / 1000) +:+ " seconds")))
           else
             Ok (text_result (Text ("Error: " +:+ message)))
       | NotAnError =>
           Ok (text_result (Text ("Error: " +:+ "Unknown error")))
       end).

End WithFetch.
End Summary.


Import JS Net Solana Jupiter Index.

(* ================================================================== *)
(** * Vocabulary of the properties *)
(* ================================================================== *)

(** Rounding to the nearest integer, halves away from zero, on exact
    rationals: the rounding the specification names. *)
Definition round_half_away_from_zero (q : Q) : Z :=
  if Qle_bool 0 q then Qfloor (q + (1 # 2)) else Qceiling (q - (1 # 2)).

(** The integer an integral Number stands for. *)
Definition integer_value (x : number) : Z := Qfloor (SF2Q x).

(** A mantissa and an exponent, as the Number of sign [s] they denote. *)
Definition rounded (s : bool) (M E : Z) : number :=
  match M with
  | Z0 => S754_zero s
  | Zpos p => S754_finite s p E
  | Zneg _ => S754_nan
  end.

(** The record [mrs] is what is left of the mantissa [m] after [k] bits
    were shifted out: its mantissa is the quotient by [2^k], and its
    two flags place the remainder below, at or above one half. *)
Definition truncated (m k : Z) (mrs : shr_record) : Prop :=
  exists rem,
    0 <= shr_m mrs
    /\ m = shr_m mrs * 2 ^ k + rem
    /\ 0 <= rem < 2 ^ k
    /\ match shr_r mrs, shr_s mrs with
       | false, false => rem = 0
       | false, true => 0 < 2 * rem < 2 ^ k
       | true, false => 2 * rem = 2 ^ k
       | true, true => 2 ^ k < 2 * rem
       end.

(** The same for a quotient: the record [mrs] is what is left of the
    numerator [n] over units of size [u]: its mantissa is the quotient
    of [n] by [u], and its two flags place the remainder below, at or
    above one half of [u]. *)
Definition truncated_by (n u : Z) (mrs : shr_record) : Prop :=
  exists rem,
    0 <= shr_m mrs
    /\ n = shr_m mrs * u + rem
    /\ 0 <= rem < u
    /\ match shr_r mrs, shr_s mrs with
       | false, false => rem = 0
       | false, true => 0 < 2 * rem < u
       | true, false => 2 * rem = u
       | true, true => u < 2 * rem
       end.

(** The kinds of request the properties count. *)
Definition is_quote (ev : event) : bool :=
  match ev with FetchQuote _ _ _ _ => true | _ => false end.

Definition is_swap (ev : event) : bool :=
  match ev with FetchSwap _ _ => true | _ => false end.

Definition is_account_info (ev : event) : bool :=
  match ev with GetParsedAccountInfo _ => true | _ => false end.

(** How many requests of a kind a stretch of the log holds. *)
Fixpoint count (kind : event -> bool) (l : list event) : nat :=
  match l with
  | [] => 0
  | ev :: l' => (if kind ev then 1 else 0) + count kind l'
  end%nat.

(** The buy leg fails: the first [getQuote] throws, or it returns and
    the first [executeSwap] throws. *)
Definition buy_leg_fails (W : world) (token_address : string)
    (sol_amount : number) (slippage_bps : Z) (keypair : Keypair)
    (connection : Connection) (s : state) (e : exn) (s' : state) : Prop :=
  getQuote W SOL_MINT token_address (rawSolAmount sol_amount)
           (number_of_Z slippage_bps) s = (Throw e, s')
  \/ (exists buyQuote s1,
        getQuote W SOL_MINT token_address (rawSolAmount sol_amount)
                 (number_of_Z slippage_bps) s = (Return buyQuote, s1)
        /\ executeSwap W buyQuote keypair connection s1 = (Throw e, s')).

(** The sell leg fails: [getTokenDecimals] throws, or the second
    [getQuote] throws, or the second [executeSwap] throws. *)
Definition sell_leg_fails (W : world) (token_address : string)
    (slippage_bps : Z) (keypair : Keypair) (connection : Connection)
    (buyOutAmount : string) (s2 : state) (e : exn) (s3 : state) : Prop :=
  getTokenDecimals W connection token_address s2 = (Throw e, s3)
  \/ (exists d s',
        getTokenDecimals W connection token_address s2 = (Return d, s')
        /\ getQuote W token_address SOL_MINT (rawTokenAmount buyOutAmount d)
                    (number_of_Z slippage_bps) s' = (Throw e, s3))
  \/ (exists d s' sellQuote s'',
        getTokenDecimals W connection token_address s2 = (Return d, s')
        /\ getQuote W token_address SOL_MINT (rawTokenAmount buyOutAmount d)
                    (number_of_Z slippage_bps) s' = (Return sellQuote, s'')
        /\ executeSwap W sellQuote keypair connection s'' = (Throw e, s3)).

(** The same world with another process environment. *)
Definition with_env (private_key rpc_url : option string) (W : world) : world :=
  {| SOLANA_PRIVATE_KEY := private_key;
     SOLANA_RPC_URL := rpc_url;
     keypair_of_secret := keypair_of_secret W;
     new_Connection := new_Connection W;
     new_PublicKey := new_PublicKey W;
     sign_transaction := sign_transaction W;
     Number_toString := Number_toString W;
     fetch_quote := fetch_quote W;
     fetch_swap := fetch_swap W;
     rpc_sendRawTransaction := rpc_sendRawTransaction W;
     rpc_getLatestBlockhash := rpc_getLatestBlockhash W;
     rpc_confirmTransaction := rpc_confirmTransaction W;
     rpc_getBalance := rpc_getBalance W;
     rpc_getParsedAccountInfo := rpc_getParsedAccountInfo W;
     rpc_getParsedTokenAccountsByOwner := rpc_getParsedTokenAccountsByOwner W |}.

(** [SOLANA_PRIVATE_KEY] not set. *)
Definition unset_secret (W : world) : world :=
  with_env None (SOLANA_RPC_URL W) W.

(** The snapshot [getTokenBalance] returns for an empty listing. *)
Definition zero_snapshot : TokenAmount :=
  {| amount := "0"; decimals := 0; uiAmount := Some (number_of_Z 0) |}.


(* ================================================================== *)
(** * Scenarios *)
(* ================================================================== *)

(** Concrete worlds on which the handlers can be run. *)
Module Scenario.

Definition wallet_address : PublicKey :=
  "7xKXtg2CW87d97TXJSDpbD5jBkheTqA83TZRuJosgAsU".

Definition token : string := "DezXAZ8z7PnrnRJjz3wXBoRgixCa6xjnB7YaB1pPB263".

Definition a_keypair : Keypair :=
  {| publicKey := wallet_address; secretKey := "secret" |}.

Definition a_connection : Connection := {| rpcEndpoint := DEFAULT_RPC_URL |}.

(** A fresh process: nothing cached, nothing sent. *)
Definition fresh : state := {| decimalsCache := ∅; calls := [] |}.

Definition http {A} (code : N) (body : string) (parsed : outcome A) : Response A :=
  {| status := code; text := Return body; json := parsed |}.

(** A one-hop quote. *)
Definition a_quote (inMint outMint inAmt outAmt : string) : JupiterQuote :=
  {| inputMint := inMint;
     inAmount := inAmt;
     outputMint := outMint;
     outAmount := outAmt;
     otherAmountThreshold := outAmt;
     swapMode := "ExactIn";
     slippageBps := number_of_Z 50;
     priceImpactPct := "0.01";
     routePlan :=
       [ {| swapInfo :=
              {| ammKey := "pool"; label := "Raydium";
                 hop_inputMint := inMint; hop_outputMint := outMint;
                 hop_inAmount := inAmt; hop_outAmount := outAmt;
                 feeAmount := "0"; feeMint := inMint |};
            percent := number_of_Z 100 |} ];
     contextSlot := None;
     timeTaken := None |}.

(** A world given by its secret, the answer of the quote endpoint, the
    answer to the mint-account read and the wallet's token accounts;
    swaps are built, signed, sent and confirmed. *)
Definition world_of (secret : option string)
    (quote : string -> string -> outcome (Response JupiterQuote))
    (mint_account : outcome (option AccountData))
    (token_accounts : list TokenAmount) : world :=
  {| SOLANA_PRIVATE_KEY := secret;
     SOLANA_RPC_URL := None;
     keypair_of_secret := fun k => Some {| publicKey := wallet_address; secretKey := k |};
     new_Connection := fun url => Return {| rpcEndpoint := url |};
     new_PublicKey := fun k => Return k;
     sign_transaction := fun tx _ => Return ("signed:" +:+ tx);
     Number_toString := fun n => pretty (Qfloor (SF2Q n));
     fetch_quote := fun _ i o _ _ => quote i o;
     fetch_swap := fun _ _ _ => Return (http 200 "{}" (Return "AQAB"));
     rpc_sendRawTransaction := fun h _ => Return ("sig" +:+ pretty (length h));
     rpc_getLatestBlockhash := fun _ =>
       Return {| blockhash := "EkSnNWid2cvwEVnVx9aBqawnmiCNiDgp3gUdkDPTKN1N";
                 lastValidBlockHeight := 3090 |};
     rpc_confirmTransaction := fun _ _ _ => Return tt;
     rpc_getBalance := fun _ _ => Return 2500000000;
     rpc_getParsedAccountInfo := fun _ _ => mint_account;
     rpc_getParsedTokenAccountsByOwner := fun _ _ _ => Return token_accounts |}.

(** The quote endpoint answers every request with a one-hop route
    giving [buyOut] raw tokens for SOL and [sellOut] lamports for the
    token. *)
Definition quotes (buyOut sellOut : string)
  : string -> string -> outcome (Response JupiterQuote) :=
  fun i o =>
    Return (http 200 "{}"
              (Return (a_quote i o "100000000"
                               (if String.eqb i SOL_MINT then buyOut else sellOut)))).

(** The quote endpoint answers 429. *)
Definition too_many_requests
  : string -> string -> outcome (Response JupiterQuote) :=
  fun _ _ =>
    Return (http 429 "Too Many Requests"
              (Throw (Error "Unexpected token T in JSON at position 0"))).

(** The quote endpoint prices the buy and finds no route for the sell. *)
Definition no_route_back (buyOut : string)
  : string -> string -> outcome (Response JupiterQuote) :=
  fun i o =>
    if String.eqb i SOL_MINT then quotes buyOut "0" i o
    else Return (http 400 "Could not find any route"
                   (Throw (Error "Unexpected token C in JSON at position 0"))).

(** Both legs go through; the token has [d] decimals. *)
Definition trading (buyOut sellOut : string) (d : Z) : world :=
  world_of (Some "secret") (quotes buyOut sellOut)
           (Return (Some (ParsedAccountData (Some d)))) [].

Definition rate_limited : world :=
  world_of (Some "secret") too_many_requests
           (Return (Some (ParsedAccountData (Some 5)))) [].

Definition sell_unroutable (buyOut : string) : world :=
  world_of (Some "secret") (no_route_back buyOut)
           (Return (Some (ParsedAccountData (Some 5)))) [].

(** The wallet holds the given token accounts. *)
Definition holding (token_accounts : list TokenAmount) : world :=
  world_of (Some "secret") (quotes "0" "0") (Return None) token_accounts.

End Scenario.

(* ================================================================== *)
(** * Traces and faults *)
(* ================================================================== *)

(** More kinds of request. *)
Definition is_send (ev : event) : bool :=
  match ev with SendRawTransaction _ => true | _ => false end.

Definition is_balance (ev : event) : bool :=
  match ev with GetBalance _ => true | _ => false end.

(** The four requests of an [executeSwap] that goes through, in the
    order they are sent. *)
Definition swap_trace (quote : JupiterQuote) (keypair : Keypair)
    (transaction txid : string) (latestBlockhash : Blockhash) : list event :=
  [ FetchSwap quote (publicKey keypair);
    SendRawTransaction transaction;
    GetLatestBlockhash;
    ConfirmTransaction txid latestBlockhash ].

(** The state after the requests [sent] were added to the log. *)
Definition after (s : state) (sent : list event) : state :=
  {| decimalsCache := decimalsCache s; calls := calls s ++ sent |}.

(** Among the requests [sent] there are at most [quotes] quotes,
    [builds] swap builds, [sends] broadcasts of a transaction and
    [reads] reads of a mint account. *)
Definition within_budget (quotes builds sends reads : nat) (sent : list event)
  : Prop :=
  (count is_quote sent <= quotes)%nat
  /\ (count is_swap sent <= builds)%nat
  /\ (count is_send sent <= sends)%nat
  /\ (count is_account_info sent <= reads)%nat.

(** The two messages of [getKeypair]. *)
Definition key_not_set : string :=
  "SOLANA_PRIVATE_KEY environment variable is not set. Required for signing transactions.".

Definition key_invalid : string :=
  "Invalid SOLANA_PRIVATE_KEY. Must be a base58-encoded private key.".

(** The text of a result is an error report: it starts with "Error: ". *)
Definition is_error_report (t : text_content) : bool :=
  match t with
  | Text s => String.prefix "Error: " s
  | JSON_stringify _ _ => false
  end.

(** The text of a result is the serialization of an object. *)
Definition is_object (t : text_content) : bool :=
  match t with
  | JSON_stringify (JObject _) _ => true
  | _ => false
  end.

(** Worlds in which one service misbehaves. *)
Module Faults.
Import Scenario.

(** The same world with another swap endpoint. *)
Definition with_fetch_swap
    (f : list event -> JupiterQuote -> string -> outcome (Response string))
    (W : world) : world :=
  {| SOLANA_PRIVATE_KEY := SOLANA_PRIVATE_KEY W;
     SOLANA_RPC_URL := SOLANA_RPC_URL W;
     keypair_of_secret := keypair_of_secret W;
     new_Connection := new_Connection W;
     new_PublicKey := new_PublicKey W;
     sign_transaction := sign_transaction W;
     Number_toString := Number_toString W;
     fetch_quote := fetch_quote W;
     fetch_swap := f;
     rpc_sendRawTransaction := rpc_sendRawTransaction W;
     rpc_getLatestBlockhash := rpc_getLatestBlockhash W;
     rpc_confirmTransaction := rpc_confirmTransaction W;
     rpc_getBalance := rpc_getBalance W;
     rpc_getParsedAccountInfo := rpc_getParsedAccountInfo W;
     rpc_getParsedTokenAccountsByOwner := rpc_getParsedTokenAccountsByOwner W |}.

(** The same world with another answer to [confirmTransaction]. *)
Definition with_confirmTransaction
    (f : list event -> string -> Blockhash -> outcome unit) (W : world) : world :=
  {| SOLANA_PRIVATE_KEY := SOLANA_PRIVATE_KEY W;
     SOLANA_RPC_URL := SOLANA_RPC_URL W;
     keypair_of_secret := keypair_of_secret W;
     new_Connection := new_Connection W;
     new_PublicKey := new_PublicKey W;
     sign_transaction := sign_transaction W;
     Number_toString := Number_toString W;
     fetch_quote := fetch_quote W;
     fetch_swap := fetch_swap W;
     rpc_sendRawTransaction := rpc_sendRawTransaction W;
     rpc_getLatestBlockhash := rpc_getLatestBlockhash W;
     rpc_confirmTransaction := f;
     rpc_getBalance := rpc_getBalance W;
     rpc_getParsedAccountInfo := rpc_getParsedAccountInfo W;
     rpc_getParsedTokenAccountsByOwner := rpc_getParsedTokenAccountsByOwner W |}.

(** The same world with another decoder of secrets, and another
    parser of addresses. *)
Definition with_decoders (decode : string -> option Keypair)
    (parse : string -> outcome PublicKey) (W : world) : world :=
  {| SOLANA_PRIVATE_KEY := SOLANA_PRIVATE_KEY W;
     SOLANA_RPC_URL := SOLANA_RPC_URL W;
     keypair_of_secret := decode;
     new_Connection := new_Connection W;
     new_PublicKey := parse;
     sign_transaction := sign_transaction W;
     Number_toString := Number_toString W;
     fetch_quote := fetch_quote W;
     fetch_swap := fetch_swap W;
     rpc_sendRawTransaction := rpc_sendRawTransaction W;
     rpc_getLatestBlockhash := rpc_getLatestBlockhash W;
     rpc_confirmTransaction := rpc_confirmTransaction W;
     rpc_getBalance := rpc_getBalance W;
     rpc_getParsedAccountInfo := rpc_getParsedAccountInfo W;
     rpc_getParsedTokenAccountsByOwner := rpc_getParsedTokenAccountsByOwner W |}.

(** The same world with another answer to the listing of token
    accounts. *)
Definition with_listing
    (f : list event -> PublicKey -> PublicKey -> outcome (list TokenAmount))
    (W : world) : world :=
  {| SOLANA_PRIVATE_KEY := SOLANA_PRIVATE_KEY W;
     SOLANA_RPC_URL := SOLANA_RPC_URL W;
     keypair_of_secret := keypair_of_secret W;
     new_Connection := new_Connection W;
     new_PublicKey := new_PublicKey W;
     sign_transaction := sign_transaction W;
     Number_toString := Number_toString W;
     fetch_quote := fetch_quote W;
     fetch_swap := fetch_swap W;
     rpc_sendRawTransaction := rpc_sendRawTransaction W;
     rpc_getLatestBlockhash := rpc_getLatestBlockhash W;
     rpc_confirmTransaction := rpc_confirmTransaction W;
     rpc_getBalance := rpc_getBalance W;
     rpc_getParsedAccountInfo := rpc_getParsedAccountInfo W;
     rpc_getParsedTokenAccountsByOwner := f |}.

(** The swap endpoint refuses to build the transaction. *)
Definition swap_rejected : world :=
  with_fetch_swap
    (fun _ _ _ =>
       Return (http 422 "Slippage tolerance exceeded"
                 (Throw (Error "Unexpected token S in JSON at position 0"))))
    (trading "123456" "90000000" 5).

(** Transactions are sent, and they expire before they are confirmed;
    the error names the signature, as the library's does. *)
Definition unconfirmed : world :=
  with_confirmTransaction
    (fun _ signature _ =>
       Throw (Error ("Signature " +:+ signature
                     +:+ " has expired: block height exceeded.")))
    (trading "123456" "90000000" 5).

(** The secret is set and does not decode. *)
Definition undecodable_key : world :=
  with_decoders (fun _ => None) (fun k => Return k) (trading "123456" "90000000" 5).

(** The secret is set to the empty string. *)
Definition empty_key : world :=
  with_env (Some "") None (trading "123456" "90000000" 5).

(** Addresses shorter than 32 characters are refused. *)
Definition strict_addresses : world :=
  with_decoders
    (fun k => Some {| publicKey := wallet_address; secretKey := k |})
    (fun k => if (String.length k <? 32)%nat
              then Throw (Error "Invalid public key input") else Return k)
    (holding []).

(** The listing of token accounts is refused. *)
Definition listing_refused : world :=
  with_listing (fun _ _ _ => Throw (Error "429 Too Many Requests")) (holding []).

(** The mint account of the token does not exist; it holds raw data;
    it is a parsed account of another kind, without decimals. *)
Definition mint_missing : world :=
  world_of (Some "secret") (quotes "123456" "90000000") (Return None) [].

Definition mint_unparsed : world :=
  world_of (Some "secret") (quotes "123456" "90000000") (Return (Some Buffer)) [].


(** A process that has already read the decimals [d] of the token. *)
Definition warm (d : Z) : state :=
  {| decimalsCache := {[ token := Some d ]}; calls := [] |}.

(** The RugCheck service: a report, a refusal, a timeout, a body
    that is not JSON. *)
Definition report : JS.json :=
  JObject [ ("score", JNumber (number_of_Z 1));
            ("risks", JNull) ].

Definition rugcheck_up (_ : Summary.Request) : Summary.result Summary.Response :=
  Summary.Ok {| Summary.status := 200; Summary.statusText := "OK";
                Summary.json := Summary.Ok report |}.

Definition rugcheck_not_found (_ : Summary.Request)
  : Summary.result Summary.Response :=
  Summary.Ok {| Summary.status := 404; Summary.statusText := "Not Found";
                Summary.json :=
                  Summary.Raise
                    (Summary.ErrorObject "SyntaxError" "Unexpected end of JSON input") |}.

Definition rugcheck_timeout (_ : Summary.Request)
  : Summary.result Summary.Response :=
  Summary.Raise
    (Summary.ErrorObject "TimeoutError" "The operation was aborted due to timeout").

Definition rugcheck_slow_body (_ : Summary.Request)
  : Summary.result Summary.Response :=
  Summary.Ok {| Summary.status := 200; Summary.statusText := "OK";
                Summary.json :=
                  Summary.Raise
                    (Summary.ErrorObject "TimeoutError"
                       "The operation was aborted due to timeout") |}.

End Faults.

(* ================================================================== *)
(** * Properties *)
(* ================================================================== *)

(** ** Running monadic code *)

Lemma bind_Return {A B} (m : M A) (k : A -> M B) s a s' :
  m s = (Return a, s') -> bind m k s = k a s'.
Proof. intros H. unfold bind. now rewrite H. Qed.

Lemma bind_Throw {A B} (m : M A) (k : A -> M B) s e s' :
  m s = (Throw e, s') -> bind m k s = (Throw e, s').
Proof. intros H. unfold bind. now rewrite H. Qed.

Lemma bind_inv {A B} (m : M A) (k : A -> M B) s r s' :
  bind m k s = (r, s') ->
  (exists a s1, m s = (Return a, s1) /\ k a s1 = (r, s'))
  \/ (exists e, m s = (Throw e, s') /\ r = Throw e).
Proof.
  unfold bind. destruct (m s) as [[a | e] s1]; intros H.
  - left. now exists a, s1.
  - right. exists e. now inversion H.
Qed.

(** A [try] whose [catch] clause returns never throws. *)
Lemma try_catch_total {A} (body : M A) (h : exn -> A) s :
  exists a s', try_catch body (fun error => ret (h error)) s = (Return a, s').
Proof.
  unfold try_catch, ret. destruct (body s) as [[a | e] s']; eauto.
Qed.

(** ** The request log *)

Lemma count_app kind l1 l2 :
  count kind (l1 ++ l2) = (count kind l1 + count kind l2)%nat.
Proof.
  induction l1 as [| ev l1 IH]; simpl; [reflexivity|].
  rewrite IH. lia.
Qed.

(** The run stopped at [H]: read the final state off it. *)
Ltac stopped H := inversion H; subst; simpl.

(** The requests sent after the swap build are those listed; none of
    them is a quote, a swap build or an account read. *)
Ltac ledger_only :=
  split; [easy |];
  eexists; rewrite <- ?app_assoc; simpl; (split; [reflexivity |]); easy.

Section Log.
Variable W : world.

(** [getQuote] sends exactly one request, whatever comes back. *)
Lemma getQuote_log i o a sl s r s' :
  getQuote W i o a sl s = (r, s') ->
  calls s' = calls s ++ [FetchQuote i o a sl]
  /\ decimalsCache s' = decimalsCache s.
Proof.
  unfold getQuote, bind, request, lift, throw. simpl.
  destruct (fetch_quote W (calls s) i o a sl) as [resp | e]; simpl.
  - destruct (negb (ok resp)).
    + destruct (text resp); intros H; stopped H; auto.
    + intros H; stopped H; auto.
  - intros H; stopped H; auto.
Qed.

(** [executeSwap] starts with the swap-build request; what follows
    goes to the ledger: no quote, no second swap build, no account
    read. *)
Lemma executeSwap_log q kp c s r s' :
  executeSwap W q kp c s = (r, s') ->
  decimalsCache s' = decimalsCache s
  /\ exists rest,
       calls s' = calls s ++ FetchSwap q (publicKey kp) :: rest
       /\ count is_quote rest = 0%nat
       /\ count is_swap rest = 0%nat
       /\ count is_account_info rest = 0%nat.
Proof.
  unfold executeSwap, bind, request, lift, throw, ret. simpl.
  destruct (fetch_swap W (calls s) q (publicKey kp)) as [resp | e]; simpl.
  2: { intros H; stopped H. split; [easy |]. now exists []. }
  destruct (negb (ok resp)).
  { destruct (text resp); intros H; stopped H; (split; [easy |]); now exists []. }
  destruct (json resp) as [tx | e].
  2: { intros H; stopped H. split; [easy |]. now exists []. }
  destruct (sign_transaction W tx kp) as [signed | e].
  2: { intros H; stopped H. split; [easy |]. now exists []. }
  destruct (rpc_sendRawTransaction W _ signed) as [txid | e]; simpl.
  2: { intros H; stopped H. ledger_only. }
  destruct (rpc_getLatestBlockhash W _) as [bh | e]; simpl.
  2: { intros H; stopped H. ledger_only. }
  destruct (rpc_confirmTransaction W _ txid bh) as [u | e]; simpl;
    intros H; stopped H; ledger_only.
Qed.

End Log.

(** ** [buy_and_sell]: the three terminal states *)

Section BuyAndSell.
Variable W : world.
Variables (token_address : string) (sol_amount : number) (slippage_bps : Z).
Variables (keypair : Keypair) (connection : Connection).
Hypothesis wallet : getKeypair W = Return keypair.
Hypothesis endpoint : getConnection W = Return connection.

(** With the wallet and the endpoint resolved, the handler is its two
    [try] statements. *)
Lemma buy_and_sell_unfold s :
  buy_and_sell W token_address sol_amount slippage_bps s =
  match buy_leg W token_address sol_amount slippage_bps keypair connection s with
  | (Throw error, s1) => (Return (buy_error error), s1)
  | (Return (buyTxid, buyOutAmount), s1) =>
      match sell_leg W token_address slippage_bps keypair connection buyOutAmount s1 with
      | (Throw error, s2) =>
          (Return (sell_error token_address sol_amount buyTxid buyOutAmount error), s2)
      | (Return (sellTxid, solReceived, tokenDecimals), s2) =>
          (Return (buy_and_sell_success token_address sol_amount buyTxid
                     buyOutAmount sellTxid solReceived tokenDecimals), s2)
      end
  end.
Proof.
  unfold buy_and_sell, bind, lift, try_catch, ret. rewrite wallet, endpoint.
  destruct (buy_leg _ _ _ _ _ _ s) as [[[buyTxid buyOutAmount] | e] s1];
    [| reflexivity].
  destruct (sell_leg _ _ _ _ _ _ s1) as [[[[sellTxid solReceived] d] | e] s2];
    reflexivity.
Qed.

Lemma buy_leg_Throw s e s' :
  buy_leg_fails W token_address sol_amount slippage_bps keypair connection s e s' ->
  buy_leg W token_address sol_amount slippage_bps keypair connection s = (Throw e, s').
Proof.
  intros [H | (q & s1 & H1 & H2)]; unfold buy_leg.
  - now apply bind_Throw.
  - rewrite (bind_Return _ _ _ _ _ H1). now apply bind_Throw.
Qed.

Lemma buy_leg_Return s buyQuote s1 buyTxid s2 :
  getQuote W SOL_MINT token_address (rawSolAmount sol_amount)
           (number_of_Z slippage_bps) s = (Return buyQuote, s1) ->
  executeSwap W buyQuote keypair connection s1 = (Return buyTxid, s2) ->
  buy_leg W token_address sol_amount slippage_bps keypair connection s =
  (Return (buyTxid, outAmount buyQuote), s2).
Proof.
  intros H1 H2. unfold buy_leg. rewrite (bind_Return _ _ _ _ _ H1).
  now rewrite (bind_Return _ _ _ _ _ H2).
Qed.

Lemma sell_leg_Throw buyOutAmount s2 e s3 :
  sell_leg_fails W token_address slippage_bps keypair connection buyOutAmount s2 e s3 ->
  sell_leg W token_address slippage_bps keypair connection buyOutAmount s2 = (Throw e, s3).
Proof.
  intros [H | [(d & s' & H1 & H2) | (d & s' & q & s'' & H1 & H2 & H3)]];
    unfold sell_leg.
  - now apply bind_Throw.
  - rewrite (bind_Return _ _ _ _ _ H1). now apply bind_Throw.
  - rewrite (bind_Return _ _ _ _ _ H1), (bind_Return _ _ _ _ _ H2).
    now apply bind_Throw.
Qed.

(** The requests of a failed buy leg: the buy quote, then at most one
    swap build, and nothing of the sell side. *)
Lemma buy_leg_fails_log s e s' :
  buy_leg_fails W token_address sol_amount slippage_bps keypair connection s e s' ->
  exists rest,
    calls s' = calls s ++ FetchQuote SOL_MINT token_address (rawSolAmount sol_amount)
                                     (number_of_Z slippage_bps) :: rest
    /\ count is_quote rest = 0%nat
    /\ (count is_swap rest <= 1)%nat
    /\ count is_account_info rest = 0%nat.
Proof.
  intros [H | (q & s1 & H1 & H2)].
  - apply getQuote_log in H as [H _]. exists []. rewrite H. simpl. auto.
  - apply getQuote_log in H1 as [H1 _].
    apply executeSwap_log in H2 as [_ (rest & H2 & Hq & Hs & Ha)].
    exists (FetchSwap q (publicKey keypair) :: rest).
    rewrite H2, H1, <- app_assoc. simpl. rewrite Hq, Hs, Ha. auto.
Qed.

End BuyAndSell.

(** C1.  When the buy leg of [buy_and_sell] fails (the first [getQuote]
    throws, or the first [executeSwap] does), the handler returns the
    envelope [{status: "error", phase: "buy", error: msg}] where [msg]
    is the message of the error thrown, and the requests it has sent
    are the buy quote followed by at most one swap build: no second
    quote, no second swap, no read of the token's decimals. *)
Theorem buy_and_sell_buy_failure
    (W : world) (token_address : string) (sol_amount : number)
    (slippage_bps : Z) (keypair : Keypair) (connection : Connection)
    (s : state) (e : exn) (s' : state) :
  getKeypair W = Return keypair ->
  getConnection W = Return connection ->
  buy_leg_fails W token_address sol_amount slippage_bps keypair connection s e s' ->
  buy_and_sell W token_address sol_amount slippage_bps s =
    (Return {| content :=
                 [ JSON_stringify
                     (JObject [ ("status", JString "error");
                                ("phase", JString "buy");
                                ("error", JString (msg_of e)) ])
                     None ] |},
     s')
  /\ exists rest,
       calls s' = calls s ++ FetchQuote SOL_MINT token_address
                               (rawSolAmount sol_amount)
                               (number_of_Z slippage_bps) :: rest
       /\ count is_quote rest = 0%nat
       /\ (count is_swap rest <= 1)%nat
       /\ count is_account_info rest = 0%nat.
Proof.
  intros wallet endpoint Hbuy. split.
  - rewrite (buy_and_sell_unfold W _ _ _ _ _ wallet endpoint).
    now rewrite (buy_leg_Throw W _ _ _ _ _ _ _ _ Hbuy).
  - now apply (buy_leg_fails_log W _ _ _ _ _ _ _ _ Hbuy).
Qed.

(** The quote endpoint answers 429: one request is sent, and the
    envelope carries the upstream message. *)
Lemma buy_and_sell_buy_failure_witness :
  exists s',
    buy_and_sell Scenario.rate_limited Scenario.token (number_of_decimal 1 1) 50
                 Scenario.fresh =
      (Return {| content :=
                   [ JSON_stringify
                       (JObject [ ("status", JString "error");
                                  ("phase", JString "buy");
                                  ("error", JString "Jupiter quote failed (429): Too Many Requests") ])
                       None ] |},
       s')
    /\ exists rest,
         calls s' = calls Scenario.fresh
                    ++ FetchQuote SOL_MINT Scenario.token
                         (rawSolAmount (number_of_decimal 1 1)) (number_of_Z 50) :: rest
         /\ count is_quote rest = 0%nat
         /\ (count is_swap rest <= 1)%nat
         /\ count is_account_info rest = 0%nat.
Proof.
  eexists.
  apply (buy_and_sell_buy_failure Scenario.rate_limited Scenario.token
           (number_of_decimal 1 1) 50 Scenario.a_keypair Scenario.a_connection
           Scenario.fresh
           (Error "Jupiter quote failed (429): Too Many Requests")).
  - reflexivity.
  - reflexivity.
  - left. reflexivity.
Defined.

(** C2.  When the buy leg succeeded and the sell leg fails (in
    [getTokenDecimals], in the second [getQuote] or in the second
    [executeSwap]), the handler returns an envelope of status
    ["partial"] with the buy transaction id, the SOL spent, the raw
    token amount of the buy quote and the message of the sell-side
    error, and without a [sell_transaction] field. *)
Theorem buy_and_sell_sell_failure
    (W : world) (token_address : string) (sol_amount : number)
    (slippage_bps : Z) (keypair : Keypair) (connection : Connection)
    (s : state) (buyQuote : JupiterQuote) (s1 : state) (buyTxid : string)
    (s2 : state) (e : exn) (s3 : state) :
  getKeypair W = Return keypair ->
  getConnection W = Return connection ->
  getQuote W SOL_MINT token_address (rawSolAmount sol_amount)
           (number_of_Z slippage_bps) s = (Return buyQuote, s1) ->
  executeSwap W buyQuote keypair connection s1 = (Return buyTxid, s2) ->
  sell_leg_fails W token_address slippage_bps keypair connection
                 (outAmount buyQuote) s2 e s3 ->
  exists envelope,
    buy_and_sell W token_address sol_amount slippage_bps s =
      (Return {| content := [ JSON_stringify envelope None ] |}, s3)
    /\ JS.get "status" envelope = Some (JString "partial")
    /\ JS.get "buy_transaction" envelope = Some (JString buyTxid)
    /\ JS.get "sol_spent" envelope = Some (JNumber sol_amount)
    /\ JS.get "token_received" envelope = Some (JString (outAmount buyQuote))
    /\ JS.get "sell_error" envelope = Some (JString (msg_of e))
    /\ JS.get "sell_transaction" envelope = None.
Proof.
  intros wallet endpoint Hq Hx Hsell.
  eexists. split.
  - rewrite (buy_and_sell_unfold W _ _ _ _ _ wallet endpoint).
    rewrite (buy_leg_Return W _ _ _ _ _ _ _ _ _ _ Hq Hx).
    rewrite (sell_leg_Throw W _ _ _ _ _ _ _ _ Hsell).
    reflexivity.
  - repeat split; reflexivity.
Qed.

(** The buy goes through and the sell finds no route: the position
    bought is reported, the sell error is the upstream message. *)
Lemma buy_and_sell_sell_failure_witness :
  exists envelope s3,
    buy_and_sell (Scenario.sell_unroutable "123456") Scenario.token
                 (number_of_decimal 1 1) 50 Scenario.fresh =
      (Return {| content := [ JSON_stringify envelope None ] |}, s3)
    /\ JS.get "status" envelope = Some (JString "partial")
    /\ JS.get "buy_transaction" envelope = Some (JString "sig2")
    /\ JS.get "sol_spent" envelope = Some (JNumber (number_of_decimal 1 1))
    /\ JS.get "token_received" envelope = Some (JString "123456")
    /\ JS.get "sell_error" envelope
       = Some (JString "Jupiter quote failed (400): Could not find any route")
    /\ JS.get "sell_transaction" envelope = None.
Proof.
  pose proof
    (buy_and_sell_sell_failure (Scenario.sell_unroutable "123456") Scenario.token
       (number_of_decimal 1 1) 50 Scenario.a_keypair Scenario.a_connection
       Scenario.fresh) as H.
  edestruct H as (envelope & Hrun & Hfields).
  - reflexivity.
  - reflexivity.
  - reflexivity.
  - reflexivity.
  - right. left. eexists. eexists. split; reflexivity.
  - exists envelope. eexists. split; [exact Hrun | exact Hfields].
Defined.

(** ** The operation boundary *)

(** Four handlers are one [try] whose [catch] returns: they return a
    result whatever their body throws. *)
Lemma get_quote_never_throws W input_mint output_mint amount input_decimals slippage_bps s :
  exists result s',
    get_quote W input_mint output_mint amount input_decimals slippage_bps s
    = (Return result, s').
Proof. apply try_catch_total. Qed.

Lemma buy_token_never_throws W token_address sol_amount slippage_bps s :
  exists result s',
    buy_token W token_address sol_amount slippage_bps s = (Return result, s').
Proof. apply try_catch_total. Qed.

Lemma sell_token_never_throws W token_address token_amount token_decimals slippage_bps s :
  exists result s',
    sell_token W token_address token_amount token_decimals slippage_bps s
    = (Return result, s').
Proof. apply try_catch_total. Qed.

Lemma get_balance_never_throws W token_address s :
  exists result s', get_balance W token_address s = (Return result, s').
Proof. apply try_catch_total. Qed.

(** C3 (does not hold for [buy_and_sell]).  The handler of
    [buy_and_sell] calls [getKeypair] before its first [try]: with
    [SOLANA_PRIVATE_KEY] not set, in any world, for any arguments, the
    error thrown by [getKeypair] leaves the handler instead of being
    turned into a text result, and no request is sent.  In the same
    situation [buy_token], which calls [getKeypair] inside its [try],
    returns the error as text. *)
Theorem buy_and_sell_unset_secret_throws
    (W : world) (token_address : string) (sol_amount : number)
    (slippage_bps : Z) (s : state) :
  buy_and_sell (unset_secret W) token_address sol_amount slippage_bps s =
    (Throw (Error "SOLANA_PRIVATE_KEY environment variable is not set. Required for signing transactions."),
     s)
  /\ buy_token (unset_secret W) token_address sol_amount slippage_bps s =
     (Return {| content :=
                  [ Text "Error: SOLANA_PRIVATE_KEY environment variable is not set. Required for signing transactions." ] |},
      s).
Proof.
  assert (Hkey : getKeypair (unset_secret W) =
                 Throw (Error "SOLANA_PRIVATE_KEY environment variable is not set. Required for signing transactions.")).
  { unfold getKeypair, unset_secret, with_env. simpl. reflexivity. }
  split.
  - unfold buy_and_sell. apply bind_Throw. unfold lift. now rewrite Hkey.
  - unfold buy_token, try_catch.
    rewrite (bind_Throw _ _ s _ s) by (unfold lift; now rewrite Hkey).
    reflexivity.
Qed.

(** ** Upstream errors of [get_quote] *)

(** C9.  When the quote endpoint answers [get_quote]'s request with a
    response that is not a success, of status [S] and body [B], the
    result of the operation is the text
    ["Error: Jupiter quote failed (S): B"]. *)
Theorem get_quote_upstream_error
    (W : world) (input_mint output_mint : string) (amount : number)
    (input_decimals slippage_bps : Z) (s : state)
    (response : Response JupiterQuote) (body : string) :
  fetch_quote W (calls s)
    (if String.eqb input_mint "SOL" then SOL_MINT else input_mint)
    (if String.eqb output_mint "SOL" then SOL_MINT else output_mint)
    (rawAmount amount input_decimals) (number_of_Z slippage_bps)
  = Return response ->
  ok response = false ->
  text response = Return body ->
  fst (get_quote W input_mint output_mint amount input_decimals slippage_bps s) =
  Return {| content :=
              [ Text ("Error: Jupiter quote failed (" +:+ pretty (status response)
                      +:+ "): " +:+ body) ] |}.
Proof.
  intros Hfetch Hok Htext.
  unfold get_quote, try_catch, getQuote, bind, request, lift, throw, ret. simpl.
  rewrite Hfetch, Hok. simpl. rewrite Htext. reflexivity.
Qed.

(** The endpoint answers 429 with the body "Too Many Requests". *)
Lemma get_quote_upstream_error_witness :
  fst (get_quote Scenario.rate_limited "SOL" Scenario.token (number_of_decimal 5 1) 9 50
                 Scenario.fresh) =
  Return {| content :=
              [ Text "Error: Jupiter quote failed (429): Too Many Requests" ] |}.
Proof.
  apply (get_quote_upstream_error Scenario.rate_limited "SOL" Scenario.token
           (number_of_decimal 5 1) 9 50 Scenario.fresh
           (Scenario.http 429 "Too Many Requests"
              (Throw (Error "Unexpected token T in JSON at position 0")))
           "Too Many Requests");
    reflexivity.
Defined.

(** ** Token balances *)

(** What [getTokenBalance] returns for each listing. *)
Lemma getTokenBalance_listing W connection walletAddress mintAddress mint s listing :
  new_PublicKey W mintAddress = Return mint ->
  rpc_getParsedTokenAccountsByOwner W (calls s) walletAddress mint = Return listing ->
  fst (getTokenBalance W connection walletAddress mintAddress s) =
  Return match listing with
         | [] => zero_snapshot
         | first :: _ =>
             {| amount := amount first;
                decimals := decimals first;
                uiAmount := uiAmount first |}
         end.
Proof.
  intros Hmint Hlist.
  unfold getTokenBalance, bind, lift, request, ret. simpl.
  rewrite Hmint. simpl. rewrite Hlist. now destruct listing.
Qed.

(** C10.  When the listing returns several token accounts for the
    mint, [getTokenBalance] reports the first one (its amount, decimals
    and uiAmount) and does not look at the others: nothing is summed. *)
Theorem getTokenBalance_first_account
    (W : world) (connection : Connection) (walletAddress : PublicKey)
    (mintAddress : string) (mint : PublicKey) (s : state)
    (first : TokenAmount) (others : list TokenAmount) :
  new_PublicKey W mintAddress = Return mint ->
  rpc_getParsedTokenAccountsByOwner W (calls s) walletAddress mint
  = Return (first :: others) ->
  fst (getTokenBalance W connection walletAddress mintAddress s) =
  Return {| amount := amount first;
            decimals := decimals first;
            uiAmount := uiAmount first |}.
Proof.
  intros Hmint Hlist.
  now rewrite (getTokenBalance_listing W connection _ _ _ _ _ Hmint Hlist).
Qed.

(** Two accounts holding 5 and 7 raw units: the balance reported is 5. *)
Lemma getTokenBalance_first_account_witness :
  fst (getTokenBalance
         (Scenario.holding
            [ {| amount := "5"; decimals := 6; uiAmount := Some (number_of_decimal 5 6) |};
              {| amount := "7"; decimals := 6; uiAmount := Some (number_of_decimal 7 6) |} ])
         Scenario.a_connection Scenario.wallet_address Scenario.token Scenario.fresh) =
  Return {| amount := "5"; decimals := 6; uiAmount := Some (number_of_decimal 5 6) |}.
Proof.
  apply (getTokenBalance_first_account _ _ _ _ Scenario.token _
           {| amount := "5"; decimals := 6; uiAmount := Some (number_of_decimal 5 6) |}
           [ {| amount := "7"; decimals := 6; uiAmount := Some (number_of_decimal 7 6) |} ]);
    reflexivity.
Defined.

(** C7, as stated, fails: a wallet whose account for the mint holds a
    zero balance gets the decimals of the mint (6 here) in the result,
    a wallet without an account gets 0: the two results differ. *)
Lemma zero_balance_is_not_no_account :
  fst (getTokenBalance
         (Scenario.holding
            [ {| amount := "0"; decimals := 6; uiAmount := Some (number_of_Z 0) |} ])
         Scenario.a_connection Scenario.wallet_address Scenario.token Scenario.fresh)
  = Return {| amount := "0"; decimals := 6; uiAmount := Some (number_of_Z 0) |}
  /\ fst (getTokenBalance (Scenario.holding [])
            Scenario.a_connection Scenario.wallet_address Scenario.token Scenario.fresh)
     = Return {| amount := "0"; decimals := 0; uiAmount := Some (number_of_Z 0) |}
  /\ fst (getTokenBalance
            (Scenario.holding
               [ {| amount := "0"; decimals := 6; uiAmount := Some (number_of_Z 0) |} ])
            Scenario.a_connection Scenario.wallet_address Scenario.token Scenario.fresh)
     <> fst (getTokenBalance (Scenario.holding [])
               Scenario.a_connection Scenario.wallet_address Scenario.token Scenario.fresh).
Proof.
  split; [reflexivity |]. split; [reflexivity |]. discriminate.
Qed.

(** C7, amended.  When the listing for the mint is empty,
    [getTokenBalance] returns the snapshot
    [{amount: "0", decimals: 0, uiAmount: 0}] and does not throw.  An
    account with a zero balance gives the same [amount] and [uiAmount];
    the whole result is the same exactly when that account's decimals
    are 0. *)
Theorem getTokenBalance_no_account
    (W : world) (connection : Connection) (walletAddress : PublicKey)
    (mintAddress : string) (mint : PublicKey) (s : state) :
  new_PublicKey W mintAddress = Return mint ->
  (rpc_getParsedTokenAccountsByOwner W (calls s) walletAddress mint = Return [] ->
   fst (getTokenBalance W connection walletAddress mintAddress s)
   = Return zero_snapshot)
  /\ (forall d others,
        rpc_getParsedTokenAccountsByOwner W (calls s) walletAddress mint
        = Return ({| amount := "0"; decimals := d; uiAmount := Some (number_of_Z 0) |}
                  :: others) ->
        exists snapshot,
          fst (getTokenBalance W connection walletAddress mintAddress s)
          = Return snapshot
          /\ amount snapshot = amount zero_snapshot
          /\ uiAmount snapshot = uiAmount zero_snapshot
          /\ (snapshot = zero_snapshot <-> d = 0)).
Proof.
  intros Hmint. split.
  - intros Hlist.
    now rewrite (getTokenBalance_listing W connection _ _ _ _ _ Hmint Hlist).
  - intros d others Hlist.
    rewrite (getTokenBalance_listing W connection _ _ _ _ _ Hmint Hlist).
    eexists. split; [reflexivity |]. simpl.
    repeat split; try reflexivity.
    + intros H. now inversion H.
    + intros ->. reflexivity.
Qed.

(** No account for the mint: the zero snapshot; an empty account of a
    6-decimals mint: same amount and uiAmount, another snapshot. *)
Lemma getTokenBalance_no_account_witness :
  fst (getTokenBalance (Scenario.holding []) Scenario.a_connection
         Scenario.wallet_address Scenario.token Scenario.fresh)
  = Return zero_snapshot
  /\ exists snapshot,
       fst (getTokenBalance
              (Scenario.holding
                 [ {| amount := "0"; decimals := 6; uiAmount := Some (number_of_Z 0) |} ])
              Scenario.a_connection Scenario.wallet_address Scenario.token
              Scenario.fresh)
       = Return snapshot
       /\ amount snapshot = amount zero_snapshot
       /\ uiAmount snapshot = uiAmount zero_snapshot
       /\ (snapshot = zero_snapshot <-> 6 = 0).
Proof.
  split.
  - apply (proj1 (getTokenBalance_no_account (Scenario.holding [])
                    Scenario.a_connection Scenario.wallet_address Scenario.token
                    Scenario.token Scenario.fresh eq_refl)).
    reflexivity.
  - apply (proj2 (getTokenBalance_no_account
                    (Scenario.holding
                       [ {| amount := "0"; decimals := 6;
                            uiAmount := Some (number_of_Z 0) |} ])
                    Scenario.a_connection Scenario.wallet_address Scenario.token
                    Scenario.token Scenario.fresh eq_refl) 6 []).
    reflexivity.
Defined.

(** ** The decimals cache *)

Section Cache.
Variable W : world.




(** A hit: the cached decimals, no request, no write. *)
Lemma getTokenDecimals_hit connection mintAddress s cached :
  decimalsCache s !! mintAddress = Some (Some cached) ->
  getTokenDecimals W connection mintAddress s = (Return (Some cached), s).
Proof.
  intros H. unfold getTokenDecimals, bind, get_cache, ret. now rewrite H.
Qed.







Lemma buy_leg_cache token_address sol_amount slippage_bps keypair connection s r s1 :
  buy_leg W token_address sol_amount slippage_bps keypair connection s = (r, s1) ->
  decimalsCache s1 = decimalsCache s.
Proof.
  unfold buy_leg. intros H.
  apply bind_inv in H as [(q & sa & Hq & H) | (e & Hq & _)];
    apply getQuote_log in Hq as [_ Hq]; [| exact Hq].
  apply bind_inv in H as [(txid & sb & Hx & H) | (e & Hx & _)];
    apply executeSwap_log in Hx as [Hx _].
  - inversion H; subst. congruence.
  - congruence.
Qed.









End Cache.





(** ** Numbers *)

(** *** The sign of a rounded product *)

Lemma shr_1_nonneg mrs : 0 <= shr_m mrs -> 0 <= shr_m (shr_1 mrs).
Proof.
  destruct mrs as [m r st]. simpl.
  destruct m as [| p | p]; [easy | | lia].
  intros _. destruct p; simpl; lia.
Qed.

Lemma iter_pos_shr_1_nonneg p mrs :
  0 <= shr_m mrs -> 0 <= shr_m (SpecFloat.iter_pos shr_1 p mrs).
Proof.
  revert mrs. induction p as [p IH | p IH |]; intros mrs H; simpl.
  - apply IH, IH, shr_1_nonneg, H.
  - apply IH, IH, H.
  - apply shr_1_nonneg, H.
Qed.

Lemma shr_fexp_nonneg m e l :
  0 <= m -> 0 <= shr_m (fst (shr_fexp prec emax m e l)).
Proof.
  intros H. unfold shr_fexp, shr.
  assert (H0 : 0 <= shr_m (shr_record_of_loc m l))
    by (destruct l as [| []]; exact H).
  destruct (fexp prec emax (Zdigits2 m + e) - e) as [| p | p]; simpl;
    [exact H0 | | exact H0].
  now apply iter_pos_shr_1_nonneg.
Qed.

Lemma round_nearest_even_nonneg m l : 0 <= m -> 0 <= round_nearest_even m l.
Proof.
  intros H. unfold round_nearest_even.
  destruct l as [| []]; try destruct (Z.even m); lia.
Qed.

(** Rounding a non-negative mantissa gives a zero, a finite value or an
    infinity of the sign asked for, never [NaN]. *)
Lemma binary_round_aux_sign sx mx ex lx :
  0 <= mx ->
  match binary_round_aux prec emax sx mx ex lx with
  | S754_zero s | S754_infinity s | S754_finite s _ _ => s = sx
  | S754_nan => False
  end.
Proof.
  intros H. unfold binary_round_aux.
  pose proof (shr_fexp_nonneg mx ex lx H) as H1.
  destruct (shr_fexp prec emax mx ex lx) as [mrs' e'] eqn:E1. simpl in H1.
  pose proof (shr_fexp_nonneg _ e' loc_Exact
                (round_nearest_even_nonneg _ (loc_of_shr_record mrs') H1)) as H2.
  destruct (shr_fexp prec emax _ e' loc_Exact) as [mrs'' e''] eqn:E2. simpl in H2.
  destruct (shr_m mrs'') as [| p | p]; [reflexivity | | lia].
  destruct (e'' <=? emax - prec); reflexivity.
Qed.

(** A positive Number times a positive finite Number is [+0], positive
    and finite, or [+Infinity]. *)
Lemma mul_positive_sign x m e :
  positive x = true ->
  match mul x (S754_finite false m e) with
  | S754_zero s | S754_infinity s | S754_finite s _ _ => s = false
  | S754_nan => False
  end.
Proof.
  destruct x as [sx | sx | | sx mx ex]; try discriminate.
  - destruct sx; [discriminate | reflexivity].
  - destruct sx; [discriminate |]. intros _.
    unfold mul, SFmul. simpl xorb.
    apply (binary_round_aux_sign false). lia.
Qed.

Lemma pow10_finite d :
  0 <= d <= 18 -> exists m e, pow10 d = S754_finite false m e.
Proof.
  intros H.
  assert (Hd : d = 0 \/ d = 1 \/ d = 2 \/ d = 3 \/ d = 4 \/ d = 5 \/ d = 6
               \/ d = 7 \/ d = 8 \/ d = 9 \/ d = 10 \/ d = 11 \/ d = 12
               \/ d = 13 \/ d = 14 \/ d = 15 \/ d = 16 \/ d = 17 \/ d = 18) by lia.
  repeat (destruct Hd as [-> | Hd]; [vm_compute; eauto |]).
  subst d. vm_compute. eauto.
Qed.

(** *** [Math.round] on non-negative Numbers *)

Lemma SF2Q_nonneg m e : (0 <= SF2Q (S754_finite false m e))%Q.
Proof.
  unfold SF2Q. simpl cond_Zopp.
  apply Qmult_le_0_compat.
  - now unfold Qle.
  - apply Qpower_0_le. now unfold Qle.
Qed.

(** On a Number that is not negative, rounding with ties towards
    +Infinity is rounding with ties away from zero. *)
Lemma Math_round_nonneg x :
  match x with
  | S754_zero false | S754_finite false _ _ => True
  | _ => False
  end ->
  Math_round x = number_of_Z (round_half_away_from_zero (SF2Q x)).
Proof.
  destruct x as [[] | | | [] m e]; try easy; intros _.
  unfold Math_round, round_half_away_from_zero.
  assert (Hq : Qle_bool 0 (SF2Q (S754_finite false m e)) = true)
    by (apply Qle_bool_iff, SF2Q_nonneg).
  rewrite Hq.
  destruct (Qfloor (SF2Q (S754_finite false m e) + (1 # 2)) =? 0) eqn:Hk.
  - apply Z.eqb_eq in Hk. rewrite Hk. reflexivity.
  - reflexivity.
Qed.

(** *** Raw amounts *)

(** [get_quote] sends one request: the quote for the raw amount. *)
Lemma get_quote_log W input_mint output_mint amount input_decimals slippage_bps s :
  calls (snd (get_quote W input_mint output_mint amount input_decimals
                slippage_bps s)) =
  calls s ++ [ FetchQuote
                 (if String.eqb input_mint "SOL" then SOL_MINT else input_mint)
                 (if String.eqb output_mint "SOL" then SOL_MINT else output_mint)
                 (rawAmount amount input_decimals) (number_of_Z slippage_bps) ].
Proof.
  unfold get_quote, try_catch, bind.
  destruct (getQuote W _ _ _ _ s) as [[q | e] s1] eqn:Hq;
    apply getQuote_log in Hq as [Hq _]; exact Hq.
Qed.

(** With a wallet, the first request of [sell_token] is the quote for
    the raw amount. *)
Lemma sell_token_log W token_address token_amount token_decimals slippage_bps
    keypair connection s :
  getKeypair W = Return keypair ->
  getConnection W = Return connection ->
  exists rest,
    calls (snd (sell_token W token_address token_amount token_decimals
                  slippage_bps s)) =
    calls s ++ FetchQuote token_address SOL_MINT
                 (rawAmount token_amount token_decimals)
                 (number_of_Z slippage_bps) :: rest.
Proof.
  intros Hk Hc. unfold sell_token, try_catch, bind, lift, ret. rewrite Hk, Hc.
  destruct (getQuote W _ _ _ _ s) as [[q | e] s1] eqn:Hq;
    apply getQuote_log in Hq as [Hq _].
  2: { now exists []. }
  destruct (executeSwap W q keypair connection s1) as [[txid | e] s2] eqn:Hx;
    apply executeSwap_log in Hx as [_ (rest & Hx & _)]; simpl;
    rewrite Hx, Hq, <- app_assoc; simpl; eauto.
Qed.

(** The raw amount is the product of the two Numbers, rounded to an
    integer with halves away from zero. *)
Lemma rawAmount_value amount input_decimals :
  positive amount = true ->
  decimals_schema input_decimals = true ->
  (mul amount (pow10 input_decimals) = Infinity
   /\ rawAmount amount input_decimals = Infinity)
  \/ (is_finite (mul amount (pow10 input_decimals)) = true
      /\ rawAmount amount input_decimals =
         number_of_Z (round_half_away_from_zero
                        (SF2Q (mul amount (pow10 input_decimals))))).
Proof.
  intros Hpos Hdec.
  assert (Hd : 0 <= input_decimals <= 18)
    by (unfold decimals_schema in Hdec; lia).
  destruct (pow10_finite _ Hd) as (m & e & Hp). rewrite Hp.
  unfold rawAmount. rewrite Hp.
  pose proof (mul_positive_sign amount m e Hpos) as Hsign.
  destruct (mul amount (S754_finite false m e)) as [sz | sz | | sz mz ez];
    try contradiction; subst sz.
  - right. split; [reflexivity |]. now apply Math_round_nonneg.
  - left. split; reflexivity.
  - right. split; [reflexivity |]. now apply Math_round_nonneg.
Qed.

(** C4, as stated, fails.
    - Amount 1.255, decimals 2: the code computes
      [1.255 * 100 = 125.49999999999999] and submits 125, while
      1.255 x 10^2 = 125.5 rounds to 126.
    - Amount 0.35, decimals 1: the code computes [0.35 * 10 = 3.5] and
      submits 4, while the Number 0.35 is below 35/100 and ten times its
      value rounds to 3.
    - Amount 0.34999999999999998, decimals 1: the literal denotes the
      same Number as 0.35, the code submits 4, and both the literal and
      the Number, times ten, round to 3. *)
Lemma rawAmount_is_not_the_exact_rounding :
  (get_quote_schema (number_of_decimal 1255 3) 2 50 = true
   /\ rawAmount (number_of_decimal 1255 3) 2 = number_of_Z 125
   /\ round_half_away_from_zero ((1255 # 1000) * inject_Z (10 ^ 2)) = 126)
  /\ (get_quote_schema (number_of_decimal 35 2) 1 50 = true
      /\ rawAmount (number_of_decimal 35 2) 1 = number_of_Z 4
      /\ round_half_away_from_zero
           (SF2Q (number_of_decimal 35 2) * inject_Z (10 ^ 1)) = 3)
  /\ (get_quote_schema (number_of_decimal 34999999999999998 17) 1 50 = true
      /\ number_of_decimal 34999999999999998 17 = number_of_decimal 35 2
      /\ rawAmount (number_of_decimal 34999999999999998 17) 1 = number_of_Z 4
      /\ round_half_away_from_zero
           ((34999999999999998 # 100000000000000000) * inject_Z (10 ^ 1)) = 3
      /\ round_half_away_from_zero
           (SF2Q (number_of_decimal 34999999999999998 17) * inject_Z (10 ^ 1)) = 3)
  /\ number_of_Z 125 <> number_of_Z 126
  /\ number_of_Z 4 <> number_of_Z 3.
Proof.
  repeat split; try (vm_compute; reflexivity); vm_compute; intros H; discriminate H.
Qed.

(** C4, amended.  For every positive amount and every decimals from 0
    through 18, the raw amount that [get_quote] and [sell_token] submit
    to the quote endpoint is [Math.round(amount * 10 ** decimals)]: the
    binary64 product of the two Numbers, rounded to an integer with
    halves away from zero (or [Infinity] when that product overflows).
    Amount 0.5 with decimals 9 gives 500000000. *)
Theorem rawAmount_rounds_the_double_product (amount : number) (decimals : Z) :
  positive amount = true ->
  decimals_schema decimals = true ->
  (forall W input_mint output_mint slippage_bps s,
      calls (snd (get_quote W input_mint output_mint amount decimals
                    slippage_bps s)) =
      calls s ++ [ FetchQuote
                     (if String.eqb input_mint "SOL" then SOL_MINT else input_mint)
                     (if String.eqb output_mint "SOL" then SOL_MINT else output_mint)
                     (rawAmount amount decimals) (number_of_Z slippage_bps) ])
  /\ (forall W token_address slippage_bps keypair connection s,
        getKeypair W = Return keypair ->
        getConnection W = Return connection ->
        exists rest,
          calls (snd (sell_token W token_address amount decimals slippage_bps s)) =
          calls s ++ FetchQuote token_address SOL_MINT (rawAmount amount decimals)
                       (number_of_Z slippage_bps) :: rest)
  /\ ((mul amount (pow10 decimals) = Infinity
       /\ rawAmount amount decimals = Infinity)
      \/ (is_finite (mul amount (pow10 decimals)) = true
          /\ rawAmount amount decimals =
             number_of_Z (round_half_away_from_zero
                            (SF2Q (mul amount (pow10 decimals))))))
  /\ rawAmount (number_of_decimal 5 1) 9 = number_of_Z 500000000.
Proof.
  intros Hpos Hdec. split; [| split; [| split]].
  - intros. apply get_quote_log.
  - intros W token_address slippage_bps keypair connection s Hk Hc.
    now apply (sell_token_log W _ _ _ _ keypair connection).
  - now apply rawAmount_value.
  - vm_compute. reflexivity.
Qed.

(** 0.5 SOL at 9 decimals: the quote is asked for 500000000 lamports,
    which is the exact product. *)
Lemma rawAmount_rounds_the_double_product_witness :
  calls (snd (get_quote (Scenario.trading "123456" "90000000" 5) "SOL" Scenario.token
                (number_of_decimal 5 1) 9 50 Scenario.fresh)) =
  [ FetchQuote SOL_MINT Scenario.token (number_of_Z 500000000) (number_of_Z 50) ]
  /\ is_finite (mul (number_of_decimal 5 1) (pow10 9)) = true
  /\ rawAmount (number_of_decimal 5 1) 9 =
     number_of_Z (round_half_away_from_zero
                    (SF2Q (mul (number_of_decimal 5 1) (pow10 9))))
  /\ round_half_away_from_zero (SF2Q (mul (number_of_decimal 5 1) (pow10 9)))
     = 500000000.
Proof.
  destruct (rawAmount_rounds_the_double_product (number_of_decimal 5 1) 9
              eq_refl eq_refl) as (Hquote & _ & [[Hinf _] | [Hfin Hraw]] & Hex).
  - discriminate Hinf.
  - split; [| split; [exact Hfin | split; [exact Hraw | reflexivity]]].
    rewrite (Hquote (Scenario.trading "123456" "90000000" 5) "SOL" Scenario.token
               50 Scenario.fresh).
    rewrite Hex. reflexivity.
Defined.

(** *** The round trip of the bought amount *)

(** On exact rationals the round trip is the identity on every raw
    amount that is not negative. *)
Lemma round_trip_exact (r d : Z) :
  0 <= r -> 0 <= d ->
  round_half_away_from_zero
    (inject_Z r / inject_Z (10 ^ d) * inject_Z (10 ^ d)) = r.
Proof.
  intros Hr Hd.
  assert (Hp : 0 < 10 ^ d) by (apply Z.pow_pos_nonneg; lia).
  assert (Heq : (inject_Z r / inject_Z (10 ^ d) * inject_Z (10 ^ d) == inject_Z r)%Q).
  { field. intros H. unfold Qeq in H. simpl in H. lia. }
  unfold round_half_away_from_zero.
  assert (Hle : Qle_bool 0 (inject_Z r / inject_Z (10 ^ d) * inject_Z (10 ^ d)) = true).
  { apply Qle_bool_iff. rewrite Heq. unfold Qle. simpl. lia. }
  rewrite Hle.
  rewrite (Qfloor_comp _ (inject_Z r + (1 # 2))) by (now rewrite Heq).
  unfold Qfloor, Qplus, inject_Z. simpl.
  symmetry. apply Z.div_unique with (r := 1); lia.
Qed.

(** C5 (the code loses the amount).  The buy quote reports
    4257269181500089 raw units of a token with 9 decimals, an integer
    that [Number] represents exactly.  The code divides by [10 ** 9]
    and multiplies back in binary64, which gives 4257269181500089.5,
    and [Math.round] turns that into 4257269181500090: the sell quote is
    asked for one raw unit more than was bought.  An amount above 2^53
    is already changed by [Number]: 9007199254740993 becomes
    9007199254740992, whatever the decimals. *)
Theorem buy_and_sell_round_trip_changes_amount :
  integer_value (Number "4257269181500089") = 4257269181500089
  /\ integer_value (rawTokenAmount "4257269181500089" (Some 9)) = 4257269181500090
  /\ List.filter is_quote
       (calls (snd (buy_and_sell (Scenario.trading "4257269181500089" "90000000" 9)
                      Scenario.token (number_of_decimal 1 1) 50 Scenario.fresh)))
     = [ FetchQuote SOL_MINT Scenario.token (number_of_Z 100000000) (number_of_Z 50);
         FetchQuote Scenario.token SOL_MINT (number_of_Z 4257269181500090)
                    (number_of_Z 50) ]
  /\ integer_value (rawTokenAmount "9007199254740993" (Some 0)) = 9007199254740992.
Proof.
  split; [vm_compute; reflexivity |].
  split; [vm_compute; reflexivity |].
  split; [vm_compute; reflexivity |].
  vm_compute; reflexivity.
Qed.

(** *** The error of a subtraction *)

(** A mantissa of [d] binary digits lies in [[2^(d-1), 2^d)]. *)
Lemma digits2_pos_bounds p :
  2 ^ (Z.pos (digits2_pos p) - 1) <= Z.pos p < 2 ^ Z.pos (digits2_pos p).
Proof.
  induction p as [p IH | p IH |]; simpl digits2_pos.
  - rewrite Pos2Z.inj_succ.
    replace (Z.succ (Z.pos (digits2_pos p)) - 1) with (Z.succ (Z.pos (digits2_pos p) - 1)) by lia.
    rewrite !Z.pow_succ_r by lia. lia.
  - rewrite Pos2Z.inj_succ.
    replace (Z.succ (Z.pos (digits2_pos p)) - 1) with (Z.succ (Z.pos (digits2_pos p) - 1)) by lia.
    rewrite !Z.pow_succ_r by lia. lia.
  - simpl. lia.
Qed.

Lemma truncated_start m : 0 <= m -> truncated m 0 (shr_record_of_loc m loc_Exact).
Proof.
  intros H. exists 0. simpl. repeat split; lia.
Qed.

(** Shifting one more bit out keeps the record in step with the
    mantissa it comes from. *)
Lemma shr_1_truncated m k mrs :
  0 <= k -> truncated m k mrs -> truncated m (k + 1) (shr_1 mrs).
Proof.
  intros Hk (rem & Hm & Heq & Hrem & Hloc).
  assert (Hp : 0 < 2 ^ k) by (apply Z.pow_pos_nonneg; lia).
  assert (Hs : 2 ^ (k + 1) = 2 * 2 ^ k) by (rewrite Z.pow_add_r by lia; lia).
  destruct mrs as [q r st]. simpl in *.
  destruct q as [| [p | p |] | p]; simpl; try lia.
  - (* q = 0 *)
    exists rem. simpl. rewrite Hs.
    destruct r, st; simpl; repeat split; try lia.
  - (* q = 2p+1 *)
    exists (2 ^ k + rem). simpl. rewrite Hs.
    destruct r, st; simpl; repeat split; try lia.
  - exists rem. simpl. rewrite Hs.
    destruct r, st; simpl; repeat split; try lia.
  - exists (2 ^ k + rem). simpl. rewrite Hs.
    destruct r, st; simpl; repeat split; try lia.
Qed.

Lemma iter_pos_truncated m p : forall k mrs,
  0 <= k -> truncated m k mrs ->
  truncated m (k + Z.pos p) (SpecFloat.iter_pos shr_1 p mrs).
Proof.
  induction p as [p IH | p IH |]; intros k mrs Hk H; simpl.
  - replace (k + Z.pos p~1) with (((k + 1) + Z.pos p) + Z.pos p) by lia.
    apply IH; [lia |]. apply IH; [lia |]. now apply shr_1_truncated.
  - replace (k + Z.pos p~0) with ((k + Z.pos p) + Z.pos p) by lia.
    apply IH; [lia |]. now apply IH.
  - now apply shr_1_truncated.
Qed.

(** Rounding the truncated mantissa to nearest, ties to even, is off
    by at most half a unit of the last place kept. *)
Lemma round_truncated m k mrs :
  0 <= k -> truncated m k mrs ->
  let m1 := round_nearest_even (shr_m mrs) (loc_of_shr_record mrs) in
  0 <= m1 /\ 2 * Z.abs (m1 * 2 ^ k - m) <= 2 ^ k
  /\ m1 * 2 ^ k <= m + 2 ^ k.
Proof.
  intros Hk (rem & Hm & Heq & Hrem & Hloc).
  assert (Hp : 0 < 2 ^ k) by (apply Z.pow_pos_nonneg; lia).
  destruct mrs as [q r st]. simpl in *.
  destruct r, st; simpl; try destruct (Z.even q); lia.
Qed.

Lemma digits2_le p X : Z.pos p < 2 ^ X -> Z.pos (digits2_pos p) <= X.
Proof.
  intros H. pose proof (digits2_pos_bounds p) as [Hlo _].
  destruct (Z_lt_le_dec X (Z.pos (digits2_pos p))) as [Hlt | Hle]; [| exact Hle].
  exfalso.
  assert (2 ^ X <= 2 ^ (Z.pos (digits2_pos p) - 1))
    by (destruct (Z_lt_le_dec X 0);
        [rewrite (Z.pow_neg_r 2 X) by lia; apply Z.pow_nonneg; lia
        | apply Z.pow_le_mono_r; lia]).
  lia.
Qed.

Lemma pow2_split a b : 0 <= a -> 0 <= b -> 2 ^ (a + b) = 2 ^ a * 2 ^ b.
Proof. intros. apply Z.pow_add_r; lia. Qed.

Lemma pow2_pos a : 0 <= a -> 0 < 2 ^ a.
Proof. intros. apply Z.pow_pos_nonneg; lia. Qed.

Lemma pow2_le a b : a <= b -> 2 ^ a <= 2 ^ b.
Proof.
  intros H. destruct (Z_lt_le_dec a 0).
  - rewrite (Z.pow_neg_r 2 a) by lia. apply Z.pow_nonneg; lia.
  - apply Z.pow_le_mono_r; lia.
Qed.

(** Rounding [p * 2^e], a value below [2^B]: the result is a zero or a
    finite Number [M * 2^E], off by at most [2^(B-52)]; the error is
    counted here in units of [2^e]. *)
Lemma binary_round_aux_error s p e B :
  Z.pos (digits2_pos p) + e <= B ->
  -1021 <= B <= 971 ->
  exists M E,
    binary_round_aux prec emax s (Z.pos p) e loc_Exact = rounded s M E
    /\ 0 <= M /\ e <= E
    /\ Z.abs (M * 2 ^ (E - e) - Z.pos p) <= 2 ^ (B - 52 - e).
Proof.
  intros Hd HB.
  set (d := Z.pos (digits2_pos p)) in *.
  assert (Hdpos : 0 < d) by (unfold d; lia).
  pose proof (digits2_pos_bounds p) as [_ Hm]. fold d in Hm.
  assert (Hexact : Z.abs (Z.pos p * 2 ^ (e - e) - Z.pos p) <= 2 ^ (B - 52 - e)).
  { rewrite Z.sub_diag. replace (Z.pos p * 2 ^ 0 - Z.pos p) with 0 by (simpl; lia).
    simpl. apply Z.pow_nonneg. lia. }
  unfold binary_round_aux, shr_fexp, shr. simpl Zdigits2. fold d.
  set (F1 := fexp prec emax (d + e)).
  assert (HF1 : F1 = Z.max (d + e - 53) (-1074)) by reflexivity.
  destruct (F1 - e) as [| p1 | p1] eqn:Hn1.
  - (* no shift *)
    simpl. fold d. fold F1. rewrite Hn1.
    exists (Z.pos p), e. simpl.
    assert (He : (e <=? emax - prec) = true) by (apply Z.leb_le; unfold emax, prec; lia).
    rewrite He. repeat split; try lia; exact Hexact.
  - (* shifted by n1 *)
    set (n1 := Z.pos p1) in *.
    assert (Hn1pos : 0 < n1) by (unfold n1; lia).
    pose proof (iter_pos_truncated (Z.pos p) p1 0 _ (Z.le_refl 0)
                  (truncated_start (Z.pos p) (Pos2Z.is_nonneg p))) as Htr.
    rewrite Z.add_0_l in Htr. fold n1 in Htr.
    set (mrs' := SpecFloat.iter_pos shr_1 p1 (shr_record_of_loc (Z.pos p) loc_Exact)) in *.
    destruct (round_truncated (Z.pos p) n1 mrs' (Z.lt_le_incl _ _ Hn1pos) Htr)
      as (Hm1 & Herr1 & Hup1).
    set (m1 := round_nearest_even (shr_m mrs') (loc_of_shr_record mrs')) in *.
    assert (HF1e : e + n1 = F1) by lia.
    (* the size of the rounded mantissa *)
    assert (Hdig : Zdigits2 m1 + F1 <= B + 1).
    { destruct m1 as [| q | q] eqn:Eq1; [simpl; lia | | lia].
      simpl Zdigits2.
      assert (Hq : Z.pos q < 2 ^ (Z.max (d - n1) 0 + 1)).
      { pose proof (pow2_pos n1 (Z.lt_le_incl _ _ Hn1pos)) as Hpn.
        destruct (Z_lt_le_dec (d - n1) 0) as [Hneg | Hnn].
        - rewrite Z.max_r by lia. simpl.
          assert (2 ^ d <= 2 ^ n1) by (apply pow2_le; lia).
          assert (Z.pos q * 2 ^ n1 < 2 * 2 ^ n1) by lia.
          change (2 ^ 1) with 2. nia.
        - rewrite Z.max_l by lia.
          assert (Hsp : 2 ^ d = 2 ^ (d - n1) * 2 ^ n1).
          { rewrite <- pow2_split by lia. f_equal. lia. }
          assert (Hone : 2 ^ (d - n1 + 1) = 2 * 2 ^ (d - n1))
            by (rewrite pow2_split by lia; change (2 ^ 1) with 2; lia).
          pose proof (pow2_pos (d - n1) Hnn) as Hpd.
          rewrite Hone.
          assert (Z.pos q * 2 ^ n1 < 2 ^ (d - n1) * 2 ^ n1 + 2 ^ n1) by lia.
          nia. }
      apply digits2_le in Hq. lia. }
    set (F2 := fexp prec emax (Zdigits2 m1 + (e + n1))).
    assert (HF2 : F2 = Z.max (Zdigits2 m1 + F1 - 53) (-1074))
      by (unfold F2; rewrite HF1e; reflexivity).
    assert (Hhalf : 2 ^ n1 = 2 * 2 ^ (n1 - 1)).
    { replace n1 with ((n1 - 1) + 1) at 1 by lia.
      rewrite pow2_split by lia. change (2 ^ 1) with 2. lia. }
    destruct (F2 - (e + n1)) as [| p2 | p2] eqn:Hn2.
    + (* no second shift *)
      exists m1, (e + n1).
      assert (Hres : shr_m (shr_record_of_loc m1 loc_Exact) = m1) by reflexivity.
      rewrite Hres.
      assert (He : (e + n1 <=? emax - prec) = true)
        by (apply Z.leb_le; unfold emax, prec; lia).
      split.
      { unfold rounded. destruct m1; [reflexivity | now rewrite He | lia]. }
      split; [exact Hm1 |]. split; [lia |].
      replace (e + n1 - e) with n1 by lia.
      assert (2 ^ (n1 - 1) <= 2 ^ (B - 52 - e)) by (apply pow2_le; lia).
      lia.
    + (* second shift by n2 *)
      set (n2 := Z.pos p2) in *.
      assert (Hn2pos : 0 < n2) by (unfold n2; lia).
      pose proof (iter_pos_truncated m1 p2 0 _ (Z.le_refl 0)
                    (truncated_start m1 Hm1)) as Htr2.
      rewrite Z.add_0_l in Htr2. fold n2 in Htr2.
      set (mrs'' := SpecFloat.iter_pos shr_1 p2 (shr_record_of_loc m1 loc_Exact)) in *.
      destruct Htr2 as (rem2 & HM & Heq2 & Hrem2 & _).
      exists (shr_m mrs''), (e + n1 + n2).
      assert (He : (e + n1 + n2 <=? emax - prec) = true)
        by (apply Z.leb_le; unfold emax, prec; lia).
      split.
      { unfold rounded. destruct (shr_m mrs''); [reflexivity | now rewrite He | lia]. }
      split; [exact HM |]. split; [lia |].
      replace (e + n1 + n2 - e) with (n1 + n2) by lia.
      rewrite pow2_split by lia.
      pose proof (pow2_pos n1 (Z.lt_le_incl _ _ Hn1pos)) as Hpn1.
      pose proof (pow2_pos n2 (Z.lt_le_incl _ _ Hn2pos)) as Hpn2.
      assert (Hb : 2 ^ n1 * 2 ^ n2 <= 2 ^ (B - 52 - e)).
      { rewrite <- pow2_split by lia. apply pow2_le. lia. }
      assert (Hmul : shr_m mrs'' * (2 ^ n1 * 2 ^ n2) = (m1 - rem2) * 2 ^ n1) by nia.
      rewrite Hmul.
      assert (Z.abs ((m1 - rem2) * 2 ^ n1 - Z.pos p)
              <= rem2 * 2 ^ n1 + Z.abs (m1 * 2 ^ n1 - Z.pos p)) by lia.
      assert (rem2 * 2 ^ n1 <= (2 ^ n2 - 1) * 2 ^ n1) by nia.
      nia.
    + (* no second shift *)
      exists m1, (e + n1).
      assert (Hres : shr_m (shr_record_of_loc m1 loc_Exact) = m1) by reflexivity.
      rewrite Hres.
      assert (He : (e + n1 <=? emax - prec) = true)
        by (apply Z.leb_le; unfold emax, prec; lia).
      split.
      { unfold rounded. destruct m1; [reflexivity | now rewrite He | lia]. }
      split; [exact Hm1 |]. split; [lia |].
      replace (e + n1 - e) with n1 by lia.
      assert (2 ^ (n1 - 1) <= 2 ^ (B - 52 - e)) by (apply pow2_le; lia).
      lia.
  - simpl. fold d. fold F1. rewrite Hn1.
    exists (Z.pos p), e. simpl.
    assert (He : (e <=? emax - prec) = true) by (apply Z.leb_le; unfold emax, prec; lia).
    rewrite He. repeat split; try lia; exact Hexact.
Qed.

Lemma iter_xO_value m d : Z.pos (Pos.iter xO m d) = Z.pos m * 2 ^ Z.pos d.
Proof.
  change (Pos.iter xO m d) with (shift_pos d m).
  rewrite shift_pos_correct, Z.pow_pos_fold. lia.
Qed.

(** Aligning a mantissa to a lower exponent keeps the value. *)
Lemma shl_align_value m e e' :
  let '(mz, ez) := shl_align m e e' in
  ez <= e /\ Z.pos mz = Z.pos m * 2 ^ (e - ez) /\ (e' <= e -> ez = e').
Proof.
  unfold shl_align. destruct (e' - e) as [| d | d] eqn:Hd.
  - rewrite Z.sub_diag. simpl. lia.
  - rewrite Z.sub_diag. simpl. lia.
  - rewrite iter_xO_value. replace (e - e') with (Z.pos d) by lia. lia.
Qed.

(** The same after normalization, in units of the aligned exponent. *)
Lemma binary_round_error s p e B :
  Z.pos (digits2_pos p) + e <= B ->
  -1021 <= B <= 971 ->
  exists M E e0,
    binary_round prec emax s p e = rounded s M E
    /\ 0 <= M /\ e0 <= e /\ e0 <= E
    /\ Z.abs (M * 2 ^ (E - e0) - Z.pos p * 2 ^ (e - e0)) <= 2 ^ (B - 52 - e0).
Proof.
  intros Hd HB. unfold binary_round.
  pose proof (shl_align_value p e (fexp prec emax (Z.pos (digits2_pos p) + e)))
    as Hal.
  destruct (shl_align p e _) as [mz ez]. destruct Hal as (Hez & Hmz & _).
  assert (Hdz : Z.pos (digits2_pos mz) + ez <= B).
  { pose proof (digits2_pos_bounds p) as [_ Hp].
    assert (Hlt : Z.pos mz < 2 ^ (Z.pos (digits2_pos p) + (e - ez))).
    { rewrite Hmz, pow2_split by lia.
      pose proof (pow2_pos (e - ez)). nia. }
    apply digits2_le in Hlt. lia. }
  destruct (binary_round_aux_error s mz ez B Hdz HB) as (M & E & Hres & HM & HE & Herr).
  exists M, E, ez. rewrite <- Hmz. auto.
Qed.

Section Rationals.
Local Open Scope Q_scope.

Lemma two_neq_0 : ~ (2 # 1) == 0.
Proof. discriminate. Qed.

Lemma pow2Q_pos e : 0 < (2 # 1) ^ e.
Proof. apply Qpower_0_lt. reflexivity. Qed.

(** [m * 2^E] written over a lower exponent. *)
Lemma rescale (M : Z) (E e0 : Z) :
  (e0 <= E)%Z ->
  inject_Z M * (2 # 1) ^ E == inject_Z (M * 2 ^ (E - e0)) * (2 # 1) ^ e0.
Proof.
  intros H. rewrite inject_Z_mult, Zpower_Qpower by lia.
  change (inject_Z 2) with (2 # 1).
  rewrite <- Qmult_assoc, <- Qpower_plus by apply two_neq_0.
  now replace (E - e0 + e0)%Z with E by lia.
Qed.

Lemma SF2Q_rounded s M E :
  (0 <= M)%Z -> SF2Q (rounded s M E) == inject_Z (cond_Zopp s M) * (2 # 1) ^ E.
Proof.
  intros H. destruct M as [| p | p]; [| reflexivity | lia].
  destruct s; simpl; now rewrite Qmult_0_l.
Qed.

Lemma cond_Zopp_abs s z : Z.abs (cond_Zopp s z) = Z.abs z.
Proof. destruct s; simpl; lia. Qed.

Lemma cond_Zopp_sub s a b :
  (cond_Zopp s a - cond_Zopp s b)%Z = cond_Zopp s (a - b).
Proof. destruct s; simpl; lia. Qed.

Lemma Qabs_inject_Z z : Qabs (inject_Z z) == inject_Z (Z.abs z).
Proof. unfold Qabs, inject_Z. simpl. reflexivity. Qed.

(** From the error counted in units of [2^e0] to the error as a
    rational. *)
Lemma rounded_error s M E P e e0 B :
  (0 <= M)%Z -> (e0 <= E)%Z -> (e0 <= e)%Z ->
  (Z.abs (M * 2 ^ (E - e0) - P * 2 ^ (e - e0)) <= 2 ^ (B - 52 - e0))%Z ->
  Qabs (SF2Q (rounded s M E) - inject_Z (cond_Zopp s P) * (2 # 1) ^ e)
  <= (2 # 1) ^ (B - 52).
Proof.
  intros HM HE He Herr.
  rewrite (SF2Q_rounded s M E HM).
  rewrite (rescale (cond_Zopp s M) E e0 HE), (rescale (cond_Zopp s P) e e0 He).
  assert (Hd : inject_Z (cond_Zopp s M * 2 ^ (E - e0)) * (2 # 1) ^ e0
               - inject_Z (cond_Zopp s P * 2 ^ (e - e0)) * (2 # 1) ^ e0
               == inject_Z (cond_Zopp s (M * 2 ^ (E - e0) - P * 2 ^ (e - e0)))
                  * (2 # 1) ^ e0).
  { rewrite <- cond_Zopp_sub.
    replace (cond_Zopp s (M * 2 ^ (E - e0))) with (cond_Zopp s M * 2 ^ (E - e0))%Z
      by (destruct s; simpl; lia).
    replace (cond_Zopp s (P * 2 ^ (e - e0))) with (cond_Zopp s P * 2 ^ (e - e0))%Z
      by (destruct s; simpl; lia).
    unfold Zminus. rewrite inject_Z_plus, inject_Z_opp. ring. }
  rewrite Hd, Qabs_Qmult, Qabs_inject_Z, cond_Zopp_abs.
  rewrite (Qabs_pos ((2 # 1) ^ e0)) by (apply Qlt_le_weak, pow2Q_pos).
  destruct (Z_lt_le_dec (B - 52 - e0) 0) as [Hneg | Hnn].
  - rewrite (Z.pow_neg_r 2 _ Hneg) in Herr.
    replace (Z.abs (M * 2 ^ (E - e0) - P * 2 ^ (e - e0))) with 0%Z by lia.
    rewrite Qmult_0_l. apply Qlt_le_weak, pow2Q_pos.
  - apply Qle_trans with (inject_Z (2 ^ (B - 52 - e0)) * (2 # 1) ^ e0).
    + apply Qmult_le_compat_r; [| apply Qlt_le_weak, pow2Q_pos].
      now rewrite <- Zle_Qle.
    + rewrite Zpower_Qpower by lia. change (inject_Z 2) with (2 # 1).
      rewrite <- Qpower_plus by apply two_neq_0.
      replace (B - 52 - e0 + e0)%Z with (B - 52)%Z by lia. apply Qle_refl.
Qed.

(** A value below [2^B] has its last digit below position [B]. *)
Lemma digits_of_value p e B :
  inject_Z (Z.pos p) * (2 # 1) ^ e < (2 # 1) ^ B ->
  (Z.pos (digits2_pos p) + e <= B)%Z.
Proof.
  intros H. pose proof (digits2_pos_bounds p) as [Hlo _].
  assert (Hq : (2 # 1) ^ (Z.pos (digits2_pos p) - 1 + e) < (2 # 1) ^ B).
  { eapply Qle_lt_trans; [| exact H].
    rewrite Qpower_plus by apply two_neq_0.
    apply Qmult_le_compat_r; [| apply Qlt_le_weak, pow2Q_pos].
    rewrite Zle_Qle, Zpower_Qpower in Hlo by lia. exact Hlo. }
  apply Qpower_lt_compat_l_inv in Hq; [lia | reflexivity].
Qed.

Lemma finite_value s m e :
  SF2Q (S754_finite s m e) = inject_Z (cond_Zopp s (Z.pos m)) * (2 # 1) ^ e.
Proof. reflexivity. Qed.

(** The difference of two finite Numbers, as an integer over the lower
    of the two exponents. *)
Lemma aligned_difference sx mx ex sy my ey :
  let ez := Z.min ex ey in
  SF2Q (S754_finite sx mx ex) - SF2Q (S754_finite sy my ey)
  == inject_Z (cond_Zopp sx (Z.pos (fst (shl_align mx ex ez)))
               - cond_Zopp sy (Z.pos (fst (shl_align my ey ez))))
     * (2 # 1) ^ ez.
Proof.
  intros ez.
  pose proof (shl_align_value mx ex ez) as Hx.
  pose proof (shl_align_value my ey ez) as Hy.
  destruct (shl_align mx ex ez) as [ax e1], (shl_align my ey ez) as [ay e2].
  destruct Hx as (_ & Hax & He1), Hy as (_ & Hay & He2). simpl fst.
  rewrite (He1 (Z.le_min_l ex ey)) in Hax. rewrite (He2 (Z.le_min_r ex ey)) in Hay.
  fold ez in Hax, Hay.
  rewrite !finite_value.
  rewrite (rescale _ ex ez (Z.le_min_l ex ey)), (rescale _ ey ez (Z.le_min_r ex ey)).
  fold ez.
  replace (cond_Zopp sx (Z.pos mx) * 2 ^ (ex - ez))%Z with (cond_Zopp sx (Z.pos ax))
    by (rewrite Hax; destruct sx; simpl; lia).
  replace (cond_Zopp sy (Z.pos my) * 2 ^ (ey - ez))%Z with (cond_Zopp sy (Z.pos ay))
    by (rewrite Hay; destruct sy; simpl; lia).
  unfold Zminus. rewrite inject_Z_plus, inject_Z_opp. ring.
Qed.

(** The subtraction of two finite Numbers whose difference is below
    [2^B] in magnitude is off by at most [2^(B-52)]. *)
Lemma sub_error x y B :
  is_finite x = true -> is_finite y = true ->
  (-1021 <= B <= 971)%Z ->
  Qabs (SF2Q x - SF2Q y) < (2 # 1) ^ B ->
  Qabs (SF2Q (sub x y) - (SF2Q x - SF2Q y)) <= (2 # 1) ^ (B - 52).
Proof.
  intros Hx Hy HB Hlt.
  assert (Hzero : forall q, q == 0 -> Qabs q <= (2 # 1) ^ (B - 52)).
  { intros q ->. apply Qlt_le_weak, pow2Q_pos. }
  destruct x as [sx | sx | | sx mx ex]; try discriminate;
    destruct y as [sy | sy | | sy my ey]; try discriminate.
  - apply Hzero. destruct sx, sy; simpl; ring.
  - apply Hzero. unfold sub, SFsub. rewrite !finite_value.
    simpl (SF2Q (S754_zero _)). generalize ((2 # 1) ^ ey). intros t.
    destruct sy; simpl negb; simpl cond_Zopp;
      change (Z.neg my) with (- Z.pos my)%Z; rewrite inject_Z_opp; ring.
  - apply Hzero. unfold sub, SFsub. simpl (SF2Q (S754_zero _)).
    generalize (SF2Q (S754_finite sx mx ex)). intros t. ring.
  - pose proof (aligned_difference sx mx ex sy my ey) as Hdiff.
    unfold sub, SFsub. cbv zeta in Hdiff.
    set (ez := Z.min ex ey) in *.
    set (D := (cond_Zopp sx (Z.pos (fst (shl_align mx ex ez)))
               - cond_Zopp sy (Z.pos (fst (shl_align my ey ez))))%Z) in *.
    rewrite Hdiff in Hlt |- *.
    destruct D as [| p | p]; simpl binary_normalize.
    + apply Hzero. simpl. ring.
    + assert (Hd : (Z.pos (digits2_pos p) + ez <= B)%Z).
      { apply digits_of_value.
        rewrite Qabs_pos in Hlt; [exact Hlt |].
        apply Qmult_le_0_compat; [now unfold Qle | apply Qlt_le_weak, pow2Q_pos]. }
      destruct (binary_round_error false p ez B Hd HB)
        as (M & E & e0 & -> & HM & He0 & HE & Herr).
      exact (rounded_error false M E (Z.pos p) ez e0 B HM HE He0 Herr).
    + assert (Hd : (Z.pos (digits2_pos p) + ez <= B)%Z).
      { apply digits_of_value.
        rewrite Qabs_Qmult, Qabs_inject_Z in Hlt. simpl Z.abs in Hlt.
        rewrite (Qabs_pos ((2 # 1) ^ ez)) in Hlt
          by (apply Qlt_le_weak, pow2Q_pos).
        exact Hlt. }
      destruct (binary_round_error true p ez B Hd HB)
        as (M & E & e0 & -> & HM & He0 & HE & Herr).
      exact (rounded_error true M E (Z.pos p) ez e0 B HM HE He0 Herr).
Qed.

End Rationals.

(** *** Net SOL *)

(** Below 2^22 SOL the subtraction is off by less than 1e-9. *)
Lemma sub_within_tolerance x y :
  is_finite x = true -> is_finite y = true ->
  (Qabs (SF2Q x - SF2Q y) < inject_Z (2 ^ 22))%Q ->
  (Qabs (SF2Q (sub x y) - (SF2Q x - SF2Q y)) <= 1 # 1000000000)%Q.
Proof.
  intros Hx Hy Hlt.
  apply Qle_trans with ((2 # 1) ^ (22 - 52))%Q.
  - apply sub_error; [exact Hx | exact Hy | lia | exact Hlt].
  - vm_compute. discriminate.
Qed.

(** C6.  Whenever [buy_and_sell] returns the envelope of status
    ["success"], its [net_sol] field is the Number
    [sol_received - sol_spent] computed from the two fields of the same
    envelope (the binary64 subtraction of the code, signed: negative
    for a loss), [sol_spent] is the amount requested, and [profit_sol]
    carries the same value as [net_sol].  Compared as Numbers the two
    sides are equal, whatever the tolerance; compared with the exact
    difference of the two amounts, [net_sol] is within 1e-9 whenever that
    difference is below 2^22 SOL in magnitude. *)
Theorem buy_and_sell_net_sol
    (W : world) (token_address : string) (sol_amount : number)
    (slippage_bps : Z) (s : state) (envelope : JS.json) (space : option N)
    (s' : state) :
  buy_and_sell W token_address sol_amount slippage_bps s =
    (Return {| content := [ JSON_stringify envelope space ] |}, s') ->
  JS.get "status" envelope = Some (JString "success") ->
  exists solReceived,
    JS.get "sol_received" envelope = Some (JNumber solReceived)
    /\ JS.get "sol_spent" envelope = Some (JNumber sol_amount)
    /\ JS.get "net_sol" envelope = Some (JNumber (JS.sub solReceived sol_amount))
    /\ JS.get "profit_sol" envelope = JS.get "net_sol" envelope
    /\ (is_finite solReceived = true ->
        is_finite sol_amount = true ->
        (Qabs (SF2Q solReceived - SF2Q sol_amount) < inject_Z (2 ^ 22))%Q ->
        (Qabs (SF2Q (JS.sub solReceived sol_amount)
               - (SF2Q solReceived - SF2Q sol_amount)) <= 1 # 1000000000)%Q).
Proof.
  unfold buy_and_sell, bind, lift, try_catch, ret.
  destruct (getKeypair W) as [keypair | e0]; [| discriminate].
  destruct (getConnection W) as [connection | e0]; [| discriminate].
  destruct (buy_leg _ _ _ _ _ _ s) as [[[buyTxid buyOutAmount] | e] s1].
  2: { intros H Hstatus. inversion H; subst. discriminate Hstatus. }
  destruct (sell_leg _ _ _ _ _ _ s1) as [[[[sellTxid solReceived] d] | e] s2].
  2: { intros H Hstatus. inversion H; subst. discriminate Hstatus. }
  intros H _. inversion H; subst.
  exists solReceived.
  split; [reflexivity |]. split; [reflexivity |]. split; [reflexivity |].
  split; [reflexivity |]. apply sub_within_tolerance.
Qed.

(** Both legs go through: 0.1 SOL spent, 0.09 SOL received, and the
    net of -0.010000000000000009 SOL is within 1e-9 of the exact
    difference of the two amounts. *)
Lemma buy_and_sell_net_sol_witness :
  exists envelope solReceived,
    JS.get "status" envelope = Some (JString "success")
    /\ JS.get "sol_received" envelope = Some (JNumber solReceived)
    /\ solReceived = number_of_decimal 9 2
    /\ JS.get "sol_spent" envelope = Some (JNumber (number_of_decimal 1 1))
    /\ JS.get "net_sol" envelope
       = Some (JNumber (JS.sub solReceived (number_of_decimal 1 1)))
    /\ JS.get "profit_sol" envelope = JS.get "net_sol" envelope
    /\ (Qabs (SF2Q (JS.sub solReceived (number_of_decimal 1 1))
              - (SF2Q solReceived - SF2Q (number_of_decimal 1 1)))
        <= 1 # 1000000000)%Q.
Proof.
  pose (run := buy_and_sell (Scenario.trading "123456" "90000000" 5) Scenario.token
                 (number_of_decimal 1 1) 50 Scenario.fresh).
  pose (envelope :=
          match fst run with
          | Return {| content := [ JSON_stringify v _ ] |} => v
          | _ => JNull
          end).
  assert (Hrun : run = (Return {| content := [ JSON_stringify envelope (Some 2%N) ] |},
                        snd run)) by (vm_compute; reflexivity).
  assert (Hstatus : JS.get "status" envelope = Some (JString "success"))
    by (vm_compute; reflexivity).
  destruct (buy_and_sell_net_sol _ _ _ _ _ _ _ _ Hrun Hstatus)
    as (solReceived & H1 & H2 & H3 & H4 & H5).
  assert (Hvalue : solReceived = number_of_decimal 9 2).
  { assert (Hr : JS.get "sol_received" envelope
                 = Some (JNumber (number_of_decimal 9 2)))
      by (vm_compute; reflexivity).
    rewrite Hr in H1. now inversion H1. }
  exists envelope, solReceived.
  split; [exact Hstatus |]. split; [exact H1 |]. split; [exact Hvalue |].
  split; [exact H2 |]. split; [exact H3 |]. split; [exact H4 |].
  apply H5.
  - rewrite Hvalue. reflexivity.
  - reflexivity.
  - rewrite Hvalue. vm_compute. reflexivity.
Defined.

(* ================================================================== *)
(** * Further properties *)
(* ================================================================== *)

(** ** [executeSwap] *)

(** The requests of one [executeSwap]: the swap build, then a prefix of
    send, blockhash, confirmation; a transaction id is returned only at
    the end of the full sequence. *)
Lemma executeSwap_trace W q kp c s r s' :
  executeSwap W q kp c s = (r, s') ->
  exists rest,
    s' = after s (FetchSwap q (publicKey kp) :: rest)
    /\ ((rest = [] /\ exists e, r = Throw e)
        \/ (exists tx, rest = [SendRawTransaction tx] /\ exists e, r = Throw e)
        \/ (exists tx,
              rest = [SendRawTransaction tx; GetLatestBlockhash]
              /\ exists e, r = Throw e)
        \/ (exists tx txid b,
              rest = [SendRawTransaction tx; GetLatestBlockhash;
                      ConfirmTransaction txid b]
              /\ (r = Return txid \/ exists e, r = Throw e))).
Proof.
  unfold executeSwap, bind, request, lift, throw, ret, after. simpl.
  destruct (fetch_swap W (calls s) q (publicKey kp)) as [resp | e]; simpl.
  2: { intros H; stopped H. exists []. split; [reflexivity |]. left. eauto. }
  destruct (negb (ok resp)).
  { destruct (text resp); intros H; stopped H; exists [];
      (split; [reflexivity |]); left; eauto. }
  destruct (json resp) as [tx | e].
  2: { intros H; stopped H. exists []. split; [reflexivity |]. left. eauto. }
  destruct (sign_transaction W tx kp) as [signed | e].
  2: { intros H; stopped H. exists []. split; [reflexivity |]. left. eauto. }
  destruct (rpc_sendRawTransaction W _ signed) as [txid | e]; simpl.
  2: { intros H; stopped H. exists [SendRawTransaction signed].
       rewrite <- app_assoc. split; [reflexivity |]. right; left. eauto. }
  destruct (rpc_getLatestBlockhash W _) as [bh | e]; simpl.
  2: { intros H; stopped H. exists [SendRawTransaction signed; GetLatestBlockhash].
       rewrite <- !app_assoc. split; [reflexivity |]. right; right; left. eauto. }
  destruct (rpc_confirmTransaction W _ txid bh) as [u | e]; simpl;
    intros H; stopped H;
    exists [SendRawTransaction signed; GetLatestBlockhash; ConfirmTransaction txid bh];
    rewrite <- !app_assoc; (split; [reflexivity |]); right; right; right;
    exists signed, txid, bh; eauto.
Qed.

(** X1.  When [executeSwap] returns a transaction id, the swap endpoint
    built a transaction for the quote and the wallet's public key, the
    wallet signed it, the id is the answer of the node to the broadcast
    of the signed transaction, and the confirmation of that id against
    the latest blockhash was awaited and did not throw.  The four
    requests were sent in this order, and nothing else. *)
Theorem executeSwap_returns_after_confirmation
    (W : world) (quote : JupiterQuote) (keypair : Keypair)
    (connection : Connection) (s : state) (txid : string) (s' : state) :
  executeSwap W quote keypair connection s = (Return txid, s') ->
  exists response swapTransaction transaction latestBlockhash,
    fetch_swap W (calls s) quote (publicKey keypair) = Return response
    /\ ok response = true
    /\ json response = Return swapTransaction
    /\ sign_transaction W swapTransaction keypair = Return transaction
    /\ rpc_sendRawTransaction W
         (calls s ++ [FetchSwap quote (publicKey keypair)]) transaction
       = Return txid
    /\ rpc_getLatestBlockhash W
         (calls s ++ [FetchSwap quote (publicKey keypair);
                      SendRawTransaction transaction])
       = Return latestBlockhash
    /\ rpc_confirmTransaction W
         (calls s ++ [FetchSwap quote (publicKey keypair);
                      SendRawTransaction transaction; GetLatestBlockhash])
         txid latestBlockhash
       = Return tt
    /\ s' = after s (swap_trace quote keypair transaction txid latestBlockhash).
Proof.
  unfold executeSwap, bind, request, lift, throw, ret, after, swap_trace. simpl.
  destruct (fetch_swap W (calls s) quote (publicKey keypair)) as [resp | e];
    simpl; [| discriminate].
  destruct (ok resp) eqn:Hok; simpl.
  2: { destruct (text resp); discriminate. }
  destruct (json resp) as [tx | e] eqn:Hjson; [| discriminate].
  destruct (sign_transaction W tx keypair) as [signed | e] eqn:Hsign;
    [| discriminate].
  destruct (rpc_sendRawTransaction W _ signed) as [id | e] eqn:Hsend; simpl;
    [| discriminate].
  destruct (rpc_getLatestBlockhash W _) as [bh | e] eqn:Hbh; simpl;
    [| discriminate].
  destruct (rpc_confirmTransaction W _ id bh) as [[] | e] eqn:Hconfirm; simpl;
    [| discriminate].
  intros H. inversion H; subst.
  exists resp, tx, signed, bh.
  rewrite <- !app_assoc in *. simpl in *.
  repeat split; assumption || reflexivity.
Qed.

(** A swap in a world where every service answers: the id returned is
    the node's answer to the broadcast. *)
Lemma executeSwap_returns_after_confirmation_witness :
  exists response swapTransaction transaction latestBlockhash,
    fetch_swap (Scenario.trading "123456" "90000000" 5) (calls Scenario.fresh)
      (Scenario.a_quote SOL_MINT Scenario.token "100000000" "123456")
      (publicKey Scenario.a_keypair) = Return response
    /\ ok response = true
    /\ json response = Return swapTransaction
    /\ sign_transaction (Scenario.trading "123456" "90000000" 5) swapTransaction
         Scenario.a_keypair = Return transaction
    /\ rpc_sendRawTransaction (Scenario.trading "123456" "90000000" 5)
         (calls Scenario.fresh
          ++ [FetchSwap (Scenario.a_quote SOL_MINT Scenario.token "100000000" "123456")
                (publicKey Scenario.a_keypair)]) transaction
       = Return "sig1"
    /\ rpc_getLatestBlockhash (Scenario.trading "123456" "90000000" 5)
         (calls Scenario.fresh
          ++ [FetchSwap (Scenario.a_quote SOL_MINT Scenario.token "100000000" "123456")
                (publicKey Scenario.a_keypair);
              SendRawTransaction transaction])
       = Return latestBlockhash
    /\ rpc_confirmTransaction (Scenario.trading "123456" "90000000" 5)
         (calls Scenario.fresh
          ++ [FetchSwap (Scenario.a_quote SOL_MINT Scenario.token "100000000" "123456")
                (publicKey Scenario.a_keypair);
              SendRawTransaction transaction; GetLatestBlockhash])
         "sig1" latestBlockhash
       = Return tt
    /\ snd (executeSwap (Scenario.trading "123456" "90000000" 5)
              (Scenario.a_quote SOL_MINT Scenario.token "100000000" "123456")
              Scenario.a_keypair Scenario.a_connection Scenario.fresh)
       = after Scenario.fresh
           (swap_trace (Scenario.a_quote SOL_MINT Scenario.token "100000000" "123456")
              Scenario.a_keypair transaction "sig1" latestBlockhash).
Proof.
  apply (executeSwap_returns_after_confirmation
           (Scenario.trading "123456" "90000000" 5)
           (Scenario.a_quote SOL_MINT Scenario.token "100000000" "123456")
           Scenario.a_keypair Scenario.a_connection Scenario.fresh "sig1").
  reflexivity.
Defined.

(** X2.  When the swap endpoint answers with a response that is not a
    success, of status [S] and body [B], [executeSwap] throws
    ["Jupiter swap failed (S): B"]; the swap build is the only request
    it has sent: nothing was signed, and nothing was sent to the
    ledger. *)
Theorem executeSwap_rejected_build
    (W : world) (quote : JupiterQuote) (keypair : Keypair)
    (connection : Connection) (s : state)
    (response : Response string) (body : string) :
  fetch_swap W (calls s) quote (publicKey keypair) = Return response ->
  ok response = false ->
  text response = Return body ->
  executeSwap W quote keypair connection s =
    (Throw (Error ("Jupiter swap failed (" +:+ pretty (status response)
                   +:+ "): " +:+ body)),
     after s [FetchSwap quote (publicKey keypair)])
  /\ count is_send
       (calls (snd (executeSwap W quote keypair connection s)))
     = count is_send (calls s).
Proof.
  intros Hfetch Hok Htext.
  assert (Hrun : executeSwap W quote keypair connection s =
                 (Throw (Error ("Jupiter swap failed (" +:+ pretty (status response)
                                +:+ "): " +:+ body)),
                  after s [FetchSwap quote (publicKey keypair)])).
  { unfold executeSwap, bind, request, lift, throw, after. simpl.
    rewrite Hfetch, Hok. simpl. rewrite Htext. reflexivity. }
  split; [exact Hrun |].
  rewrite Hrun. simpl. rewrite count_app. simpl. lia.
Qed.

(** The endpoint answers 422 to the build of the buy transaction. *)
Lemma executeSwap_rejected_build_witness :
  executeSwap Faults.swap_rejected
    (Scenario.a_quote SOL_MINT Scenario.token "100000000" "123456")
    Scenario.a_keypair Scenario.a_connection Scenario.fresh =
    (Throw (Error "Jupiter swap failed (422): Slippage tolerance exceeded"),
     after Scenario.fresh
       [FetchSwap (Scenario.a_quote SOL_MINT Scenario.token "100000000" "123456")
          (publicKey Scenario.a_keypair)])
  /\ count is_send
       (calls (snd (executeSwap Faults.swap_rejected
                      (Scenario.a_quote SOL_MINT Scenario.token "100000000" "123456")
                      Scenario.a_keypair Scenario.a_connection Scenario.fresh)))
     = count is_send (calls Scenario.fresh).
Proof.
  apply (executeSwap_rejected_build Faults.swap_rejected
           (Scenario.a_quote SOL_MINT Scenario.token "100000000" "123456")
           Scenario.a_keypair Scenario.a_connection Scenario.fresh
           (Scenario.http 422 "Slippage tolerance exceeded"
              (Throw (Error "Unexpected token S in JSON at position 0")))
           "Slippage tolerance exceeded");
    reflexivity.
Defined.

(** X3.  [buy_token] after a broadcast that is not confirmed: the quote
    came back, the transaction was built, signed and sent, and then
    the blockhash request or the confirmation throws [e].  The result
    is a failure report although the transaction was sent: it is the
    text ["Error: "] followed by the message of [e], and nothing else.
    The handler adds no [transaction] or [explorer] field of its own:
    what the caller learns of the transaction is what the message of
    [e] says. *)
Theorem buy_token_unconfirmed_send
    (W : world) (token_address : string) (sol_amount : number)
    (slippage_bps : Z) (keypair : Keypair) (connection : Connection)
    (s : state) (quote : JupiterQuote) (s1 : state)
    (response : Response string) (swapTransaction transaction txid : string)
    (e : exn) :
  getKeypair W = Return keypair ->
  getConnection W = Return connection ->
  getQuote W SOL_MINT token_address (rawSolAmount sol_amount)
           (number_of_Z slippage_bps) s = (Return quote, s1) ->
  fetch_swap W (calls s1) quote (publicKey keypair) = Return response ->
  ok response = true ->
  json response = Return swapTransaction ->
  sign_transaction W swapTransaction keypair = Return transaction ->
  rpc_sendRawTransaction W (calls s1 ++ [FetchSwap quote (publicKey keypair)])
    transaction = Return txid ->
  (rpc_getLatestBlockhash W
     (calls s1 ++ [FetchSwap quote (publicKey keypair);
                   SendRawTransaction transaction]) = Throw e
   \/ exists latestBlockhash,
        rpc_getLatestBlockhash W
          (calls s1 ++ [FetchSwap quote (publicKey keypair);
                        SendRawTransaction transaction]) = Return latestBlockhash
        /\ rpc_confirmTransaction W
             (calls s1 ++ [FetchSwap quote (publicKey keypair);
                           SendRawTransaction transaction; GetLatestBlockhash])
             txid latestBlockhash = Throw e) ->
  exists rest,
    buy_token W token_address sol_amount slippage_bps s =
      (Return {| content := [ Text ("Error: " +:+ msg_of e) ] |},
       after s1 (FetchSwap quote (publicKey keypair)
                 :: SendRawTransaction transaction :: rest))
    /\ (rest = [GetLatestBlockhash]
        \/ exists latestBlockhash,
             rest = [GetLatestBlockhash; ConfirmTransaction txid latestBlockhash]).
Proof.
  intros Hk Hc Hq Hfetch Hok Hjson Hsign Hsend Hfail.
  unfold buy_token, try_catch, lift. rewrite Hk, Hc.
  unfold bind at 1. unfold bind at 1.
  rewrite (bind_Return _ _ _ _ _ Hq).
  unfold executeSwap, bind, request, lift, throw, ret, after. simpl.
  rewrite Hfetch, Hok. simpl. rewrite Hjson, Hsign.
  rewrite <- !app_assoc in *. simpl in *.
  rewrite Hsend. simpl.
  destruct Hfail as [Hbh | (bh & Hbh & Hconfirm)];
    rewrite <- ?app_assoc in *; simpl in *; rewrite Hbh; simpl.
  - exists [GetLatestBlockhash]. rewrite <- ?app_assoc.
    split; [reflexivity | now left].
  - rewrite <- ?app_assoc in *; simpl in *. rewrite Hconfirm. simpl.
    exists [GetLatestBlockhash; ConfirmTransaction txid bh].
    rewrite <- ?app_assoc. split; [reflexivity | right; now exists bh].
Qed.

(** The transaction "sig2" of the buy is sent and expires before it is
    confirmed: the result is the library's message, which here names
    the signature. *)
Lemma buy_token_unconfirmed_send_witness :
  exists rest,
    buy_token Faults.unconfirmed Scenario.token (number_of_decimal 1 1) 50
              Scenario.fresh =
      (Return {| content :=
                   [ Text "Error: Signature sig2 has expired: block height exceeded." ] |},
       after (after Scenario.fresh
                [FetchQuote SOL_MINT Scenario.token (number_of_Z 100000000)
                   (number_of_Z 50)])
             (FetchSwap (Scenario.a_quote SOL_MINT Scenario.token "100000000" "123456")
                (publicKey Scenario.a_keypair)
              :: SendRawTransaction "signed:AQAB" :: rest))
    /\ (rest = [GetLatestBlockhash]
        \/ exists latestBlockhash,
             rest = [GetLatestBlockhash; ConfirmTransaction "sig2" latestBlockhash]).
Proof.
  apply (buy_token_unconfirmed_send Faults.unconfirmed Scenario.token
           (number_of_decimal 1 1) 50 Scenario.a_keypair Scenario.a_connection
           Scenario.fresh
           (Scenario.a_quote SOL_MINT Scenario.token "100000000" "123456")
           (after Scenario.fresh
              [FetchQuote SOL_MINT Scenario.token (number_of_Z 100000000)
                 (number_of_Z 50)])
           (Scenario.http 200 "{}" (Return "AQAB")) "AQAB" "signed:AQAB" "sig2"
           (Error "Signature sig2 has expired: block height exceeded."));
    try reflexivity.
  right. eexists. split; reflexivity.
Defined.

(** ** The wallet key *)

(** What [getKeypair] does with each value of the variable. *)
Lemma getKeypair_not_set W :
  SOLANA_PRIVATE_KEY W = None \/ SOLANA_PRIVATE_KEY W = Some "" ->
  getKeypair W = Throw (Error key_not_set).
Proof. unfold getKeypair. now intros [-> | ->]. Qed.

Lemma getKeypair_invalid W privateKey :
  SOLANA_PRIVATE_KEY W = Some privateKey ->
  privateKey <> "" ->
  keypair_of_secret W privateKey = None ->
  getKeypair W = Throw (Error key_invalid).
Proof.
  intros Hkey Hne Hdecode. unfold getKeypair. rewrite Hkey.
  destruct (String.eqb_spec privateKey ""); [contradiction |].
  now rewrite Hdecode.
Qed.

(** Without a keypair the three wallet tools that have a [try] answer
    with the error text, in the state they started in. *)
Lemma wallet_tools_without_keypair W e s :
  getKeypair W = Throw e ->
  (forall token_address sol_amount slippage_bps,
      buy_token W token_address sol_amount slippage_bps s
      = (Return (error_text e), s))
  /\ (forall token_address token_amount token_decimals slippage_bps,
        sell_token W token_address token_amount token_decimals slippage_bps s
        = (Return (error_text e), s))
  /\ (forall token_address,
        get_balance W token_address s = (Return (error_text e), s)).
Proof.
  intros Hk. repeat split; intros;
    unfold buy_token, sell_token, get_balance, try_catch;
    rewrite (bind_Throw _ _ s e s) by (unfold lift; now rewrite Hk);
    reflexivity.
Qed.

(** X4.  With [SOLANA_PRIVATE_KEY] not set, or set to the empty
    string, [buy_token], [sell_token] and [get_balance] return the text
    ["Error: SOLANA_PRIVATE_KEY environment variable is not set.
    Required for signing transactions."] and send no request. *)
Theorem wallet_tools_key_not_set (W : world) (s : state) :
  SOLANA_PRIVATE_KEY W = None \/ SOLANA_PRIVATE_KEY W = Some "" ->
  (forall token_address sol_amount slippage_bps,
      buy_token W token_address sol_amount slippage_bps s
      = (Return {| content := [ Text ("Error: " +:+ key_not_set) ] |}, s))
  /\ (forall token_address token_amount token_decimals slippage_bps,
        sell_token W token_address token_amount token_decimals slippage_bps s
        = (Return {| content := [ Text ("Error: " +:+ key_not_set) ] |}, s))
  /\ (forall token_address,
        get_balance W token_address s
        = (Return {| content := [ Text ("Error: " +:+ key_not_set) ] |}, s)).
Proof.
  intros Hkey.
  apply (wallet_tools_without_keypair W (Error key_not_set) s).
  now apply getKeypair_not_set.
Qed.

(** The variable is set to the empty string. *)
Lemma wallet_tools_key_not_set_witness :
  sell_token Faults.empty_key Scenario.token (number_of_decimal 15 1) 5 50
             Scenario.fresh
  = (Return {| content :=
                 [ Text "Error: SOLANA_PRIVATE_KEY environment variable is not set. Required for signing transactions." ] |},
     Scenario.fresh)
  /\ get_balance Faults.empty_key (Some Scenario.token) Scenario.fresh
     = (Return {| content :=
                    [ Text "Error: SOLANA_PRIVATE_KEY environment variable is not set. Required for signing transactions." ] |},
        Scenario.fresh).
Proof.
  destruct (wallet_tools_key_not_set Faults.empty_key Scenario.fresh
              (or_intror eq_refl)) as (_ & Hsell & Hbalance).
  split.
  - apply Hsell.
  - apply Hbalance.
Defined.

(** X5.  With [SOLANA_PRIVATE_KEY] set to a string that does not decode
    to a keypair, [buy_token], [sell_token] and [get_balance] return
    the text ["Error: Invalid SOLANA_PRIVATE_KEY. Must be a
    base58-encoded private key."] and send no request, whatever made
    the decoding fail; [buy_and_sell] throws that error. *)
Theorem wallet_tools_key_invalid (W : world) (privateKey : string) (s : state) :
  SOLANA_PRIVATE_KEY W = Some privateKey ->
  privateKey <> "" ->
  keypair_of_secret W privateKey = None ->
  (forall token_address sol_amount slippage_bps,
      buy_token W token_address sol_amount slippage_bps s
      = (Return {| content := [ Text ("Error: " +:+ key_invalid) ] |}, s))
  /\ (forall token_address token_amount token_decimals slippage_bps,
        sell_token W token_address token_amount token_decimals slippage_bps s
        = (Return {| content := [ Text ("Error: " +:+ key_invalid) ] |}, s))
  /\ (forall token_address,
        get_balance W token_address s
        = (Return {| content := [ Text ("Error: " +:+ key_invalid) ] |}, s))
  /\ (forall token_address sol_amount slippage_bps,
        buy_and_sell W token_address sol_amount slippage_bps s
        = (Throw (Error key_invalid), s)).
Proof.
  intros Hkey Hne Hdecode.
  pose proof (getKeypair_invalid W privateKey Hkey Hne Hdecode) as Hk.
  destruct (wallet_tools_without_keypair W (Error key_invalid) s Hk)
    as (Hbuy & Hsell & Hbalance).
  split; [exact Hbuy |]. split; [exact Hsell |]. split; [exact Hbalance |].
  intros. unfold buy_and_sell. apply bind_Throw. unfold lift. now rewrite Hk.
Qed.

(** The key "secret" is set and does not decode. *)
Lemma wallet_tools_key_invalid_witness :
  buy_token Faults.undecodable_key Scenario.token (number_of_decimal 1 1) 50
            Scenario.fresh
  = (Return {| content :=
                 [ Text "Error: Invalid SOLANA_PRIVATE_KEY. Must be a base58-encoded private key." ] |},
     Scenario.fresh)
  /\ buy_and_sell Faults.undecodable_key Scenario.token (number_of_decimal 1 1) 50
                  Scenario.fresh
     = (Throw (Error "Invalid SOLANA_PRIVATE_KEY. Must be a base58-encoded private key."),
        Scenario.fresh).
Proof.
  assert (Hne : "secret" <> "") by discriminate.
  destruct (wallet_tools_key_invalid Faults.undecodable_key "secret" Scenario.fresh
              eq_refl Hne eq_refl) as (Hbuy & _ & _ & Hround).
  split.
  - apply Hbuy.
  - apply Hround.
Defined.

(** X6.  [buy_and_sell] throws exactly when the keypair or the
    connection cannot be made, and then it has sent nothing: once both
    are there, whatever the services answer or throw, it returns a
    result. *)
Theorem buy_and_sell_throws_only_at_setup
    (W : world) (token_address : string) (sol_amount : number)
    (slippage_bps : Z) (s : state) (e : exn) (s' : state) :
  buy_and_sell W token_address sol_amount slippage_bps s = (Throw e, s')
  <-> s' = s
      /\ (getKeypair W = Throw e
          \/ exists keypair,
               getKeypair W = Return keypair /\ getConnection W = Throw e).
Proof.
  unfold buy_and_sell, bind, lift, try_catch, ret.
  destruct (getKeypair W) as [keypair | e0].
  2: { split.
       - intros H. inversion H; subst. auto.
       - intros [-> [H | (kp & H & _)]]; [now inversion H | discriminate H]. }
  destruct (getConnection W) as [connection | e0].
  2: { split.
       - intros H. inversion H; subst. split; [reflexivity |]. right. eauto.
       - intros [-> [H | (kp & _ & H)]]; [discriminate H | now inversion H]. }
  destruct (buy_leg _ _ _ _ _ _ s) as [[[buyTxid buyOutAmount] | e1] s1].
  2: { split; [discriminate |].
       intros [_ [H | (kp & _ & H)]]; discriminate H. }
  destruct (sell_leg _ _ _ _ _ _ s1) as [[[[sellTxid solReceived] d] | e1] s2];
    (split; [discriminate |]);
    intros [_ [H | (kp & _ & H)]]; discriminate H.
Qed.

(** The key does not decode: the error leaves the handler. *)
Lemma buy_and_sell_throws_only_at_setup_witness :
  buy_and_sell Faults.undecodable_key Scenario.token (number_of_decimal 1 1) 50
               Scenario.fresh
  = (Throw (Error key_invalid), Scenario.fresh).
Proof.
  apply (proj2 (buy_and_sell_throws_only_at_setup Faults.undecodable_key
                  Scenario.token (number_of_decimal 1 1) 50 Scenario.fresh
                  (Error key_invalid) Scenario.fresh)).
  split; [reflexivity |]. left. reflexivity.
Defined.

(** ** [get_quote] *)

(** X7.  [get_quote] needs no wallet.  In any process environment,
    with or without the key, when the quote endpoint answers with a
    success whose body parses to a quote, the result is the summary of
    that quote: its mints, its raw amounts, its price impact followed
    by "%", its own [slippageBps], and the labels of its route joined
    by " → ", serialized with an indentation of 2.  One request is
    sent, for the raw amount, with the "SOL" aliases resolved. *)
Theorem get_quote_success
    (W : world) (private_key rpc_url : option string)
    (input_mint output_mint : string) (amount : number)
    (input_decimals slippage_bps : Z) (s : state)
    (response : Response JupiterQuote) (quote : JupiterQuote) :
  fetch_quote W (calls s)
    (if String.eqb input_mint "SOL" then SOL_MINT else input_mint)
    (if String.eqb output_mint "SOL" then SOL_MINT else output_mint)
    (rawAmount amount input_decimals) (number_of_Z slippage_bps)
  = Return response ->
  ok response = true ->
  json response = Return quote ->
  get_quote (with_env private_key rpc_url W) input_mint output_mint amount
            input_decimals slippage_bps s =
    (Return
       {| content :=
            [ JSON_stringify
                (JObject
                   [ ("inputMint", JString (inputMint quote));
                     ("outputMint", JString (outputMint quote));
                     ("inputAmount", JString (inAmount quote));
                     ("outputAmount", JString (outAmount quote));
                     ("priceImpact", JString (priceImpactPct quote +:+ "%"));
                     ("slippageBps", JNumber (slippageBps quote));
                     ("route",
                      JString
                        (String.concat " → "
                           (map (fun r =>
                                   label (swapInfo r) +:+ " ("
                                   +:+ Number_toString W (percent r) +:+ "%)")
                                (routePlan quote)))) ])
                (Some 2%N) ] |},
     after s [ FetchQuote
                 (if String.eqb input_mint "SOL" then SOL_MINT else input_mint)
                 (if String.eqb output_mint "SOL" then SOL_MINT else output_mint)
                 (rawAmount amount input_decimals) (number_of_Z slippage_bps) ]).
Proof.
  intros Hfetch Hok Hjson.
  unfold get_quote, try_catch, getQuote, bind, request, lift, throw, ret, after.
  simpl. rewrite Hfetch, Hok. simpl. rewrite Hjson. reflexivity.
Qed.

(** A quote for 0.5 SOL in a process that has no key. *)
Lemma get_quote_success_witness :
  get_quote (with_env None None (Scenario.trading "123456" "90000000" 5))
            "SOL" Scenario.token (number_of_decimal 5 1) 9 50 Scenario.fresh =
    (Return
       {| content :=
            [ JSON_stringify
                (JObject
                   [ ("inputMint", JString SOL_MINT);
                     ("outputMint", JString Scenario.token);
                     ("inputAmount", JString "100000000");
                     ("outputAmount", JString "123456");
                     ("priceImpact", JString "0.01%");
                     ("slippageBps", JNumber (number_of_Z 50));
                     ("route", JString "Raydium (100%)") ])
                (Some 2%N) ] |},
     after Scenario.fresh
       [ FetchQuote SOL_MINT Scenario.token (number_of_Z 500000000)
           (number_of_Z 50) ]).
Proof.
  apply (get_quote_success (Scenario.trading "123456" "90000000" 5) None None
           "SOL" Scenario.token (number_of_decimal 5 1) 9 50 Scenario.fresh
           (Scenario.http 200 "{}"
              (Return (Scenario.a_quote SOL_MINT Scenario.token "100000000" "123456")))
           (Scenario.a_quote SOL_MINT Scenario.token "100000000" "123456"));
    reflexivity.
Defined.

(** ** The shape of results *)

Lemma prefix_app p m : String.prefix p (p +:+ m) = true.
Proof.
  induction p as [| a p IH]; simpl.
  - now destruct m.
  - destruct (Ascii.ascii_dec a a); [exact IH | congruence].
Qed.

Lemma error_text_report e :
  exists t, content (error_text e) = [t] /\ is_error_report t = true.
Proof.
  eexists. split; [reflexivity |]. apply (prefix_app "Error: ").
Qed.

Lemma try_catch_report (body : M CallToolResult) s r s' :
  (forall a s1, body s = (Return a, s1) ->
                exists t, content a = [t] /\ is_object t = true) ->
  try_catch body (fun error => ret (error_text error)) s = (Return r, s') ->
  exists t, content r = [t] /\ (is_error_report t = true \/ is_object t = true).
Proof.
  intros Hbody. unfold try_catch, ret.
  destruct (body s) as [[a | e] s1] eqn:Hrun; intros H; inversion H; subst.
  - destruct (Hbody _ _ eq_refl) as (t & Ht & Hobj). eauto.
  - destruct (error_text_report e) as (t & Ht & Hreport). eauto.
Qed.

(** X8.  Whatever a registered tool returns has exactly one content
    item, and that item is either the serialization of an object or a
    text that starts with "Error: ". *)
Theorem handle_result_shape
    (W : world) (c : tool_call) (s : state) (r : CallToolResult) (s' : state) :
  handle W c s = (Return r, s') ->
  exists t,
    content r = [t] /\ (is_error_report t = true \/ is_object t = true).
Proof.
  destruct c as [i o a d sl | t a sl | t a d sl | t a sl | t]; simpl.
  - apply try_catch_report. intros r0 s1 H.
    apply bind_inv in H as [(q & s2 & _ & H) | (e & _ & H)]; [| discriminate].
    inversion H; subst. eexists. split; reflexivity.
  - apply try_catch_report. intros r0 s1 H.
    apply bind_inv in H as [(kp & s2 & _ & H) | (e & _ & H)]; [| discriminate].
    apply bind_inv in H as [(cn & s3 & _ & H) | (e & _ & H)]; [| discriminate].
    apply bind_inv in H as [(q & s4 & _ & H) | (e & _ & H)]; [| discriminate].
    apply bind_inv in H as [(txid & s5 & _ & H) | (e & _ & H)]; [| discriminate].
    inversion H; subst. eexists. split; reflexivity.
  - apply try_catch_report. intros r0 s1 H.
    apply bind_inv in H as [(kp & s2 & _ & H) | (e & _ & H)]; [| discriminate].
    apply bind_inv in H as [(cn & s3 & _ & H) | (e & _ & H)]; [| discriminate].
    apply bind_inv in H as [(q & s4 & _ & H) | (e & _ & H)]; [| discriminate].
    apply bind_inv in H as [(txid & s5 & _ & H) | (e & _ & H)]; [| discriminate].
    inversion H; subst. eexists. split; reflexivity.
  - unfold buy_and_sell, bind, lift, try_catch, ret.
    destruct (getKeypair W) as [keypair | e0]; [| discriminate].
    destruct (getConnection W) as [connection | e0]; [| discriminate].
    destruct (buy_leg _ _ _ _ _ _ s) as [[[buyTxid buyOutAmount] | e] s1].
    2: { intros H. inversion H; subst. eexists. split; [reflexivity |]. now right. }
    destruct (sell_leg _ _ _ _ _ _ s1) as [[[[sellTxid solReceived] d] | e] s2];
      intros H; inversion H; subst; eexists; (split; [reflexivity |]); now right.
  - apply try_catch_report. intros r0 s1 H.
    apply bind_inv in H as [(kp & s2 & _ & H) | (e & _ & H)]; [| discriminate].
    apply bind_inv in H as [(cn & s3 & _ & H) | (e & _ & H)]; [| discriminate].
    apply bind_inv in H as [(bal & s4 & _ & H) | (e & _ & H)]; [| discriminate].
    destruct t as [mint |].
    2: { inversion H; subst. eexists. split; reflexivity. }
    destruct (String.eqb mint "").
    { inversion H; subst. eexists. split; reflexivity. }
    apply bind_inv in H as [(tb & s5 & _ & H) | (e & _ & H)]; [| discriminate].
    inversion H; subst. eexists. split; reflexivity.
Qed.

(** A balance query and a rate-limited quote. *)
Lemma handle_result_shape_witness :
  (exists t,
     content (text_result
                (JSON_stringify
                   (JObject [ ("wallet", JString Scenario.wallet_address);
                              ("solBalance", JNumber (number_of_decimal 25 1)) ])
                   (Some 2%N))) = [t]
     /\ (is_error_report t = true \/ is_object t = true))
  /\ (exists t,
        content (text_result
                   (Text "Error: Jupiter quote failed (429): Too Many Requests")) = [t]
        /\ (is_error_report t = true \/ is_object t = true)).
Proof.
  split.
  - apply (handle_result_shape (Scenario.holding []) (Call_get_balance None)
             Scenario.fresh _
             (after Scenario.fresh [GetBalance Scenario.wallet_address])).
    reflexivity.
  - apply (handle_result_shape Scenario.rate_limited
             (Call_get_quote "SOL" Scenario.token (number_of_decimal 5 1) 9 50)
             Scenario.fresh _
             (after Scenario.fresh
                [FetchQuote SOL_MINT Scenario.token (number_of_Z 500000000)
                   (number_of_Z 50)])).
    reflexivity.
Defined.

(** ** How many requests a tool sends *)

Lemma within_budget_nil q w t a : within_budget q w t a [].
Proof. unfold within_budget. simpl. lia. Qed.

Lemma within_budget_app q1 w1 t1 a1 q2 w2 t2 a2 l1 l2 :
  within_budget q1 w1 t1 a1 l1 ->
  within_budget q2 w2 t2 a2 l2 ->
  within_budget (q1 + q2) (w1 + w2) (t1 + t2) (a1 + a2) (l1 ++ l2).
Proof.
  unfold within_budget. rewrite !count_app. lia.
Qed.

Lemma within_budget_weaken q w t a q' w' t' a' l :
  within_budget q w t a l ->
  (q <= q')%nat -> (w <= w')%nat -> (t <= t')%nat -> (a <= a')%nat ->
  within_budget q' w' t' a' l.
Proof. unfold within_budget. lia. Qed.

Lemma after_nil s : after s [] = s.
Proof. destruct s. unfold after. simpl. now rewrite app_nil_r. Qed.

Lemma after_after s l1 l2 : after (after s l1) l2 = after s (l1 ++ l2).
Proof. unfold after. simpl. now rewrite app_assoc. Qed.

Lemma getQuote_after W i o a sl s r s' :
  getQuote W i o a sl s = (r, s') -> s' = after s [FetchQuote i o a sl].
Proof.
  intros H. apply getQuote_log in H as [Hcalls Hcache].
  destruct s'. unfold after. simpl in *. now subst.
Qed.

(** One [executeSwap]: one swap build, at most one broadcast. *)
Lemma executeSwap_budget W q kp c s r s' :
  executeSwap W q kp c s = (r, s') ->
  exists l, s' = after s l /\ within_budget 0 1 1 0 l.
Proof.
  intros H. apply executeSwap_trace in H as (rest & -> & Hrest).
  eexists. split; [reflexivity |].
  destruct Hrest as [[-> _] | [(tx & -> & _) | [(tx & -> & _) | (tx & id & b & -> & _)]]];
    unfold within_budget; simpl; lia.
Qed.

(** A quote followed by a swap, as [buy_token], [sell_token] and the
    two legs of [buy_and_sell] chain them. *)
Lemma quote_then_swap_budget W i o a sl kp c s (r : outcome string) s' :
  (quote <- getQuote W i o a sl ;; executeSwap W quote kp c) s = (r, s') ->
  exists l, s' = after s l /\ within_budget 1 1 1 0 l.
Proof.
  intros H.
  apply bind_inv in H as [(q & s1 & Hq & H) | (e & Hq & _)];
    apply getQuote_after in Hq; subst.
  - apply executeSwap_budget in H as (l & -> & Hl).
    rewrite after_after. eexists. split; [reflexivity |].
    apply (within_budget_app 1 0 0 0 0 1 1 0); [| exact Hl].
    unfold within_budget. simpl. lia.
  - eexists. split; [reflexivity |]. unfold within_budget. simpl. lia.
Qed.

Lemma buy_leg_budget W t a sl kp c s r s' :
  buy_leg W t a sl kp c s = (r, s') ->
  exists l, s' = after s l /\ within_budget 1 1 1 0 l.
Proof.
  unfold buy_leg. intros H.
  apply bind_inv in H as [(q & s1 & Hq & H) | (e & Hq & _)].
  - apply bind_inv in H as [(txid & s2 & Hx & H) | (e & Hx & _)].
    + inversion H; subst.
      apply (quote_then_swap_budget W SOL_MINT t (rawSolAmount a) (number_of_Z sl)
               kp c s (Return txid)).
      now rewrite (bind_Return _ _ _ _ _ Hq).
    + apply (quote_then_swap_budget W SOL_MINT t (rawSolAmount a) (number_of_Z sl)
               kp c s (Throw e)).
      now rewrite (bind_Return _ _ _ _ _ Hq).
  - apply (quote_then_swap_budget W SOL_MINT t (rawSolAmount a) (number_of_Z sl)
             kp c s (Throw e)).
    now apply bind_Throw.
Qed.

(** A lookup of the decimals sends nothing on a hit, and at most one
    read of the mint account otherwise; it writes the cache only on a
    miss. *)
Lemma getTokenDecimals_log W c mintAddress s r s' :
  getTokenDecimals W c mintAddress s = (r, s') ->
  (s' = s
   /\ (mjoin (decimalsCache s !! mintAddress) = None -> exists e, r = Throw e))
  \/ (mjoin (decimalsCache s !! mintAddress) = None
      /\ exists mint, calls s' = calls s ++ [GetParsedAccountInfo mint]).
Proof.
  unfold getTokenDecimals, bind, get_cache, ret, lift, request, set_cache, throw.
  destruct (mjoin (decimalsCache s !! mintAddress)) as [cached |].
  { intros H. inversion H; subst. left. split; [reflexivity | discriminate]. }
  destruct (new_PublicKey W mintAddress) as [mint | e].
  2: { intros H. inversion H; subst. left. split; [reflexivity |]. eauto. }
  destruct (rpc_getParsedAccountInfo W (calls s) mint) as [[[| decimals] |] | e];
    simpl; intros H; inversion H; subst; simpl; right; split; eauto.
Qed.

Lemma sell_leg_budget W t sl kp c buyOutAmount s r s' :
  sell_leg W t sl kp c buyOutAmount s = (r, s') ->
  exists l,
    calls s' = calls s ++ l
    /\ within_budget 1 1 1 1 l
    /\ (mjoin (decimalsCache s !! t) <> None ->
        within_budget 1 1 1 0 l /\ decimalsCache s' = decimalsCache s).
Proof.
  unfold sell_leg. intros H.
  apply bind_inv in H as [(d & s1 & Hd & H) | (e & Hd & ->)].
  - assert (Hswap : exists l, s' = after s1 l /\ within_budget 1 1 1 0 l).
    { apply bind_inv in H as [(q & s2 & Hq & H) | (e & Hq & _)].
      - apply bind_inv in H as [(txid & s3 & Hx & H) | (e & Hx & _)].
        + inversion H; subst.
          apply (quote_then_swap_budget W t SOL_MINT (rawTokenAmount buyOutAmount d)
                   (number_of_Z sl) kp c s1 (Return txid) s').
          now rewrite (bind_Return _ _ _ _ _ Hq).
        + apply (quote_then_swap_budget W t SOL_MINT (rawTokenAmount buyOutAmount d)
                   (number_of_Z sl) kp c s1 (Throw e) s').
          now rewrite (bind_Return _ _ _ _ _ Hq).
      - apply (quote_then_swap_budget W t SOL_MINT (rawTokenAmount buyOutAmount d)
                 (number_of_Z sl) kp c s1 (Throw e) s').
        now apply bind_Throw. }
    destruct Hswap as (l & -> & Hl).
    apply getTokenDecimals_log in Hd as [[-> _] | (Hmiss & mint & Hcalls)].
    + exists l. split; [reflexivity |]. split.
      * apply (within_budget_weaken _ _ _ _ _ _ _ _ _ Hl); lia.
      * intros _. split; [exact Hl | reflexivity].
    + exists (GetParsedAccountInfo mint :: l). simpl.
      split; [rewrite Hcalls, <- app_assoc; reflexivity |]. split.
      * apply (within_budget_app 0 0 0 1 1 1 1 0 [GetParsedAccountInfo mint] l);
          [| exact Hl].
        unfold within_budget. simpl. lia.
      * intros Hhit. contradiction.
  - apply getTokenDecimals_log in Hd as [[-> _] | (Hmiss & mint & Hcalls)].
    + exists []. rewrite app_nil_r. split; [reflexivity |]. split.
      * apply within_budget_nil.
      * intros _. split; [apply within_budget_nil | reflexivity].
    + exists [GetParsedAccountInfo mint]. split; [exact Hcalls |]. split.
      * unfold within_budget. simpl. lia.
      * intros Hhit. contradiction.
Qed.

(** X9.  One invocation of [buy_token] or of [sell_token] sends at
    most one quote request, one swap build and one transaction, never
    reads a mint account, and leaves the decimals cache as it was,
    whatever the services answer. *)
Theorem single_swap_tools_budget (W : world) (s : state) :
  (forall token_address sol_amount slippage_bps,
      exists sent,
        snd (buy_token W token_address sol_amount slippage_bps s) = after s sent
        /\ within_budget 1 1 1 0 sent)
  /\ (forall token_address token_amount token_decimals slippage_bps,
        exists sent,
          snd (sell_token W token_address token_amount token_decimals
                 slippage_bps s) = after s sent
          /\ within_budget 1 1 1 0 sent).
Proof.
  split; intros; unfold buy_token, sell_token, try_catch, lift, ret;
    unfold bind at 1; (destruct (getKeypair W) as [keypair | e0];
      [| exists []; rewrite after_nil; split;
         [reflexivity | apply within_budget_nil]]);
    unfold bind at 1; (destruct (getConnection W) as [connection | e0];
      [| exists []; rewrite after_nil; split;
         [reflexivity | apply within_budget_nil]]).
  - destruct ((quote <- getQuote W SOL_MINT token_address (rawSolAmount sol_amount)
                          (number_of_Z slippage_bps) ;;
               executeSwap W quote keypair connection) s) as [r s1] eqn:Hrun.
    pose proof (quote_then_swap_budget _ _ _ _ _ _ _ _ _ _ Hrun) as (l & -> & Hl).
    exists l. split; [| exact Hl].
    unfold bind in *.
    destruct (getQuote W _ _ _ _ s) as [[q | e] s2]; [| now inversion Hrun].
    destruct (executeSwap W q keypair connection s2) as [[txid | e] s3];
      now inversion Hrun.
  - destruct ((quote <- getQuote W token_address SOL_MINT
                          (rawAmount token_amount token_decimals)
                          (number_of_Z slippage_bps) ;;
               executeSwap W quote keypair connection) s) as [r s1] eqn:Hrun.
    pose proof (quote_then_swap_budget _ _ _ _ _ _ _ _ _ _ Hrun) as (l & -> & Hl).
    exists l. split; [| exact Hl].
    unfold bind in *.
    destruct (getQuote W _ _ _ _ s) as [[q | e] s2]; [| now inversion Hrun].
    destruct (executeSwap W q keypair connection s2) as [[txid | e] s3];
      now inversion Hrun.
Qed.

(** X10.  One invocation of [buy_and_sell] sends at most two quote
    requests, two swap builds, two transactions and one read of a mint
    account, whatever the services answer. *)
Theorem buy_and_sell_budget
    (W : world) (token_address : string) (sol_amount : number)
    (slippage_bps : Z) (s : state) :
  exists sent,
    calls (snd (buy_and_sell W token_address sol_amount slippage_bps s))
    = calls s ++ sent
    /\ within_budget 2 2 2 1 sent.
Proof.
  unfold buy_and_sell, bind, lift, try_catch, ret.
  destruct (getKeypair W) as [keypair | e0].
  2: { exists []. rewrite app_nil_r. split; [reflexivity | apply within_budget_nil]. }
  destruct (getConnection W) as [connection | e0].
  2: { exists []. rewrite app_nil_r. split; [reflexivity | apply within_budget_nil]. }
  destruct (buy_leg _ _ _ _ _ _ s) as [[[buyTxid buyOutAmount] | e] s1] eqn:Hb;
    apply buy_leg_budget in Hb as (l1 & -> & Hl1).
  2: { exists l1. split; [reflexivity |].
       apply (within_budget_weaken _ _ _ _ _ _ _ _ _ Hl1); lia. }
  destruct (sell_leg _ _ _ _ _ _ (after s l1)) as [[[[sellTxid solReceived] d] | e] s2]
    eqn:Hs;
    apply sell_leg_budget in Hs as (l2 & Hcalls & Hl2 & _);
    exists (l1 ++ l2); simpl; rewrite Hcalls; simpl; rewrite <- app_assoc;
    (split; [reflexivity |]);
    apply (within_budget_app 1 1 1 0 1 1 1 1 _ _ Hl1 Hl2).
Qed.

(** X11.  [buy_and_sell] in a process that has the decimals [d] of the
    token in its cache, for [d] from 0 through 22 (the range in which
    [10 ** d] is the power of ten itself): after the buy, the first
    request of the sell leg is the quote for
    [Math.round(Number(outAmount) / 10 ** d * 10 ** d)] with the cached
    [d]; the mint account is not read, and the cache is left as it
    was. *)
Theorem buy_and_sell_warm_cache
    (W : world) (token_address : string) (sol_amount : number)
    (slippage_bps : Z) (keypair : Keypair) (connection : Connection)
    (s : state) (d : Z) (buyTxid buyOutAmount : string) (s1 : state) :
  getKeypair W = Return keypair ->
  getConnection W = Return connection ->
  0 <= d <= 22 ->
  decimalsCache s !! token_address = Some (Some d) ->
  buy_leg W token_address sol_amount slippage_bps keypair connection s
  = (Return (buyTxid, buyOutAmount), s1) ->
  exists rest,
    snd (buy_and_sell W token_address sol_amount slippage_bps s)
    = after s1 (FetchQuote token_address SOL_MINT
                  (rawTokenAmount buyOutAmount (Some d)) (number_of_Z slippage_bps)
                :: rest)
    /\ within_budget 0 1 1 0 rest
    /\ decimalsCache (snd (buy_and_sell W token_address sol_amount slippage_bps s))
       = decimalsCache s.
Proof.
  intros Hk Hc _ Hhit Hbuy.
  pose proof (buy_leg_cache W _ _ _ _ _ _ _ _ Hbuy) as Hcache.
  assert (Hhit1 : decimalsCache s1 !! token_address = Some (Some d))
    by (now rewrite Hcache).
  assert (Hrun : exists rest,
             snd (buy_and_sell W token_address sol_amount slippage_bps s)
             = after s1 (FetchQuote token_address SOL_MINT
                           (rawTokenAmount buyOutAmount (Some d))
                           (number_of_Z slippage_bps)
                         :: rest)
             /\ within_budget 0 1 1 0 rest).
  { rewrite (buy_and_sell_unfold W _ _ _ _ _ Hk Hc), Hbuy.
    unfold sell_leg.
    rewrite (bind_Return _ _ _ _ _ (getTokenDecimals_hit W connection _ _ _ Hhit1)).
    unfold bind at 1.
    destruct (getQuote W _ _ _ _ s1) as [[q | e] s2] eqn:Hq;
      apply getQuote_after in Hq; subst s2.
    2: { exists []. simpl. split; [reflexivity | apply within_budget_nil]. }
    unfold bind, ret.
    destruct (executeSwap W q keypair connection _) as [[txid | e] s3] eqn:Hx;
      apply executeSwap_budget in Hx as (l & -> & Hl);
      exists l; simpl; rewrite after_after; simpl;
      (split; [reflexivity | exact Hl]). }
  destruct Hrun as (rest & Hrun & Hrest).
  exists rest. rewrite Hrun. split; [reflexivity |]. split; [exact Hrest |].
  simpl. exact Hcache.
Qed.

(** The cache says 5 decimals: the sell quote is asked for the 123456
    raw units that were bought, and no account is read. *)
Lemma buy_and_sell_warm_cache_witness :
  exists s1 rest,
    snd (buy_and_sell (Scenario.trading "123456" "90000000" 5) Scenario.token
           (number_of_decimal 1 1) 50 (Faults.warm 5))
    = after s1 (FetchQuote Scenario.token SOL_MINT
                  (rawTokenAmount "123456" (Some 5)) (number_of_Z 50) :: rest)
    /\ within_budget 0 1 1 0 rest
    /\ decimalsCache
         (snd (buy_and_sell (Scenario.trading "123456" "90000000" 5) Scenario.token
                 (number_of_decimal 1 1) 50 (Faults.warm 5)))
       = decimalsCache (Faults.warm 5).
Proof.
  eexists.
  apply (buy_and_sell_warm_cache (Scenario.trading "123456" "90000000" 5)
           Scenario.token (number_of_decimal 1 1) 50 Scenario.a_keypair
           Scenario.a_connection (Faults.warm 5) 5 "sig2" "123456");
    try reflexivity.
  lia.
Defined.

(** ** A round trip that goes through *)

Lemma executeSwap_Return W q kp c s txid s' :
  executeSwap W q kp c s = (Return txid, s') ->
  exists tx b, s' = after s (swap_trace q kp tx txid b).
Proof.
  intros H. apply executeSwap_trace in H as (rest & -> & Hrest).
  destruct Hrest as [[_ (e & He)] | [(tx & _ & e & He) | [(tx & _ & e & He)
                     | (tx & id & b & -> & [Hr | (e & He)])]]];
    try discriminate.
  inversion Hr; subst. now exists tx, b.
Qed.

(** X12.  When both legs of [buy_and_sell] go through and the token has
    decimals [d] from 0 through 22 (the range in which [10 ** d] is the
    power of ten itself), the result is the envelope of status
    ["success"] with the two transaction ids, the raw amount of the buy
    quote, that amount divided by [10 ** d], and the [outAmount] of
    the sell quote divided by [LAMPORTS_PER_SOL].  The requests were sent in this order: the buy
    quote; the build, broadcast, blockhash and confirmation of the buy;
    the read of the mint account, or nothing when the decimals were
    cached; the sell quote, for the rounded amount and with the same
    slippage; the build, broadcast, blockhash and confirmation of the
    sell. *)
Theorem buy_and_sell_success_trace
    (W : world) (token_address : string) (sol_amount : number)
    (slippage_bps : Z) (keypair : Keypair) (connection : Connection)
    (s : state) (buyQuote : JupiterQuote) (s1 : state) (buyTxid : string)
    (s2 : state) (d : Z) (s3 : state) (sellQuote : JupiterQuote) (s4 : state)
    (sellTxid : string) (s5 : state) :
  getKeypair W = Return keypair ->
  getConnection W = Return connection ->
  getQuote W SOL_MINT token_address (rawSolAmount sol_amount)
           (number_of_Z slippage_bps) s = (Return buyQuote, s1) ->
  executeSwap W buyQuote keypair connection s1 = (Return buyTxid, s2) ->
  getTokenDecimals W connection token_address s2 = (Return (Some d), s3) ->
  0 <= d <= 22 ->
  getQuote W token_address SOL_MINT (rawTokenAmount (outAmount buyQuote) (Some d))
           (number_of_Z slippage_bps) s3 = (Return sellQuote, s4) ->
  executeSwap W sellQuote keypair connection s4 = (Return sellTxid, s5) ->
  (exists envelope,
     buy_and_sell W token_address sol_amount slippage_bps s =
       (Return {| content := [ JSON_stringify envelope (Some 2%N) ] |}, s5)
     /\ JS.get "status" envelope = Some (JString "success")
     /\ JS.get "buy_transaction" envelope = Some (JString buyTxid)
     /\ JS.get "sell_transaction" envelope = Some (JString sellTxid)
     /\ JS.get "token_received" envelope = Some (JString (outAmount buyQuote))
     /\ JS.get "token_sold" envelope
        = Some (JNumber (div (Number (outAmount buyQuote)) (pow10 d)))
     /\ JS.get "sol_received" envelope
        = Some (JNumber (div (Number (outAmount sellQuote)) LAMPORTS_PER_SOL))
     /\ JS.get "explorer_buy" envelope
        = Some (JString ("https://solscan.io/tx/" +:+ buyTxid))
     /\ JS.get "explorer_sell" envelope
        = Some (JString ("https://solscan.io/tx/" +:+ sellTxid)))
  /\ exists buyTransaction buyBlockhash reads sellTransaction sellBlockhash,
       calls s5 =
         calls s
         ++ FetchQuote SOL_MINT token_address (rawSolAmount sol_amount)
              (number_of_Z slippage_bps)
            :: swap_trace buyQuote keypair buyTransaction buyTxid buyBlockhash
         ++ reads
         ++ FetchQuote token_address SOL_MINT
              (rawTokenAmount (outAmount buyQuote) (Some d))
              (number_of_Z slippage_bps)
            :: swap_trace sellQuote keypair sellTransaction sellTxid sellBlockhash
       /\ (reads = [] \/ exists mint, reads = [GetParsedAccountInfo mint]).
Proof.
  intros Hk Hc Hq1 Hx1 Hd _ Hq2 Hx2. split.
  - eexists. split.
    + rewrite (buy_and_sell_unfold W _ _ _ _ _ Hk Hc).
      rewrite (buy_leg_Return W _ _ _ _ _ _ _ _ _ _ Hq1 Hx1).
      unfold sell_leg.
      rewrite (bind_Return _ _ _ _ _ Hd), (bind_Return _ _ _ _ _ Hq2),
        (bind_Return _ _ _ _ _ Hx2).
      reflexivity.
    + repeat split; reflexivity.
  - apply getQuote_after in Hq1. subst s1.
    apply executeSwap_Return in Hx1 as (tx1 & b1 & ->).
    apply getQuote_after in Hq2. subst s4.
    apply executeSwap_Return in Hx2 as (tx2 & b2 & ->).
    exists tx1, b1.
    apply getTokenDecimals_log in Hd as [[-> _] | (_ & mint & Hcalls)].
    + exists [], tx2, b2. split; [| now left].
      simpl. rewrite <- !app_assoc. reflexivity.
    + exists [GetParsedAccountInfo mint], tx2, b2. split; [| right; eauto].
      simpl. rewrite Hcalls. simpl. rewrite <- !app_assoc. reflexivity.
Qed.

(** 0.1 SOL buys 123456 raw units of a token with 5 decimals, which are
    sold for 90000000 lamports. *)
Lemma buy_and_sell_success_trace_witness :
  (exists envelope,
     buy_and_sell (Scenario.trading "123456" "90000000" 5) Scenario.token
                  (number_of_decimal 1 1) 50 Scenario.fresh =
       (Return {| content := [ JSON_stringify envelope (Some 2%N) ] |},
        snd (buy_and_sell (Scenario.trading "123456" "90000000" 5) Scenario.token
               (number_of_decimal 1 1) 50 Scenario.fresh))
     /\ JS.get "status" envelope = Some (JString "success")
     /\ JS.get "buy_transaction" envelope = Some (JString "sig2")
     /\ JS.get "sell_transaction" envelope = Some (JString "sig8")
     /\ JS.get "token_received" envelope = Some (JString "123456")
     /\ JS.get "token_sold" envelope
        = Some (JNumber (div (Number "123456") (pow10 5)))
     /\ JS.get "sol_received" envelope
        = Some (JNumber (div (Number "90000000") LAMPORTS_PER_SOL))
     /\ JS.get "explorer_buy" envelope
        = Some (JString ("https://solscan.io/tx/" +:+ "sig2"))
     /\ JS.get "explorer_sell" envelope
        = Some (JString ("https://solscan.io/tx/" +:+ "sig8")))
  /\ exists buyTransaction buyBlockhash reads sellTransaction sellBlockhash,
       calls (snd (buy_and_sell (Scenario.trading "123456" "90000000" 5)
                     Scenario.token (number_of_decimal 1 1) 50 Scenario.fresh)) =
         calls Scenario.fresh
         ++ FetchQuote SOL_MINT Scenario.token (rawSolAmount (number_of_decimal 1 1))
              (number_of_Z 50)
            :: swap_trace (Scenario.a_quote SOL_MINT Scenario.token "100000000" "123456")
                 Scenario.a_keypair buyTransaction "sig2" buyBlockhash
         ++ reads
         ++ FetchQuote Scenario.token SOL_MINT (rawTokenAmount "123456" (Some 5))
              (number_of_Z 50)
            :: swap_trace (Scenario.a_quote Scenario.token SOL_MINT "100000000" "90000000")
                 Scenario.a_keypair sellTransaction "sig8" sellBlockhash
       /\ (reads = [] \/ exists mint, reads = [GetParsedAccountInfo mint]).
Proof.
  eapply (buy_and_sell_success_trace (Scenario.trading "123456" "90000000" 5)
            Scenario.token (number_of_decimal 1 1) 50 Scenario.a_keypair
            Scenario.a_connection Scenario.fresh
            (Scenario.a_quote SOL_MINT Scenario.token "100000000" "123456") _ "sig2"
            _ 5 _
            (Scenario.a_quote Scenario.token SOL_MINT "100000000" "90000000") _ "sig8");
    try reflexivity.
  lia.
Defined.

(** ** Decimals that cannot be read *)

(** X13.  A lookup of the decimals of a mint that is not cached, whose
    account does not exist or holds data the node did not parse, throws
    ["Failed to fetch decimals for mint <address>"] with the address as
    it was given.  The failure is not cached: one request was sent,
    the cache is as it was, and the next lookup of the same mint sends
    a request again. *)
Theorem getTokenDecimals_failure_not_cached
    (W : world) (connection : Connection) (mintAddress : string)
    (mint : PublicKey) (s : state) (info : option AccountData) :
  decimalsCache s !! mintAddress = None ->
  new_PublicKey W mintAddress = Return mint ->
  rpc_getParsedAccountInfo W (calls s) mint = Return info ->
  info = None \/ info = Some Buffer ->
  getTokenDecimals W connection mintAddress s =
    (Throw (Error ("Failed to fetch decimals for mint " +:+ mintAddress)),
     after s [GetParsedAccountInfo mint])
  /\ calls (snd (getTokenDecimals W connection mintAddress
                   (after s [GetParsedAccountInfo mint])))
     = calls s ++ [GetParsedAccountInfo mint; GetParsedAccountInfo mint].
Proof.
  intros Hmiss Hmint Hinfo Hbad.
  split.
  - unfold getTokenDecimals, bind, get_cache, ret, lift, request, throw, after.
    rewrite Hmiss, Hmint. simpl. rewrite Hinfo.
    destruct Hbad as [-> | ->]; reflexivity.
  - unfold getTokenDecimals, bind, get_cache, ret, lift, request, set_cache,
      throw, after.
    simpl. rewrite Hmiss, Hmint. simpl.
    destruct (rpc_getParsedAccountInfo W (calls s ++ [GetParsedAccountInfo mint]) mint)
      as [[[| decimals] |] | e];
      simpl; rewrite <- app_assoc; reflexivity.
Qed.

(** The mint account of the token does not exist. *)
Lemma getTokenDecimals_failure_not_cached_witness :
  getTokenDecimals Faults.mint_missing Scenario.a_connection Scenario.token
                   Scenario.fresh =
    (Throw (Error "Failed to fetch decimals for mint DezXAZ8z7PnrnRJjz3wXBoRgixCa6xjnB7YaB1pPB263"),
     after Scenario.fresh [GetParsedAccountInfo Scenario.token])
  /\ calls (snd (getTokenDecimals Faults.mint_missing Scenario.a_connection
                   Scenario.token
                   (after Scenario.fresh [GetParsedAccountInfo Scenario.token])))
     = calls Scenario.fresh
       ++ [GetParsedAccountInfo Scenario.token; GetParsedAccountInfo Scenario.token].
Proof.
  apply (getTokenDecimals_failure_not_cached Faults.mint_missing
           Scenario.a_connection Scenario.token Scenario.token Scenario.fresh None);
    try reflexivity.
  left. reflexivity.
Defined.

(** X14.  [buy_and_sell] when the buy went through and the decimals of
    the token cannot be read (its mint account does not exist, or holds
    unparsed data): the result is the envelope of status ["partial"]
    whose [sell_error] is ["Failed to fetch decimals for mint
    <token_address>"], and after the read of the mint account no
    request is sent: the sell is not quoted. *)
Theorem buy_and_sell_unreadable_decimals
    (W : world) (token_address : string) (sol_amount : number)
    (slippage_bps : Z) (keypair : Keypair) (connection : Connection)
    (s : state) (buyTxid buyOutAmount : string) (s1 : state)
    (mint : PublicKey) (info : option AccountData) :
  getKeypair W = Return keypair ->
  getConnection W = Return connection ->
  buy_leg W token_address sol_amount slippage_bps keypair connection s
  = (Return (buyTxid, buyOutAmount), s1) ->
  decimalsCache s1 !! token_address = None ->
  new_PublicKey W token_address = Return mint ->
  rpc_getParsedAccountInfo W (calls s1) mint = Return info ->
  info = None \/ info = Some Buffer ->
  buy_and_sell W token_address sol_amount slippage_bps s =
    (Return
       {| content :=
            [ JSON_stringify
                (JObject
                   [ ("status", JString "partial");
                     ("buy_transaction", JString buyTxid);
                     ("sol_spent", JNumber sol_amount);
                     ("token_received", JString buyOutAmount);
                     ("token_mint", JString token_address);
                     ("sell_error",
                      JString ("Failed to fetch decimals for mint " +:+ token_address));
                     ("explorer", JString ("https://solscan.io/tx/" +:+ buyTxid)) ])
                None ] |},
     after s1 [GetParsedAccountInfo mint]).
Proof.
  intros Hk Hc Hbuy Hmiss Hmint Hinfo Hbad.
  rewrite (buy_and_sell_unfold W _ _ _ _ _ Hk Hc), Hbuy.
  assert (Hd : getTokenDecimals W connection token_address s1 =
               (Throw (Error ("Failed to fetch decimals for mint " +:+ token_address)),
                after s1 [GetParsedAccountInfo mint])).
  { unfold getTokenDecimals, bind, get_cache, ret, lift, request, throw, after.
    rewrite Hmiss, Hmint. simpl. rewrite Hinfo.
    destruct Hbad as [-> | ->]; reflexivity. }
  unfold sell_leg. rewrite (bind_Throw _ _ _ _ _ Hd). reflexivity.
Qed.

(** The mint account holds data the node did not parse. *)
Lemma buy_and_sell_unreadable_decimals_witness :
  buy_and_sell Faults.mint_unparsed Scenario.token (number_of_decimal 1 1) 50
               Scenario.fresh =
    (Return
       {| content :=
            [ JSON_stringify
                (JObject
                   [ ("status", JString "partial");
                     ("buy_transaction", JString "sig2");
                     ("sol_spent", JNumber (number_of_decimal 1 1));
                     ("token_received", JString "123456");
                     ("token_mint", JString Scenario.token);
                     ("sell_error",
                      JString ("Failed to fetch decimals for mint " +:+ Scenario.token));
                     ("explorer", JString ("https://solscan.io/tx/" +:+ "sig2")) ])
                None ] |},
     after (snd (buy_leg Faults.mint_unparsed Scenario.token (number_of_decimal 1 1)
                   50 Scenario.a_keypair Scenario.a_connection Scenario.fresh))
           [GetParsedAccountInfo Scenario.token]).
Proof.
  apply (buy_and_sell_unreadable_decimals Faults.mint_unparsed Scenario.token
           (number_of_decimal 1 1) 50 Scenario.a_keypair Scenario.a_connection
           Scenario.fresh "sig2" "123456" _ Scenario.token (Some Buffer));
    try reflexivity.
  right. reflexivity.
Defined.

(** ** [get_balance] *)

(** X15.  [get_balance] without a token address, or with the empty
    string as the address: one request is sent, for the balance of the
    wallet, and the result holds the wallet's address and the balance
    in lamports divided by [LAMPORTS_PER_SOL]; it has no [tokenBalance]
    field. *)
Theorem get_balance_sol_only
    (W : world) (token_address : option string) (keypair : Keypair)
    (connection : Connection) (s : state) (lamports : Z) :
  token_address = None \/ token_address = Some "" ->
  getKeypair W = Return keypair ->
  getConnection W = Return connection ->
  rpc_getBalance W (calls s) (publicKey keypair) = Return lamports ->
  get_balance W token_address s =
    (Return
       {| content :=
            [ JSON_stringify
                (JObject
                   [ ("wallet", JString (publicKey keypair));
                     ("solBalance",
                      JNumber (div (number_of_Z lamports) LAMPORTS_PER_SOL)) ])
                (Some 2%N) ] |},
     after s [GetBalance (publicKey keypair)]).
Proof.
  intros Htoken Hk Hc Hbal.
  unfold get_balance, try_catch, getSolBalance, bind, lift, request, ret, after.
  rewrite Hk, Hc. simpl. rewrite Hbal.
  destruct Htoken as [-> | ->]; reflexivity.
Qed.

(** The empty string as the address, in a wallet of 2.5 SOL. *)
Lemma get_balance_sol_only_witness :
  get_balance (Scenario.holding []) (Some "") Scenario.fresh =
    (Return
       {| content :=
            [ JSON_stringify
                (JObject
                   [ ("wallet", JString Scenario.wallet_address);
                     ("solBalance", JNumber (number_of_decimal 25 1)) ])
                (Some 2%N) ] |},
     after Scenario.fresh [GetBalance Scenario.wallet_address]).
Proof.
  apply (get_balance_sol_only (Scenario.holding []) (Some "") Scenario.a_keypair
           Scenario.a_connection Scenario.fresh 2500000000);
    try reflexivity.
  right. reflexivity.
Defined.

(** X16.  [get_balance] with a token address: after the balance of the
    wallet, the token accounts of the wallet for that mint are listed,
    and the result carries, under [tokenBalance], the address as it was
    given and the amount, decimals and uiAmount of the first account
    listed, or ["0"], 0 and 0 when none is; a [uiAmount] that is null
    stays null. *)
Theorem get_balance_with_token
    (W : world) (token_address : string) (keypair : Keypair)
    (connection : Connection) (s : state) (lamports : Z) (mint : PublicKey)
    (tokenAccounts : list TokenAmount) :
  token_address <> "" ->
  getKeypair W = Return keypair ->
  getConnection W = Return connection ->
  rpc_getBalance W (calls s) (publicKey keypair) = Return lamports ->
  new_PublicKey W token_address = Return mint ->
  rpc_getParsedTokenAccountsByOwner W (calls s ++ [GetBalance (publicKey keypair)])
    (publicKey keypair) mint = Return tokenAccounts ->
  let tokenBal :=
    match tokenAccounts with
    | [] => zero_snapshot
    | first :: _ => first
    end in
  get_balance W (Some token_address) s =
    (Return
       {| content :=
            [ JSON_stringify
                (JObject
                   [ ("wallet", JString (publicKey keypair));
                     ("solBalance",
                      JNumber (div (number_of_Z lamports) LAMPORTS_PER_SOL));
                     ("tokenBalance",
                      JObject
                        [ ("mint", JString token_address);
                          ("amount", JString (amount tokenBal));
                          ("decimals", JNumber (number_of_Z (decimals tokenBal)));
                          ("uiAmount",
                           match uiAmount tokenBal with
                           | Some n => JNumber n
                           | None => JNull
                           end) ]) ])
                (Some 2%N) ] |},
     after s [ GetBalance (publicKey keypair);
               GetParsedTokenAccountsByOwner (publicKey keypair) mint ]).
Proof.
  intros Hne Hk Hc Hbal Hmint Hlist tokenBal. subst tokenBal.
  unfold get_balance, try_catch, getSolBalance, getTokenBalance, bind, lift,
    request, ret, after.
  rewrite Hk, Hc. simpl. rewrite Hbal.
  destruct (String.eqb_spec token_address ""); [contradiction |].
  rewrite Hmint. simpl. rewrite Hlist. rewrite <- app_assoc.
  destruct tokenAccounts as [| [am de ui] rest]; reflexivity.
Qed.

(** A wallet with one account of 1.5 units of a 6-decimals token. *)
Lemma get_balance_with_token_witness :
  get_balance
    (Scenario.holding
       [ {| amount := "1500000"; decimals := 6;
            uiAmount := Some (number_of_decimal 15 1) |} ])
    (Some Scenario.token) Scenario.fresh =
    (Return
       {| content :=
            [ JSON_stringify
                (JObject
                   [ ("wallet", JString Scenario.wallet_address);
                     ("solBalance", JNumber (number_of_decimal 25 1));
                     ("tokenBalance",
                      JObject
                        [ ("mint", JString Scenario.token);
                          ("amount", JString "1500000");
                          ("decimals", JNumber (number_of_Z 6));
                          ("uiAmount", JNumber (number_of_decimal 15 1)) ]) ])
                (Some 2%N) ] |},
     after Scenario.fresh
       [ GetBalance Scenario.wallet_address;
         GetParsedTokenAccountsByOwner Scenario.wallet_address Scenario.token ]).
Proof.
  assert (Hne : Scenario.token <> "") by discriminate.
  apply (get_balance_with_token
           (Scenario.holding
              [ {| amount := "1500000"; decimals := 6;
                   uiAmount := Some (number_of_decimal 15 1) |} ])
           Scenario.token Scenario.a_keypair Scenario.a_connection Scenario.fresh
           2500000000 Scenario.token
           [ {| amount := "1500000"; decimals := 6;
                uiAmount := Some (number_of_decimal 15 1) |} ]
           Hne);
    reflexivity.
Defined.

(** X17.  [get_balance] with a token address whose balance cannot be
    read: the address does not parse, or the listing of the token
    accounts throws.  The result is the error text alone; the balance
    of the wallet, which was fetched, is not part of it.  An address
    that does not parse is detected after the balance of the wallet was
    requested, and before any listing. *)
Theorem get_balance_token_failure
    (W : world) (token_address : string) (keypair : Keypair)
    (connection : Connection) (s : state) (lamports : Z) (e : exn) :
  token_address <> "" ->
  getKeypair W = Return keypair ->
  getConnection W = Return connection ->
  rpc_getBalance W (calls s) (publicKey keypair) = Return lamports ->
  (new_PublicKey W token_address = Throw e
   \/ exists mint,
        new_PublicKey W token_address = Return mint
        /\ rpc_getParsedTokenAccountsByOwner W
             (calls s ++ [GetBalance (publicKey keypair)])
             (publicKey keypair) mint = Throw e) ->
  exists sent,
    get_balance W (Some token_address) s =
      (Return {| content := [ Text ("Error: " +:+ msg_of e) ] |},
       after s (GetBalance (publicKey keypair) :: sent))
    /\ (new_PublicKey W token_address = Throw e -> sent = []).
Proof.
  intros Hne Hk Hc Hbal Hfail.
  unfold get_balance, try_catch, getSolBalance, getTokenBalance, bind, lift,
    request, ret, after.
  rewrite Hk, Hc. simpl. rewrite Hbal.
  destruct (String.eqb_spec token_address ""); [contradiction |].
  destruct Hfail as [Hmint | (mint & Hmint & Hlist)]; rewrite Hmint; simpl.
  - exists []. split; [reflexivity | reflexivity].
  - rewrite Hlist. exists [GetParsedTokenAccountsByOwner (publicKey keypair) mint].
    rewrite <- app_assoc. split; [reflexivity | discriminate].
Qed.

(** An address of 9 characters, and a listing the node refuses. *)
Lemma get_balance_token_failure_witness :
  (exists sent,
     get_balance Faults.strict_addresses (Some "not-a-key") Scenario.fresh =
       (Return {| content := [ Text "Error: Invalid public key input" ] |},
        after Scenario.fresh (GetBalance Scenario.wallet_address :: sent))
     /\ (new_PublicKey Faults.strict_addresses "not-a-key"
         = Throw (Error "Invalid public key input") -> sent = []))
  /\ (exists sent,
        get_balance Faults.listing_refused (Some Scenario.token) Scenario.fresh =
          (Return {| content := [ Text "Error: 429 Too Many Requests" ] |},
           after Scenario.fresh (GetBalance Scenario.wallet_address :: sent))
        /\ (new_PublicKey Faults.listing_refused Scenario.token
            = Throw (Error "429 Too Many Requests") -> sent = [])).
Proof.
  assert (Hne1 : "not-a-key" <> "") by discriminate.
  assert (Hne2 : Scenario.token <> "") by discriminate.
  split.
  - apply (get_balance_token_failure Faults.strict_addresses "not-a-key"
             Scenario.a_keypair Scenario.a_connection Scenario.fresh 2500000000
             (Error "Invalid public key input") Hne1);
      try reflexivity.
    left. reflexivity.
  - apply (get_balance_token_failure Faults.listing_refused Scenario.token
             Scenario.a_keypair Scenario.a_connection Scenario.fresh 2500000000
             (Error "429 Too Many Requests") Hne2);
      try reflexivity.
    right. exists Scenario.token. split; reflexivity.
Defined.

(** ** Swaps that go through *)

(** X18.  [buy_token] when the quote and the swap go through: the
    result has status ["success"]; [solSpent] is the amount that was
    asked for, [tokenReceived] the [outAmount] of the quote (what the
    route was quoted to give), [transaction] the id the node gave, and
    [explorer] the Solscan address of that id.  Five requests were
    sent: the quote from [SOL_MINT] to the token, and the build,
    broadcast, blockhash and confirmation of the swap of that very
    quote for the wallet's public key. *)
Theorem buy_token_success
    (W : world) (token_address : string) (sol_amount : number)
    (slippage_bps : Z) (keypair : Keypair) (connection : Connection)
    (s : state) (quote : JupiterQuote) (s1 : state) (txid : string) (s2 : state) :
  getKeypair W = Return keypair ->
  getConnection W = Return connection ->
  getQuote W SOL_MINT token_address (rawSolAmount sol_amount)
           (number_of_Z slippage_bps) s = (Return quote, s1) ->
  executeSwap W quote keypair connection s1 = (Return txid, s2) ->
  buy_token W token_address sol_amount slippage_bps s =
    (Return
       {| content :=
            [ JSON_stringify
                (JObject
                   [ ("status", JString "success");
                     ("transaction", JString txid);
                     ("solSpent", JNumber sol_amount);
                     ("tokenReceived", JString (outAmount quote));
                     ("tokenMint", JString token_address);
                     ("explorer", JString ("https://solscan.io/tx/" +:+ txid)) ])
                (Some 2%N) ] |},
     s2)
  /\ exists transaction latestBlockhash,
       s2 = after s
              (FetchQuote SOL_MINT token_address (rawSolAmount sol_amount)
                 (number_of_Z slippage_bps)
               :: swap_trace quote keypair transaction txid latestBlockhash).
Proof.
  intros Hk Hc Hq Hx. split.
  - unfold buy_token, try_catch, lift. rewrite Hk, Hc.
    unfold bind at 1. unfold bind at 1.
    rewrite (bind_Return _ _ _ _ _ Hq), (bind_Return _ _ _ _ _ Hx).
    reflexivity.
  - apply getQuote_after in Hq. subst s1.
    apply executeSwap_Return in Hx as (tx & b & ->).
    exists tx, b. now rewrite after_after.
Qed.

(** 0.1 SOL for 123456 raw units. *)
Lemma buy_token_success_witness :
  buy_token (Scenario.trading "123456" "90000000" 5) Scenario.token
            (number_of_decimal 1 1) 50 Scenario.fresh =
    (Return
       {| content :=
            [ JSON_stringify
                (JObject
                   [ ("status", JString "success");
                     ("transaction", JString "sig2");
                     ("solSpent", JNumber (number_of_decimal 1 1));
                     ("tokenReceived", JString "123456");
                     ("tokenMint", JString Scenario.token);
                     ("explorer", JString ("https://solscan.io/tx/" +:+ "sig2")) ])
                (Some 2%N) ] |},
     snd (buy_token (Scenario.trading "123456" "90000000" 5) Scenario.token
            (number_of_decimal 1 1) 50 Scenario.fresh))
  /\ exists transaction latestBlockhash,
       snd (buy_token (Scenario.trading "123456" "90000000" 5) Scenario.token
              (number_of_decimal 1 1) 50 Scenario.fresh)
       = after Scenario.fresh
           (FetchQuote SOL_MINT Scenario.token (rawSolAmount (number_of_decimal 1 1))
              (number_of_Z 50)
            :: swap_trace (Scenario.a_quote SOL_MINT Scenario.token "100000000" "123456")
                 Scenario.a_keypair transaction "sig2" latestBlockhash).
Proof.
  eapply (buy_token_success (Scenario.trading "123456" "90000000" 5) Scenario.token
            (number_of_decimal 1 1) 50 Scenario.a_keypair Scenario.a_connection
            Scenario.fresh
            (Scenario.a_quote SOL_MINT Scenario.token "100000000" "123456") _ "sig2");
    reflexivity.
Defined.

(** X19.  [sell_token] when the quote and the swap go through: the
    result has status ["success"]; [tokenSold] is the amount that was
    asked for, and [solReceived] is the [outAmount] of the quote read
    as a Number and divided by [LAMPORTS_PER_SOL].  Five requests were
    sent: the quote from the token to [SOL_MINT] for
    [Math.round(token_amount * 10 ** token_decimals)], and the build,
    broadcast, blockhash and confirmation of the swap of that quote. *)
Theorem sell_token_success
    (W : world) (token_address : string) (token_amount : number)
    (token_decimals slippage_bps : Z) (keypair : Keypair)
    (connection : Connection) (s : state) (quote : JupiterQuote) (s1 : state)
    (txid : string) (s2 : state) :
  getKeypair W = Return keypair ->
  getConnection W = Return connection ->
  getQuote W token_address SOL_MINT (rawAmount token_amount token_decimals)
           (number_of_Z slippage_bps) s = (Return quote, s1) ->
  executeSwap W quote keypair connection s1 = (Return txid, s2) ->
  sell_token W token_address token_amount token_decimals slippage_bps s =
    (Return
       {| content :=
            [ JSON_stringify
                (JObject
                   [ ("status", JString "success");
                     ("transaction", JString txid);
                     ("tokenSold", JNumber token_amount);
                     ("tokenMint", JString token_address);
                     ("solReceived",
                      JNumber (div (Number (outAmount quote)) LAMPORTS_PER_SOL));
                     ("explorer", JString ("https://solscan.io/tx/" +:+ txid)) ])
                (Some 2%N) ] |},
     s2)
  /\ exists transaction latestBlockhash,
       s2 = after s
              (FetchQuote token_address SOL_MINT
                 (rawAmount token_amount token_decimals) (number_of_Z slippage_bps)
               :: swap_trace quote keypair transaction txid latestBlockhash).
Proof.
  intros Hk Hc Hq Hx. split.
  - unfold sell_token, try_catch, lift. rewrite Hk, Hc.
    unfold bind at 1. unfold bind at 1.
    rewrite (bind_Return _ _ _ _ _ Hq), (bind_Return _ _ _ _ _ Hx).
    reflexivity.
  - apply getQuote_after in Hq. subst s1.
    apply executeSwap_Return in Hx as (tx & b & ->).
    exists tx, b. now rewrite after_after.
Qed.

(** 1.5 units of a 5-decimals token for 0.09 SOL. *)
Lemma sell_token_success_witness :
  sell_token (Scenario.trading "123456" "90000000" 5) Scenario.token
             (number_of_decimal 15 1) 5 50 Scenario.fresh =
    (Return
       {| content :=
            [ JSON_stringify
                (JObject
                   [ ("status", JString "success");
                     ("transaction", JString "sig2");
                     ("tokenSold", JNumber (number_of_decimal 15 1));
                     ("tokenMint", JString Scenario.token);
                     ("solReceived",
                      JNumber (div (Number "90000000") LAMPORTS_PER_SOL));
                     ("explorer", JString ("https://solscan.io/tx/" +:+ "sig2")) ])
                (Some 2%N) ] |},
     snd (sell_token (Scenario.trading "123456" "90000000" 5) Scenario.token
            (number_of_decimal 15 1) 5 50 Scenario.fresh))
  /\ exists transaction latestBlockhash,
       snd (sell_token (Scenario.trading "123456" "90000000" 5) Scenario.token
              (number_of_decimal 15 1) 5 50 Scenario.fresh)
       = after Scenario.fresh
           (FetchQuote Scenario.token SOL_MINT (rawAmount (number_of_decimal 15 1) 5)
              (number_of_Z 50)
            :: swap_trace (Scenario.a_quote Scenario.token SOL_MINT "100000000" "90000000")
                 Scenario.a_keypair transaction "sig2" latestBlockhash).
Proof.
  eapply (sell_token_success (Scenario.trading "123456" "90000000" 5) Scenario.token
            (number_of_decimal 15 1) 5 50 Scenario.a_keypair Scenario.a_connection
            Scenario.fresh
            (Scenario.a_quote Scenario.token SOL_MINT "100000000" "90000000") _ "sig2");
    reflexivity.
Defined.

(** ** [get_token_summary] *)

(** X20.  [get_token_summary] never throws: whatever [fetch] and the
    reading of the body do, it returns one content item.  The item is
    the report, serialized with an indentation of 2, exactly when the
    response is a success whose body parses; in every other case it is
    a text that starts with "Error: ". *)
Theorem get_token_summary_total
    (fetch : Summary.Request -> Summary.result Summary.Response)
    (token_address : string) :
  exists t,
    Summary.get_token_summary fetch token_address
    = Summary.Ok {| content := [t] |}
    /\ ((exists response data,
           fetch {| Summary.url :=
                      "https://api.rugcheck.xyz/v1/tokens/" +:+ token_address
                      +:+ "/report/summary";
                    Summary.accept := "application/json";
                    Summary.timeout := 15000 |} = Summary.Ok response
           /\ Summary.ok response = true
           /\ Summary.json response = Summary.Ok data
           /\ t = JSON_stringify data (Some 2%N))
        \/ is_error_report t = true).
Proof.
  unfold Summary.get_token_summary, Summary.try_catch.
  change (Summary.RUGCHECK_API_BASE +:+ "/tokens/" +:+ token_address
          +:+ "/report/summary")
    with ("https://api.rugcheck.xyz/v1/tokens/" +:+ token_address
          +:+ "/report/summary").
  change Summary.FETCH_TIMEOUT_MS with 15000.
  destruct (fetch _) as [response | [name message |]] eqn:Hfetch.
  - destruct (Summary.ok response) eqn:Hok; simpl.
    + destruct (Summary.json response) as [data | [name message |]] eqn:Hjson.
      * eexists. split; [reflexivity |]. left. exists response, data. auto.
      * destruct (String.eqb name "TimeoutError");
          eexists; (split; [reflexivity |]); right;
          apply (prefix_app "Error: ").
      * eexists. split; [reflexivity |]. right. apply (prefix_app "Error: ").
    + eexists. split; [reflexivity |]. right.
      apply (prefix_app "Error: ").
  - destruct (String.eqb name "TimeoutError");
      eexists; (split; [reflexivity |]); right; apply (prefix_app "Error: ").
  - eexists. split; [reflexivity |]. right. apply (prefix_app "Error: ").
Qed.

(** X21.  The errors of [get_token_summary].
    - A response that is not a success, of status [S] and status text
      [T], gives ["Error: Failed to fetch token summary. Status: S T"];
      its body is not read.
    - An error named ["TimeoutError"], thrown by [fetch] or by the
      reading of the body, gives ["Error: Request timed out after 15
      seconds"], whatever its message.
    - Any other error gives ["Error: "] followed by its message. *)
Theorem get_token_summary_errors
    (fetch : Summary.Request -> Summary.result Summary.Response)
    (token_address : string) :
  let request :=
    {| Summary.url :=
         "https://api.rugcheck.xyz/v1/tokens/" +:+ token_address +:+ "/report/summary";
       Summary.accept := "application/json";
       Summary.timeout := 15000 |} in
  let thrown error :=
    fetch request = Summary.Raise error
    \/ exists response,
         fetch request = Summary.Ok response
         /\ Summary.ok response = true
         /\ Summary.json response = Summary.Raise error in
  (forall response,
      fetch request = Summary.Ok response ->
      Summary.ok response = false ->
      Summary.get_token_summary fetch token_address
      = Summary.Ok
          {| content :=
               [ Text ("Error: Failed to fetch token summary. Status: "
                       +:+ pretty (Summary.status response) +:+ " "
                       +:+ Summary.statusText response) ] |})
  /\ (forall message,
        thrown (Summary.ErrorObject "TimeoutError" message) ->
        Summary.get_token_summary fetch token_address
        = Summary.Ok
            {| content := [ Text "Error: Request timed out after 15 seconds" ] |})
  /\ (forall name message,
        name <> "TimeoutError" ->
        thrown (Summary.ErrorObject name message) ->
        Summary.get_token_summary fetch token_address
        = Summary.Ok {| content := [ Text ("Error: " +:+ message) ] |}).
Proof.
  intros request thrown. subst thrown.
  unfold Summary.get_token_summary, Summary.try_catch.
  change {| Summary.url := Summary.RUGCHECK_API_BASE +:+ "/tokens/" +:+ token_address
                           +:+ "/report/summary";
            Summary.accept := "application/json";
            Summary.timeout := Summary.FETCH_TIMEOUT_MS |} with request.
  split; [| split].
  - intros response Hfetch Hok. rewrite Hfetch, Hok. reflexivity.
  - intros message [Hfetch | (response & Hfetch & Hok & Hjson)]; rewrite Hfetch.
    + reflexivity.
    + rewrite Hok. simpl. rewrite Hjson. reflexivity.
  - intros name message Hname Hthrown.
    assert (Hneq : String.eqb name "TimeoutError" = false)
      by (now apply String.eqb_neq).
    destruct Hthrown as [Hfetch | (response & Hfetch & Hok & Hjson)]; rewrite Hfetch.
    + now rewrite Hneq.
    + rewrite Hok. simpl. rewrite Hjson. now rewrite Hneq.
Qed.

(** The service answers 404; the request times out; the body of a
    success times out; the connection is refused. *)
Lemma get_token_summary_errors_witness :
  Summary.get_token_summary Faults.rugcheck_not_found Scenario.token
  = Summary.Ok
      {| content :=
           [ Text "Error: Failed to fetch token summary. Status: 404 Not Found" ] |}
  /\ Summary.get_token_summary Faults.rugcheck_timeout Scenario.token
     = Summary.Ok
         {| content := [ Text "Error: Request timed out after 15 seconds" ] |}
  /\ Summary.get_token_summary Faults.rugcheck_slow_body Scenario.token
     = Summary.Ok
         {| content := [ Text "Error: Request timed out after 15 seconds" ] |}
  /\ Summary.get_token_summary
       (fun _ => Summary.Raise (Summary.ErrorObject "TypeError" "fetch failed"))
       Scenario.token
     = Summary.Ok {| content := [ Text "Error: fetch failed" ] |}.
Proof.
  split; [| split; [| split]].
  - apply (proj1 (get_token_summary_errors Faults.rugcheck_not_found Scenario.token)
             {| Summary.status := 404; Summary.statusText := "Not Found";
                Summary.json :=
                  Summary.Raise
                    (Summary.ErrorObject "SyntaxError" "Unexpected end of JSON input") |});
      reflexivity.
  - apply (proj1 (proj2 (get_token_summary_errors Faults.rugcheck_timeout
                           Scenario.token))
             "The operation was aborted due to timeout").
    left. reflexivity.
  - apply (proj1 (proj2 (get_token_summary_errors Faults.rugcheck_slow_body
                           Scenario.token))
             "The operation was aborted due to timeout").
    right. eexists. split; [reflexivity |]. split; reflexivity.
  - apply (proj2 (proj2 (get_token_summary_errors
                           (fun _ => Summary.Raise
                                       (Summary.ErrorObject "TypeError" "fetch failed"))
                           Scenario.token))
             "TypeError" "fetch failed").
    + discriminate.
    + left. reflexivity.
Defined.

(** ** A quote that fails *)

(** X26.  When the quote request of [buy_token] or of [sell_token]
    fails, the result is the text ["Error: "] followed by the message
    of the error, and the quote is the only request that was sent: the
    swap endpoint is not called. *)
Theorem swap_tools_quote_failure
    (W : world) (keypair : Keypair) (connection : Connection)
    (s : state) (e : exn) (s1 : state) :
  getKeypair W = Return keypair ->
  getConnection W = Return connection ->
  (forall token_address sol_amount slippage_bps,
      getQuote W SOL_MINT token_address (rawSolAmount sol_amount)
               (number_of_Z slippage_bps) s = (Throw e, s1) ->
      buy_token W token_address sol_amount slippage_bps s =
        (Return {| content := [ Text ("Error: " +:+ msg_of e) ] |},
         after s [ FetchQuote SOL_MINT token_address (rawSolAmount sol_amount)
                     (number_of_Z slippage_bps) ]))
  /\ (forall token_address token_amount token_decimals slippage_bps,
        getQuote W token_address SOL_MINT (rawAmount token_amount token_decimals)
                 (number_of_Z slippage_bps) s = (Throw e, s1) ->
        sell_token W token_address token_amount token_decimals slippage_bps s =
          (Return {| content := [ Text ("Error: " +:+ msg_of e) ] |},
           after s [ FetchQuote token_address SOL_MINT
                       (rawAmount token_amount token_decimals)
                       (number_of_Z slippage_bps) ])).
Proof.
  intros Hk Hc. split; intros; unfold buy_token, sell_token, try_catch, lift;
    rewrite Hk, Hc; unfold bind at 1; unfold bind at 1;
    rewrite (bind_Throw _ _ _ _ _ H);
    apply getQuote_after in H; subst s1; reflexivity.
Qed.

(** The quote endpoint answers 429 to a purchase and to a sale. *)
Lemma swap_tools_quote_failure_witness :
  buy_token Scenario.rate_limited Scenario.token (number_of_decimal 1 1) 50
            Scenario.fresh =
    (Return {| content :=
                 [ Text "Error: Jupiter quote failed (429): Too Many Requests" ] |},
     after Scenario.fresh
       [ FetchQuote SOL_MINT Scenario.token (rawSolAmount (number_of_decimal 1 1))
           (number_of_Z 50) ])
  /\ sell_token Scenario.rate_limited Scenario.token (number_of_decimal 15 1) 5 50
                Scenario.fresh =
       (Return {| content :=
                    [ Text "Error: Jupiter quote failed (429): Too Many Requests" ] |},
        after Scenario.fresh
          [ FetchQuote Scenario.token SOL_MINT (rawAmount (number_of_decimal 15 1) 5)
              (number_of_Z 50) ]).
Proof.
  destruct (swap_tools_quote_failure Scenario.rate_limited Scenario.a_keypair
              Scenario.a_connection Scenario.fresh
              (Error "Jupiter quote failed (429): Too Many Requests")
              (after Scenario.fresh
                 [ FetchQuote SOL_MINT Scenario.token
                     (rawSolAmount (number_of_decimal 1 1)) (number_of_Z 50) ])
              eq_refl eq_refl) as [Hbuy _].
  destruct (swap_tools_quote_failure Scenario.rate_limited Scenario.a_keypair
              Scenario.a_connection Scenario.fresh
              (Error "Jupiter quote failed (429): Too Many Requests")
              (after Scenario.fresh
                 [ FetchQuote Scenario.token SOL_MINT
                     (rawAmount (number_of_decimal 15 1) 5) (number_of_Z 50) ])
              eq_refl eq_refl) as [_ Hsell].
  split.
  - apply Hbuy. reflexivity.
  - apply Hsell. reflexivity.
Defined.

(** ** Products and quotients of Numbers *)

(** *** Rounding a quotient *)

Lemma shr_1_truncated_by n u mrs :
  truncated_by n u mrs -> truncated_by n (2 * u) (shr_1 mrs).
Proof.
  intros (rem & Hm & Heq & Hrem & Hloc).
  destruct mrs as [q r st]. simpl in *.
  destruct q as [| [p | p |] | p]; simpl; try lia.
  - exists rem. simpl. destruct r, st; simpl; repeat split; try lia.
  - exists (u + rem). simpl. destruct r, st; simpl; repeat split; try lia.
  - exists rem. simpl. destruct r, st; simpl; repeat split; try lia.
  - exists (u + rem). simpl. destruct r, st; simpl; repeat split; try lia.
Qed.

Lemma shr_1_truncated_by_pow n u k mrs :
  0 <= k ->
  truncated_by n (u * 2 ^ k) mrs -> truncated_by n (u * 2 ^ (k + 1)) (shr_1 mrs).
Proof.
  intros Hk H. apply shr_1_truncated_by in H.
  replace (u * 2 ^ (k + 1)) with (2 * (u * 2 ^ k)); [exact H |].
  rewrite Z.pow_add_r by lia. change (2 ^ 1) with 2. lia.
Qed.

Lemma iter_pos_truncated_by n u p : forall k mrs,
  0 <= k -> truncated_by n (u * 2 ^ k) mrs ->
  truncated_by n (u * 2 ^ (k + Z.pos p)) (SpecFloat.iter_pos shr_1 p mrs).
Proof.
  induction p as [p IH | p IH |]; intros k mrs Hk H; simpl.
  - replace (k + Z.pos p~1) with (((k + 1) + Z.pos p) + Z.pos p) by lia.
    apply IH; [lia |]. apply IH; [lia |]. now apply shr_1_truncated_by_pow.
  - replace (k + Z.pos p~0) with ((k + Z.pos p) + Z.pos p) by lia.
    apply IH; [lia |]. now apply IH.
  - now apply shr_1_truncated_by_pow.
Qed.

(** Rounding to nearest, ties to even, is off by at most half a unit. *)
Lemma round_truncated_by n u mrs :
  truncated_by n u mrs ->
  let m1 := round_nearest_even (shr_m mrs) (loc_of_shr_record mrs) in
  0 <= m1 /\ 2 * Z.abs (m1 * u - n) <= u /\ m1 * u <= n + u.
Proof.
  intros (rem & Hm & Heq & Hrem & Hloc).
  destruct mrs as [q r st]. simpl in *.
  destruct r, st; simpl; try destruct (Z.even q); lia.
Qed.

(** The location [SFdiv] computes for a remainder. *)
Lemma new_location_truncated_by q u r :
  0 <= q -> 0 <= r < u ->
  truncated_by (q * u + r) u (shr_record_of_loc q (new_location u r)).
Proof.
  intros Hq Hr. exists r.
  assert (Hm : forall l, shr_m (shr_record_of_loc q l) = q)
    by (intros [| []]; reflexivity).
  rewrite Hm. split; [exact Hq |]. split; [reflexivity |]. split; [exact Hr |].
  unfold new_location, new_location_even, new_location_odd.
  destruct (Z.even u) eqn:Heven.
  - destruct (Z.eqb_spec r 0) as [-> | Hne]; [reflexivity |].
    destruct (Z.compare_spec (2 * r) u); simpl; lia.
  - destruct (Z.eqb_spec r 0) as [-> | Hne]; [reflexivity |].
    assert (Hodd : Z.odd u = true) by (rewrite <- Z.negb_even, Heven; reflexivity).
    apply Z.odd_spec in Hodd as [h Hh].
    destruct (Z.compare_spec (2 * r + 1) u); simpl; lia.
Qed.

(** Rounding a quotient [n / u] whose integer part is [p], counted in
    units of [2^e], and below [2^B]: the result is a zero or a finite
    Number [M * 2^E], off by at most [2^(B-52)]. *)
Lemma binary_round_aux_error_by s p l n u e B :
  truncated_by n u (shr_record_of_loc (Z.pos p) l) ->
  Z.pos (digits2_pos p) + e <= B ->
  e <= B - 52 ->
  -1021 <= B <= 971 ->
  exists M E,
    binary_round_aux prec emax s (Z.pos p) e l = rounded s M E
    /\ 0 <= M /\ e <= E
    /\ Z.abs (M * 2 ^ (E - e) * u - n) <= u * 2 ^ (B - 52 - e).
Proof.
  intros Hstart Hd He52 HB.
  assert (Hu : 0 < u) by (destruct Hstart as (rem & _ & _ & Hrem & _); lia).
  assert (Hn : Z.pos p * u <= n < (Z.pos p + 1) * u).
  { destruct Hstart as (rem & _ & Heq & Hrem & _).
    assert (Hm : shr_m (shr_record_of_loc (Z.pos p) l) = Z.pos p)
      by (destruct l as [| []]; reflexivity).
    rewrite Hm in Heq. lia. }
  set (d := Z.pos (digits2_pos p)) in *.
  assert (Hdpos : 0 < d) by (unfold d; lia).
  pose proof (digits2_pos_bounds p) as [_ Hm]. fold d in Hm.
  unfold binary_round_aux, shr_fexp, shr. simpl Zdigits2. fold d.
  set (F1 := fexp prec emax (d + e)).
  assert (HF1 : F1 = Z.max (d + e - 53) (-1074)) by reflexivity.
  (* the first shift, by [n1] bits *)
  assert (Hfirst :
    exists mrs' n1,
      (match F1 - e with
       | Z.pos p1 => (SpecFloat.iter_pos shr_1 p1 (shr_record_of_loc (Z.pos p) l), e + (F1 - e))
       | _ => (shr_record_of_loc (Z.pos p) l, e)
       end) = (mrs', e + n1)
      /\ 0 <= n1 /\ n1 = Z.max (F1 - e) 0
      /\ truncated_by n (u * 2 ^ n1) mrs').
  { destruct (F1 - e) as [| p1 | p1] eqn:Hn1.
    - exists (shr_record_of_loc (Z.pos p) l), 0.
      rewrite Z.add_0_r, Z.mul_1_r. repeat split; try lia. exact Hstart.
    - exists (SpecFloat.iter_pos shr_1 p1 (shr_record_of_loc (Z.pos p) l)), (Z.pos p1).
      repeat split; try lia.
      apply (iter_pos_truncated_by n u p1 0); [lia |].
      now rewrite Z.mul_1_r.
    - exists (shr_record_of_loc (Z.pos p) l), 0.
      rewrite Z.add_0_r, Z.mul_1_r. repeat split; try lia. exact Hstart. }
  destruct Hfirst as (mrs' & n1 & Hshift & Hn1 & Hn1eq & Htr).
  replace (match F1 - e with
           | Z.pos p1 => (SpecFloat.iter_pos shr_1 p1 (shr_record_of_loc (Z.pos p) l), e + (F1 - e))
           | _ => (shr_record_of_loc (Z.pos p) l, e)
           end) with (mrs', e + n1).
  destruct (round_truncated_by n (u * 2 ^ n1) mrs' Htr) as (Hm1 & Herr1 & Hup1).
  set (m1 := round_nearest_even (shr_m mrs') (loc_of_shr_record mrs')) in *.
  pose proof (pow2_pos n1 Hn1) as Hpn1.
  set (e1 := e + n1) in *.
  assert (He1 : e1 <= B - 52) by (unfold e1; lia).
  (* the size of the rounded mantissa *)
  assert (Hsize : m1 * 2 ^ n1 <= Z.pos p + 2 ^ n1).
  { assert (m1 * 2 ^ n1 * u < (Z.pos p + 1 + 2 ^ n1) * u) by nia.
    assert (m1 * 2 ^ n1 < Z.pos p + 1 + 2 ^ n1) by nia.
    lia. }
  assert (Hdig : Zdigits2 m1 + e1 <= B + 1).
  { destruct m1 as [| q | q] eqn:Eq1; [simpl; lia | | lia].
    simpl Zdigits2.
    assert (Hq : Z.pos q < 2 ^ (Z.max (d - n1) 0 + 1)).
    { destruct (Z_lt_le_dec (d - n1) 0) as [Hneg | Hnn].
      - rewrite Z.max_r by lia. simpl.
        assert (2 ^ d <= 2 ^ n1) by (apply pow2_le; lia).
        change (2 ^ 1) with 2. nia.
      - rewrite Z.max_l by lia.
        assert (Hsp : 2 ^ d = 2 ^ (d - n1) * 2 ^ n1).
        { rewrite <- pow2_split by lia. f_equal. lia. }
        assert (Hone : 2 ^ (d - n1 + 1) = 2 * 2 ^ (d - n1))
          by (rewrite pow2_split by lia; change (2 ^ 1) with 2; lia).
        pose proof (pow2_pos (d - n1) Hnn) as Hpd.
        rewrite Hone. nia. }
    apply digits2_le in Hq. unfold e1. lia. }
  set (F2 := fexp prec emax (Zdigits2 m1 + e1)).
  assert (HF2 : F2 = Z.max (Zdigits2 m1 + e1 - 53) (-1074)) by reflexivity.
  assert (Hfirst_err : Z.abs (m1 * 2 ^ n1 * u - n) <= u * 2 ^ (B - 52 - e)).
  { assert (Hle : 2 ^ n1 <= 2 * 2 ^ (B - 52 - e)).
    { replace (2 * 2 ^ (B - 52 - e)) with (2 ^ (B - 52 - e + 1))
        by (rewrite pow2_split by lia; change (2 ^ 1) with 2; lia).
      apply pow2_le. lia. }
    replace (m1 * 2 ^ n1 * u) with (m1 * (u * 2 ^ n1)) by lia.
    nia. }
  destruct (F2 - e1) as [| p2 | p2] eqn:Hn2.
  - exists m1, e1.
    assert (Hres : shr_m (shr_record_of_loc m1 loc_Exact) = m1) by reflexivity.
    rewrite Hres.
    assert (He : (e1 <=? emax - prec) = true)
      by (apply Z.leb_le; unfold emax, prec; lia).
    split.
    { unfold rounded. destruct m1; [reflexivity | now rewrite He | lia]. }
    split; [exact Hm1 |]. split; [unfold e1; lia |].
    replace (e1 - e) with n1 by (unfold e1; lia). exact Hfirst_err.
  - set (n2 := Z.pos p2) in *.
    assert (Hn2pos : 0 < n2) by (unfold n2; lia).
    pose proof (iter_pos_truncated m1 p2 0 _ (Z.le_refl 0)
                  (truncated_start m1 Hm1)) as Htr2.
    rewrite Z.add_0_l in Htr2. fold n2 in Htr2.
    set (mrs'' := SpecFloat.iter_pos shr_1 p2 (shr_record_of_loc m1 loc_Exact)) in *.
    destruct Htr2 as (rem2 & HM & Heq2 & Hrem2 & _).
    exists (shr_m mrs''), (e1 + n2).
    assert (He : (e1 + n2 <=? emax - prec) = true)
      by (apply Z.leb_le; unfold emax, prec; lia).
    split.
    { unfold rounded. destruct (shr_m mrs''); [reflexivity | now rewrite He | lia]. }
    split; [exact HM |]. split; [unfold e1; lia |].
    replace (e1 + n2 - e) with (n1 + n2) by (unfold e1; lia).
    rewrite pow2_split by lia.
    pose proof (pow2_pos n2 (Z.lt_le_incl _ _ Hn2pos)) as Hpn2.
    assert (Hb : 2 ^ n1 * 2 ^ n2 <= 2 ^ (B - 52 - e)).
    { rewrite <- pow2_split by lia. apply pow2_le. unfold e1 in *. lia. }
    assert (Hmul : shr_m mrs'' * (2 ^ n1 * 2 ^ n2) * u = (m1 - rem2) * (u * 2 ^ n1))
      by nia.
    rewrite Hmul.
    assert (Z.abs ((m1 - rem2) * (u * 2 ^ n1) - n)
            <= rem2 * (u * 2 ^ n1) + Z.abs (m1 * (u * 2 ^ n1) - n)) by lia.
    assert (rem2 * (u * 2 ^ n1) <= (2 ^ n2 - 1) * (u * 2 ^ n1)) by nia.
    assert (u * (2 ^ n1 * 2 ^ n2) <= u * 2 ^ (B - 52 - e)) by nia.
    nia.
  - exists m1, e1.
    assert (Hres : shr_m (shr_record_of_loc m1 loc_Exact) = m1) by reflexivity.
    rewrite Hres.
    assert (He : (e1 <=? emax - prec) = true)
      by (apply Z.leb_le; unfold emax, prec; lia).
    split.
    { unfold rounded. destruct m1; [reflexivity | now rewrite He | lia]. }
    split; [exact Hm1 |]. split; [unfold e1; lia |].
    replace (e1 - e) with n1 by (unfold e1; lia). exact Hfirst_err.
Qed.

Section Quotients.
Local Open Scope Q_scope.

Lemma pow2Q_plus a b : (2 # 1) ^ (a + b) == (2 # 1) ^ a * (2 # 1) ^ b.
Proof. apply Qpower_plus, two_neq_0. Qed.

Lemma pow2Q_of_Z a : (0 <= a)%Z -> inject_Z (2 ^ a) == (2 # 1) ^ a.
Proof. intros H. now rewrite Zpower_Qpower. Qed.

Lemma pow2Q_le a b : (a <= b)%Z -> (2 # 1) ^ a <= (2 # 1) ^ b.
Proof.
  intros H. replace b with (a + (b - a))%Z by lia.
  rewrite pow2Q_plus.
  rewrite <- (Qmult_1_r ((2 # 1) ^ a)) at 1.
  apply Qmult_le_l; [apply pow2Q_pos |].
  rewrite <- pow2Q_of_Z by lia.
  change 1 with (inject_Z 1). rewrite <- Zle_Qle.
  pose proof (pow2_pos (b - a)). lia.
Qed.

(** The value of a positive finite Number lies between two powers of
    two given by its digits. *)
Lemma value_bounds m e :
  (2 # 1) ^ (Z.pos (digits2_pos m) + e - 1) <= SF2Q (S754_finite false m e)
  /\ SF2Q (S754_finite false m e) < (2 # 1) ^ (Z.pos (digits2_pos m) + e).
Proof.
  rewrite finite_value. simpl cond_Zopp.
  pose proof (digits2_pos_bounds m) as [Hlo Hhi].
  split.
  - replace (Z.pos (digits2_pos m) + e - 1)%Z with ((Z.pos (digits2_pos m) - 1) + e)%Z
      by lia.
    rewrite pow2Q_plus.
    apply Qmult_le_compat_r; [| apply Qlt_le_weak, pow2Q_pos].
    rewrite <- pow2Q_of_Z by lia. now rewrite <- Zle_Qle.
  - rewrite pow2Q_plus.
    apply Qmult_lt_compat_r; [apply pow2Q_pos |].
    rewrite <- pow2Q_of_Z by lia. now rewrite <- Zlt_Qlt.
Qed.

(** The product of two positive finite Numbers, below [2^B], is
    rounded with an error of at most [2^(B-52)]. *)
Lemma mul_error mx ex my ey B :
  (-1021 <= B <= 971)%Z ->
  SF2Q (S754_finite false mx ex) * SF2Q (S754_finite false my ey) < (2 # 1) ^ B ->
  exists M E,
    mul (S754_finite false mx ex) (S754_finite false my ey) = rounded false M E
    /\ (0 <= M)%Z
    /\ Qabs (SF2Q (rounded false M E)
             - SF2Q (S754_finite false mx ex) * SF2Q (S754_finite false my ey))
       <= (2 # 1) ^ (B - 52).
Proof.
  intros HB Hlt.
  assert (Hprod : SF2Q (S754_finite false mx ex) * SF2Q (S754_finite false my ey)
                  == inject_Z (Z.pos (mx * my)) * (2 # 1) ^ (ex + ey)).
  { rewrite !finite_value. simpl cond_Zopp.
    rewrite Pos2Z.inj_mul, inject_Z_mult, pow2Q_plus. ring. }
  rewrite Hprod in Hlt.
  pose proof (digits_of_value _ _ _ Hlt) as Hd.
  destruct (binary_round_aux_error false (mx * my) (ex + ey) B Hd HB)
    as (M & E & Hres & HM & HE & Herr).
  exists M, E. split; [exact Hres |]. split; [exact HM |].
  rewrite Hprod.
  apply (rounded_error false M E (Z.pos (mx * my)) (ex + ey) (ex + ey) B HM HE);
    [lia |].
  now rewrite Z.sub_diag, Z.mul_1_r.
Qed.

(** The quotient of two positive finite Numbers: multiplied back by
    the divisor, it is off the dividend by at most [2^-50] of it. *)
Lemma div_error mx ex my ey :
  let k := (Z.pos (digits2_pos mx) + ex - (Z.pos (digits2_pos my) + ey))%Z in
  (-1021 <= k <= 970)%Z ->
  exists M E,
    div (S754_finite false mx ex) (S754_finite false my ey) = rounded false M E
    /\ (0 <= M)%Z
    /\ Qabs (SF2Q (rounded false M E) * SF2Q (S754_finite false my ey)
             - SF2Q (S754_finite false mx ex))
       <= SF2Q (S754_finite false mx ex) * (2 # 1) ^ (-50).
Proof.
  intros k Hk.
  set (d1 := Z.pos (digits2_pos mx)) in *.
  set (d2 := Z.pos (digits2_pos my)) in *.
  pose proof (digits2_pos_bounds mx) as [Hlo1 Hhi1]. fold d1 in Hlo1, Hhi1.
  pose proof (digits2_pos_bounds my) as [Hlo2 Hhi2]. fold d2 in Hlo2, Hhi2.
  assert (Hd1 : (0 < d1)%Z) by (unfold d1; lia).
  assert (Hd2 : (0 < d2)%Z) by (unfold d2; lia).
  unfold div, SFdiv, SFdiv_core_binary. simpl Zdigits2. fold d1 d2. simpl xorb.
  fold k.
  assert (Hfexp : fexp prec emax k = (k - 53)%Z).
  { unfold fexp, emin, emax, prec. lia. }
  rewrite Hfexp.
  set (e' := Z.min (k - 53) (ex - ey)).
  set (s0 := (ex - ey - e')%Z).
  assert (Hs0 : (53 - d1 + d2 <= s0)%Z) by (unfold s0, e', k; lia).
  assert (Hs0' : (0 <= s0)%Z) by (unfold s0, e'; lia).
  set (m' := match s0 with
             | 0%Z => Z.pos mx
             | Z.pos _ => Z.shiftl (Z.pos mx) s0
             | Z.neg _ => 0%Z
             end).
  assert (Hm' : m' = (Z.pos mx * 2 ^ s0)%Z).
  { unfold m'. destruct s0 as [| ps | ps] eqn:Es.
    - simpl. lia.
    - now rewrite Z.shiftl_mul_pow2 by lia.
    - lia. }
  pose proof (Z_div_mod m' (Z.pos my) eq_refl) as Hdm.
  destruct (Z.div_eucl m' (Z.pos my)) as [qq r]. destruct Hdm as [Hqr Hr].
  (* the size of the quotient *)
  assert (Hp1 : (2 ^ (d1 - 1 + s0) <= m')%Z).
  { rewrite Hm', pow2_split by lia. pose proof (pow2_pos s0 Hs0'). nia. }
  assert (Hp2 : (m' < 2 ^ (d1 + s0))%Z).
  { rewrite Hm', pow2_split by lia. pose proof (pow2_pos s0 Hs0'). nia. }
  assert (Hbig : (2 ^ d2 <= 2 ^ (d1 - 1 + s0))%Z) by (apply pow2_le; lia).
  assert (Hqpos : (0 < qq)%Z) by nia.
  assert (Hqhi : (qq < 2 ^ (d1 + s0 - d2 + 1))%Z).
  { assert (Hsp : (2 ^ (d1 + s0) = 2 ^ (d1 + s0 - d2 + 1) * 2 ^ (d2 - 1))%Z).
    { rewrite <- pow2_split by lia. f_equal. lia. }
    pose proof (pow2_pos (d2 - 1)). nia. }
  destruct qq as [| pq | pq]; try lia.
  apply digits2_le in Hqhi.
  assert (Hstart : truncated_by m' (Z.pos my)
                     (shr_record_of_loc (Z.pos pq) (new_location (Z.pos my) r))).
  { replace m' with (Z.pos pq * Z.pos my + r)%Z by lia.
    apply new_location_truncated_by; lia. }
  destruct (binary_round_aux_error_by false pq (new_location (Z.pos my) r) m'
              (Z.pos my) e' (k + 1) Hstart)
    as (M & E & Hres & HM & HE & Herr).
  { unfold s0 in Hqhi. unfold k. lia. }
  { unfold e'. lia. }
  { lia. }
  exists M, E. split; [exact Hres |]. split; [exact HM |].
  (* back to the rationals *)
  rewrite (SF2Q_rounded false M E HM), !finite_value. simpl cond_Zopp.
  assert (Hex : ex = (s0 + (e' + ey))%Z) by (unfold s0; lia).
  assert (Hdiff : inject_Z M * (2 # 1) ^ E * (inject_Z (Z.pos my) * (2 # 1) ^ ey)
                  - inject_Z (Z.pos mx) * (2 # 1) ^ ex
                  == inject_Z (M * 2 ^ (E - e') * Z.pos my - m') * (2 # 1) ^ (e' + ey)).
  { rewrite (rescale M E e' HE).
    rewrite Hex at 1. rewrite (pow2Q_plus s0), (pow2Q_plus e' ey).
    rewrite Hm'. unfold Zminus.
    rewrite inject_Z_plus, inject_Z_opp, !inject_Z_mult.
    rewrite (pow2Q_of_Z s0 Hs0'). ring. }
  rewrite Hdiff, Qabs_Qmult, Qabs_inject_Z.
  rewrite (Qabs_pos ((2 # 1) ^ (e' + ey))) by apply Qlt_le_weak, pow2Q_pos.
  apply Qle_trans
    with (inject_Z (Z.pos my * 2 ^ (k + 1 - 52 - e')) * (2 # 1) ^ (e' + ey)).
  { apply Qmult_le_compat_r; [| apply Qlt_le_weak, pow2Q_pos].
    now rewrite <- Zle_Qle. }
  assert (Hexp : (0 <= k + 1 - 52 - e')%Z) by (unfold e'; lia).
  rewrite inject_Z_mult, (pow2Q_of_Z _ Hexp).
  (* my * 2^(k-51-e') * 2^(e'+ey) = my * 2^ey * 2^(k-51) <= mx * 2^ex * 2^-50 *)
  assert (Hgather : inject_Z (Z.pos my) * (2 # 1) ^ (k + 1 - 52 - e') * (2 # 1) ^ (e' + ey)
                    == inject_Z (Z.pos my) * (2 # 1) ^ (k - 51 + ey)).
  { rewrite <- Qmult_assoc, <- pow2Q_plus.
    now replace (k + 1 - 52 - e' + (e' + ey))%Z with (k - 51 + ey)%Z by lia. }
  rewrite Hgather.
  apply Qle_trans with ((2 # 1) ^ d2 * (2 # 1) ^ (k - 51 + ey)).
  { apply Qmult_le_compat_r; [| apply Qlt_le_weak, pow2Q_pos].
    rewrite <- pow2Q_of_Z by lia. rewrite <- Zle_Qle. lia. }
  rewrite <- pow2Q_plus.
  replace (d2 + (k - 51 + ey))%Z with ((d1 - 1) + (ex + -50))%Z by (unfold k; lia).
  rewrite pow2Q_plus, (pow2Q_plus ex), Qmult_assoc.
  apply Qmult_le_compat_r; [| apply Qlt_le_weak, pow2Q_pos].
  apply Qmult_le_compat_r; [| apply Qlt_le_weak, pow2Q_pos].
  rewrite <- pow2Q_of_Z by lia. now rewrite <- Zle_Qle.
Qed.

End Quotients.

(** *** Amounts that stand for a whole number of raw units *)

(** The powers of ten of the schemas are Numbers, and exact. *)
Lemma pow10_value d :
  0 <= d <= 18 ->
  exists m e,
    pow10 d = S754_finite false m e
    /\ (SF2Q (S754_finite false m e) == inject_Z (10 ^ d))%Q.
Proof.
  intros H.
  assert (Hd : d = 0 \/ d = 1 \/ d = 2 \/ d = 3 \/ d = 4 \/ d = 5 \/ d = 6
               \/ d = 7 \/ d = 8 \/ d = 9 \/ d = 10 \/ d = 11 \/ d = 12
               \/ d = 13 \/ d = 14 \/ d = 15 \/ d = 16 \/ d = 17 \/ d = 18) by lia.
  repeat (destruct Hd as [-> | Hd];
          [eexists; eexists; split; [vm_compute; reflexivity | vm_compute; reflexivity] |]).
  subst d. eexists; eexists; split; [vm_compute; reflexivity | vm_compute; reflexivity].
Qed.

Lemma pow10_range d : 0 <= d <= 18 -> 0 < 10 ^ d < 2 ^ 60.
Proof.
  intros H. split; [apply Z.pow_pos_nonneg; lia |].
  apply Z.le_lt_trans with (10 ^ 18); [apply Z.pow_le_mono_r; lia | reflexivity].
Qed.

Section Amounts.
Local Open Scope Q_scope.

Lemma Qfloor_unique q n :
  inject_Z n <= q -> q < inject_Z (n + 1) -> Qfloor q = n.
Proof.
  intros Hlo Hhi.
  pose proof (Qfloor_le q) as H1. pose proof (Qlt_floor q) as H2.
  assert (n < Qfloor q + 1)%Z
    by (rewrite Zlt_Qlt; eapply Qle_lt_trans; eauto).
  assert (Qfloor q < n + 1)%Z
    by (rewrite Zlt_Qlt; eapply Qle_lt_trans; eauto).
  lia.
Qed.

(** A Number whose value is positive is finite and positive. *)
Lemma positive_value x :
  0 < SF2Q x -> exists m e, x = S754_finite false m e.
Proof.
  destruct x as [s | s | | [] m e]; simpl; intros H;
    try (now apply Qlt_irrefl in H).
  - exfalso. apply (Qlt_irrefl 0). eapply Qlt_le_trans; [exact H |].
    rewrite <- (Qmult_0_l ((2 # 1) ^ e)).
    apply Qmult_le_compat_r; [| apply Qlt_le_weak, pow2Q_pos].
    change 0 with (inject_Z 0). rewrite <- Zle_Qle. lia.
  - eauto.
Qed.

(** The digits of a positive finite Number whose value is the integer
    [r]. *)
Lemma digits_of_integer m e r B :
  SF2Q (S754_finite false m e) == inject_Z r ->
  (0 < r < 2 ^ B)%Z -> (0 <= B)%Z ->
  (1 <= Z.pos (digits2_pos m) + e <= B)%Z.
Proof.
  intros Hv Hr HB.
  pose proof (value_bounds m e) as [Hlo Hhi]. rewrite Hv in Hlo, Hhi.
  split.
  - assert (H1 : (2 # 1) ^ 0 < (2 # 1) ^ (Z.pos (digits2_pos m) + e)).
    { eapply Qle_lt_trans; [| exact Hhi].
      change ((2 # 1) ^ 0) with (inject_Z 1). rewrite <- Zle_Qle. lia. }
    apply (Qpower_lt_compat_l_inv (2 # 1) 0) in H1; [lia | reflexivity].
  - assert (H1 : (2 # 1) ^ (Z.pos (digits2_pos m) + e - 1) < (2 # 1) ^ B).
    { eapply Qle_lt_trans; [exact Hlo |].
      rewrite <- pow2Q_of_Z by lia. rewrite <- Zlt_Qlt. lia. }
    apply (Qpower_lt_compat_l_inv (2 # 1) _ B) in H1; [lia | reflexivity].
Qed.

(** An amount that stands for [n] raw units to within a quarter of a
    unit is converted to [n]. *)
Lemma rawAmount_near x d n :
  (0 <= d <= 18)%Z -> (0 < n < 2 ^ 50)%Z ->
  Qabs (SF2Q x * inject_Z (10 ^ d) - inject_Z n) < 1 # 4 ->
  rawAmount x d = number_of_Z n.
Proof.
  intros Hd Hn Hnear.
  apply Qabs_Qlt_condition in Hnear as [Hlo Hhi].
  pose proof (pow10_range d Hd) as [Hp10 _].
  assert (Hn1 : 1 <= inject_Z n)
    by (change 1 with (inject_Z 1); rewrite <- Zle_Qle; lia).
  assert (Hn2 : inject_Z n <= inject_Z (2 ^ 50 - 1)) by (rewrite <- Zle_Qle; lia).
  change (inject_Z (2 ^ 50 - 1)) with (1125899906842623 # 1) in Hn2.
  assert (Hx : 0 < SF2Q x).
  { destruct (Qlt_le_dec 0 (SF2Q x)) as [H | H]; [exact H | exfalso].
    assert (H0 : SF2Q x * inject_Z (10 ^ d) <= 0 * inject_Z (10 ^ d)).
    { apply Qmult_le_compat_r; [exact H |].
      change 0 with (inject_Z 0). rewrite <- Zle_Qle. lia. }
    Lqa.lra. }
  destruct (positive_value x Hx) as (m & e & ->).
  destruct (pow10_value d Hd) as (mp & ep & Hpow & Hpv).
  unfold rawAmount. rewrite Hpow.
  assert (Hlt : SF2Q (S754_finite false m e) * SF2Q (S754_finite false mp ep)
                < (2 # 1) ^ 50).
  { rewrite Hpv. change ((2 # 1) ^ 50) with (1125899906842624 # 1). Lqa.lra. }
  destruct (mul_error m e mp ep 50 ltac:(lia) Hlt) as (M & E & Hres & HM & Herr).
  rewrite Hres. rewrite Hpv in Herr.
  change ((2 # 1) ^ (50 - 52)) with (1 # 4) in Herr.
  apply Qabs_Qle_condition in Herr as [Helo Hehi].
  set (w := SF2Q (rounded false M E)) in *.
  assert (Hfloor : Qfloor (w + (1 # 2)) = n).
  { apply Qfloor_unique; [| rewrite inject_Z_plus; change (inject_Z 1) with 1]; Lqa.lra. }
  destruct M as [| pm | pm]; [| | lia].
  - exfalso. assert (Hw : w == 0) by reflexivity. clearbody w. Lqa.lra.
  - unfold rounded in *. unfold Math_round. fold w. rewrite Hfloor.
    destruct (Z.eqb_spec n 0); [lia | reflexivity].
Qed.

End Amounts.

Section Exact.
Local Open Scope Q_scope.

(** Dividing the integer [r] by the integer [b] and multiplying the
    quotient back by [b] gives [r] to within a quarter, for [r] below
    [2^48]. *)
Lemma div_near mx ex my ey r b :
  SF2Q (S754_finite false mx ex) == inject_Z r ->
  SF2Q (S754_finite false my ey) == inject_Z b ->
  (0 < r < 2 ^ 48)%Z -> (0 < b < 2 ^ 60)%Z ->
  exists M E,
    div (S754_finite false mx ex) (S754_finite false my ey) = rounded false M E
    /\ Qabs (SF2Q (rounded false M E) * inject_Z b - inject_Z r) < 1 # 4.
Proof.
  intros Hx Hy Hr Hb.
  pose proof (digits_of_integer mx ex r 48 Hx Hr ltac:(lia)) as Hdx.
  pose proof (digits_of_integer my ey b 60 Hy Hb ltac:(lia)) as Hdy.
  destruct (div_error mx ex my ey ltac:(lia)) as (M & E & Hres & _ & Herr).
  exists M, E. split; [exact Hres |].
  rewrite Hx, Hy in Herr.
  eapply Qle_lt_trans; [exact Herr |].
  assert (Hr2 : inject_Z r <= inject_Z (2 ^ 48 - 1)) by (rewrite <- Zle_Qle; lia).
  change (inject_Z (2 ^ 48 - 1)) with (281474976710655 # 1) in Hr2.
  change ((2 # 1) ^ (-50)) with (1 # 1125899906842624).
  Lqa.lra.
Qed.

End Exact.

(** X22.  An amount whose value, times [10^decimals], is within a
    quarter of the integer [n], for [n] below [2^50] and decimals from
    0 through 18, is converted to exactly [n] raw units by
    [Math.round(amount * 10 ** decimals)]; with 9 decimals this is also
    what [Math.round(sol_amount * LAMPORTS_PER_SOL)] gives. *)
Theorem rawAmount_exact_near_integer (amount : number) (decimals n : Z) :
  0 <= decimals <= 18 ->
  0 < n < 2 ^ 50 ->
  (Qabs (SF2Q amount * inject_Z (10 ^ decimals) - inject_Z n) < 1 # 4)%Q ->
  rawAmount amount decimals = number_of_Z n
  /\ (decimals = 9 -> rawSolAmount amount = number_of_Z n).
Proof.
  intros Hd Hn Hnear.
  pose proof (rawAmount_near amount decimals n Hd Hn Hnear) as Hraw.
  split; [exact Hraw |].
  intros ->. exact Hraw.
Qed.

(** 0.1 SOL is 100000000 lamports, although the Number 0.1 is not one
    tenth. *)
Lemma rawAmount_exact_near_integer_witness :
  rawAmount (number_of_decimal 1 1) 9 = number_of_Z 100000000
  /\ (9 = 9 -> rawSolAmount (number_of_decimal 1 1) = number_of_Z 100000000).
Proof.
  apply (rawAmount_exact_near_integer (number_of_decimal 1 1) 9 100000000).
  - lia.
  - vm_compute. split; reflexivity.
  - vm_compute. reflexivity.
Defined.

(** X23.  An amount written as the decimal literal of [n / 10^k], for
    [n] below [2^48] and [k] at most 18, and converted with [k]
    decimals, gives exactly [n] raw units: the division that reads the
    literal and the multiplication that converts it each round once,
    and [Math.round] removes both errors. *)
Theorem rawAmount_of_decimal_literal (n : Z) (k : nat) :
  0 < n < 2 ^ 48 ->
  (k <= 18)%nat ->
  rawAmount (number_of_decimal n k) (Z.of_nat k) = number_of_Z n.
Proof.
  intros Hn Hk.
  assert (Hd : 0 <= Z.of_nat k <= 18) by lia.
  pose proof (pow10_range _ Hd) as Hp.
  destruct n as [| p | p]; try lia.
  unfold number_of_decimal.
  destruct (div_near p 0 (Z.to_pos (10 ^ Z.of_nat k)) 0 (Z.pos p) (10 ^ Z.of_nat k))
    as (M & E & Hres & Hnear); try lia.
  - rewrite finite_value. simpl cond_Zopp.
    change ((2 # 1) ^ 0)%Q with 1%Q. apply Qmult_1_r.
  - rewrite finite_value. simpl cond_Zopp.
    rewrite Z2Pos.id by lia.
    change ((2 # 1) ^ 0)%Q with 1%Q. apply Qmult_1_r.
  - unfold div in Hres. rewrite Hres.
    apply rawAmount_near; [exact Hd | | exact Hnear].
    split; [lia |]. apply Z.lt_trans with (2 ^ 48); [lia | reflexivity].
Qed.

(** 1.5 units of a token with 6 decimals. *)
Lemma rawAmount_of_decimal_literal_witness :
  rawAmount (number_of_decimal 1500000 6) (Z.of_nat 6) = number_of_Z 1500000.
Proof.
  apply (rawAmount_of_decimal_literal 1500000 6).
  - vm_compute. split; reflexivity.
  - lia.
Defined.

(** X24.  The round trip of [buy_and_sell] on the amount bought:
    when the [outAmount] of the buy quote reads as the integer [r],
    with [r] below [2^48], and the token has from 0 through 18
    decimals, [Math.round(Number(outAmount) / 10 ** d * 10 ** d)] is
    exactly [r]: the sell quote is asked for the amount that was
    bought. *)
Theorem rawTokenAmount_exact (buyOutAmount : string) (tokenDecimals r : Z) :
  0 <= tokenDecimals <= 18 ->
  0 < r < 2 ^ 48 ->
  (SF2Q (Number buyOutAmount) == inject_Z r)%Q ->
  rawTokenAmount buyOutAmount (Some tokenDecimals) = number_of_Z r.
Proof.
  intros Hd Hr Hvalue.
  assert (Hpos : (0 < SF2Q (Number buyOutAmount))%Q).
  { rewrite Hvalue. change 0%Q with (inject_Z 0). rewrite <- Zlt_Qlt. lia. }
  unfold rawTokenAmount, tokenAmount, pow10_of.
  destruct (positive_value _ Hpos) as (mx & ex & Hnum). rewrite Hnum in *.
  destruct (pow10_value _ Hd) as (mp & ep & Hpow & Hpv).
  pose proof (pow10_range _ Hd) as Hp.
  destruct (div_near mx ex mp ep r (10 ^ tokenDecimals) Hvalue Hpv Hr Hp)
    as (M & E & Hres & Hnear).
  rewrite Hpow at 1. rewrite Hres.
  apply (rawAmount_near (rounded false M E) tokenDecimals r Hd); [| exact Hnear].
  split; [lia |]. apply Z.lt_trans with (2 ^ 48); [lia | reflexivity].
Qed.

(** 123456 raw units of a token with 5 decimals. *)
Lemma rawTokenAmount_exact_witness :
  rawTokenAmount "123456" (Some 5) = number_of_Z 123456.
Proof.
  apply (rawTokenAmount_exact "123456" 5 123456).
  - lia.
  - vm_compute. split; reflexivity.
  - vm_compute. reflexivity.
Defined.

(** *** Integers below [2^53] are Numbers *)

Lemma number_of_Z_exact p :
  Z.pos p < 2 ^ 53 ->
  exists m e,
    number_of_Z (Z.pos p) = S754_finite false m e
    /\ (SF2Q (S754_finite false m e) == inject_Z (Z.pos p))%Q.
Proof.
  intros Hp. apply digits2_le in Hp.
  set (dp := Z.pos (digits2_pos p)) in *.
  assert (Hdp : 0 < dp) by (unfold dp; lia).
  unfold number_of_Z, binary_normalize, binary_round. fold dp.
  assert (Hfexp : fexp prec emax (dp + 0) = dp - 53)
    by (unfold fexp, emin, emax, prec; lia).
  rewrite Hfexp.
  pose proof (shl_align_value p 0 (dp - 53)) as Hal.
  destruct (shl_align p 0 (dp - 53)) as [mz ez].
  destruct Hal as (_ & Hmz & Hez). specialize (Hez ltac:(lia)). subst ez.
  replace (0 - (dp - 53)) with (53 - dp) in Hmz by lia.
  pose proof (digits2_pos_bounds p) as [Hlo Hhi]. fold dp in Hlo, Hhi.
  assert (Hdz : Z.pos (digits2_pos mz) = 53).
  { pose proof (digits2_pos_bounds mz) as [Hlz Hhz].
    assert (H52 : 2 ^ 52 <= Z.pos mz).
    { rewrite Hmz. replace 52 with ((dp - 1) + (53 - dp)) by lia.
      rewrite pow2_split by lia. pose proof (pow2_pos (53 - dp)). nia. }
    assert (H53 : Z.pos mz < 2 ^ 53).
    { rewrite Hmz. replace 53 with (dp + (53 - dp)) at 2 by lia.
      rewrite pow2_split by lia. pose proof (pow2_pos (53 - dp)). nia. }
    apply digits2_le in H53.
    destruct (Z_lt_le_dec (Z.pos (digits2_pos mz)) 53) as [Hlt | Hge]; [| lia].
    exfalso.
    assert (2 ^ Z.pos (digits2_pos mz) <= 2 ^ 52) by (apply pow2_le; lia).
    lia. }
  unfold binary_round_aux, shr_fexp, shr. simpl Zdigits2. rewrite Hdz.
  assert (Hf : fexp prec emax (53 + (dp - 53)) - (dp - 53) = 0)
    by (unfold fexp, emin, emax, prec; lia).
  rewrite Hf.
  lazy beta iota zeta delta [shr_record_of_loc shr_m shr_r shr_s loc_of_shr_record
                               round_nearest_even Zdigits2].
  rewrite Hdz, Hf.
  assert (He : (dp - 53 <=? emax - prec) = true)
    by (apply Z.leb_le; unfold emax, prec; lia).
  rewrite He.
  exists mz, (dp - 53). split; [reflexivity |].
  rewrite finite_value. simpl cond_Zopp. rewrite Hmz.
  rewrite inject_Z_mult, pow2Q_of_Z by lia.
  rewrite <- Qmult_assoc, <- pow2Q_plus.
  replace (53 - dp + (dp - 53)) with 0 by lia.
  change ((2 # 1) ^ 0)%Q with 1%Q. apply Qmult_1_r.
Qed.

(** X25.  The balance that [getSolBalance] reports, taken as the
    [sol_amount] of a purchase, converts back to the balance: for a
    balance of [lamports] below [2^48], [Math.round(balance /
    LAMPORTS_PER_SOL * LAMPORTS_PER_SOL)] is exactly [lamports]. *)
Theorem sol_balance_round_trip
    (W : world) (connection : Connection) (publicKey : PublicKey)
    (s : state) (lamports : Z) :
  0 < lamports < 2 ^ 48 ->
  rpc_getBalance W (calls s) publicKey = Return lamports ->
  exists solBalance,
    getSolBalance W connection publicKey s
    = (Return solBalance, after s [GetBalance publicKey])
    /\ rawSolAmount solBalance = number_of_Z lamports.
Proof.
  intros Hl Hbal.
  unfold getSolBalance, bind, request, ret, after. simpl. rewrite Hbal.
  eexists. split; [reflexivity |].
  destruct lamports as [| p | p]; try lia.
  destruct (number_of_Z_exact p) as (mx & ex & Hnum & Hvalue).
  { apply Z.lt_trans with (2 ^ 48); [lia | reflexivity]. }
  rewrite Hnum.
  destruct (pow10_value 9 ltac:(lia)) as (mp & ep & Hpow & Hpv).
  change LAMPORTS_PER_SOL with (pow10 9). rewrite Hpow.
  destruct (div_near mx ex mp ep (Z.pos p) (10 ^ 9) Hvalue Hpv Hl)
    as (M & E & Hres & Hnear).
  { split; reflexivity. }
  rewrite Hres, <- Hnum.
  change (rawSolAmount (rounded false M E)) with (rawAmount (rounded false M E) 9).
  apply rawAmount_near; [lia | | exact Hnear].
  split; [lia |]. apply Z.lt_trans with (2 ^ 48); [lia | reflexivity].
Qed.

(** A wallet of 2.5 SOL. *)
Lemma sol_balance_round_trip_witness :
  exists solBalance,
    getSolBalance (Scenario.holding []) Scenario.a_connection
                  Scenario.wallet_address Scenario.fresh
    = (Return solBalance,
       after Scenario.fresh [GetBalance Scenario.wallet_address])
    /\ rawSolAmount solBalance = number_of_Z 2500000000.
Proof.
  apply (sol_balance_round_trip (Scenario.holding []) Scenario.a_connection
           Scenario.wallet_address Scenario.fresh 2500000000).
  - vm_compute. split; reflexivity.
  - reflexivity.
Defined.
